(** * Remote browser session engine: input translator, frame loops, signaling

    A shallow embedding of the server programs of the repository: [app.py]
    (polling transport: still frames pushed over a websocket, input events
    translated into calls on a Playwright page), [request_listen.py]
    (real-time transport: a media track fed by a capture loop, and the
    offer/answer/candidate handshake), and the navigation method of
    [GUI-Playwright.py]; together with the properties of the design document
    that concern them, each proved, or refuted and amended, on the embedding.

    Conventions of the embedding.
    - A parsed JSON message is a value of type [json]; a Python [dict] with
      string keys is an association list looked up from the left.
    - A Python [str] is kept as the [string] of its UTF-8 encoding, which is
      how a string literal is read here; comparing with an ASCII literal is
      comparing strings, and [len] counts the bytes that begin a
      character.
    - Every call into the browser, the websocket or a third-party library is
      appended to the [trace] of the world in program order, whether it
      returns or raises.  Whether such a call raises, and what it returns, is
      decided by an environment [Env] that sees all calls made so far.
    - A coroutine is a state-and-exception computation [M]: the world is
      threaded through and survives a raised exception, as mutation does in
      Python.
    - A [while] loop is run for a number of passes [n]; statements about a
      loop quantify over every [n].  Two coroutines of one connection are
      interleaved pass by pass: the fields they share have one writer each.

    Layout: the programs ([App], [RequestListen], [GuiPlaywright]), the
    vocabulary of the properties ([AppSpec], [RequestListenSpec]), sample
    inputs, then the proofs ([AppFacts], [GuiPlaywrightFacts],
    [RequestListenFacts]). *)

From Stdlib Require Import ZArith QArith Qminmax String Ascii List Bool Lia.
From stdpp Require Import base option list gmap strings.
Import ListNotations.
Local Open Scope string_scope.

(** ** Python values *)

#[local] Set Warnings "-register-all".

Inductive json : Type :=
| JNull
| JBool (b : bool)
| JInt (z : Z)
| JFloat (q : Q)
| JStr (s : string)
| JList (l : list json)
| JDict (d : list (string * json)).

(** Exceptions raised by the modelled code or by its collaborators. *)
Inductive exn : Type :=
| KeyError (k : string)
| TypeError
| AttributeError
| ValueError (msg : string)
| RuntimeError (msg : string)
| JSONDecodeError
| WebSocketDisconnect
| ExternalError.

Inductive result (A : Type) : Type :=
| Ok (a : A)
| Raise (e : exn).
Arguments Ok {A} a.
Arguments Raise {A} e.

(** [d.get(k)] on an association list. *)
Fixpoint dict_lookup (k : string) (d : list (string * json)) : option json :=
  match d with
  | [] => None
  | (k', v) :: d' => if String.eqb k k' then Some v else dict_lookup k d'
  end.

(** [k in d] *)
Definition dict_has (k : string) (d : list (string * json)) : bool :=
  match dict_lookup k d with Some _ => true | None => false end.

(** [isinstance(v, dict)] *)
Definition is_dict (v : json) : bool :=
  match v with JDict _ => true | _ => false end.

(** [v is None] *)
Definition is_none (v : json) : bool :=
  match v with JNull => true | _ => false end.

(** [v == s] for a string literal [s]. *)
Definition json_eq_str (v : json) (s : string) : bool :=
  match v with JStr t => String.eqb t s | _ => false end.

(** [v in [s1, ..., sn]] for a list of string literals. *)
Definition json_in_strs (v : json) (l : list string) : bool :=
  existsb (json_eq_str v) l.

(** Truth value of a Python object in a condition. *)
Definition truthy (v : json) : bool :=
  match v with
  | JNull => false
  | JBool b => b
  | JInt z => negb (Z.eqb z 0)
  | JFloat q => negb (Qeq_bool q 0)
  | JStr s => negb (String.eqb s "")
  | JList l => match l with [] => false | _ => true end
  | JDict d => match d with [] => false | _ => true end
  end.

(** [len(s)] for a [str] kept as its UTF-8 encoding: the number of its code
    points, which is the number of bytes that are not of the form
    [10xxxxxx]. *)
Definition utf8_continuation (c : ascii) : bool :=
  match c with
  | Ascii _ _ _ _ _ _ b6 b7 => (b7 && negb b6)%bool
  end.

Fixpoint py_str_len (s : string) : nat :=
  match s with
  | EmptyString => O
  | String c rest =>
      ((if utf8_continuation c then 0 else 1) + py_str_len rest)%nat
  end.

(** ** State and exception computations *)

Definition M (S A : Type) : Type := S -> result A * S.

Definition ret {S A} (a : A) : M S A := fun s => (Ok a, s).

Definition raise {S A} (e : exn) : M S A := fun s => (Raise e, s).

Definition bind {S A B} (m : M S A) (k : A -> M S B) : M S B :=
  fun s => match m s with
           | (Ok a, s') => k a s'
           | (Raise e, s') => (Raise e, s')
           end.

(** [try: m  except Exception as e: h e] *)
Definition try_except {S A} (m : M S A) (h : exn -> M S A) : M S A :=
  fun s => match m s with
           | (Ok a, s') => (Ok a, s')
           | (Raise e, s') => h e s'
           end.

Declare Scope py_scope.
Delimit Scope py_scope with py.
Notation "x <- m ;; k" := (bind m (fun x => k))
  (at level 100, m at next level, k at level 200, only parsing) : py_scope.
Notation "m ;; k" := (bind m (fun _ => k))
  (at level 100, k at level 200, only parsing) : py_scope.
Local Open Scope py_scope.

(** A computation every run of which, returning or raising, takes a state to
    one that [R] relates to it. *)
Definition relates {S A} (R : S -> S -> Prop) (m : M S A) : Prop :=
  forall s r s', m s = (r, s') -> R s s'.

(** Every run of [m] raises, and relates the state it leaves to the state
    it started from. *)
Definition stops {S A} (R : S -> S -> Prop) (m : M S A) : Prop :=
  forall s r s', m s = (r, s') -> R s s' /\ exists e, r = Raise e.

(** [v[k]] for a string literal [k]. *)
Definition py_getitem {S} (v : json) (k : string) : M S json :=
  match v with
  | JDict d => match dict_lookup k d with
               | Some x => ret x
               | None => raise (KeyError k)
               end
  | _ => raise TypeError
  end.

(** [v.get(k, default)] *)
Definition py_get {S} (v : json) (k : string) (default : json) : M S json :=
  match v with
  | JDict d => match dict_lookup k d with
               | Some x => ret x
               | None => ret default
               end
  | _ => raise AttributeError
  end.

(** Whether a loop is still iterating or has left its [while]. *)
Inductive LoopStatus : Type := Running | Exited.

(** ** [base64.b64encode(bytes).decode("utf-8")] *)

Definition b64_alphabet : list ascii :=
  list_ascii_of_string
    "ABCDEFGHIJKLMNOPQRSTUVWXYZabcdefghijklmnopqrstuvwxyz0123456789+/".

Definition b64_digit (n : N) : ascii :=
  nth (N.to_nat n) b64_alphabet "="%char.

Fixpoint b64encode (bs : list Byte.byte) : string :=
  match bs with
  | [] => ""
  | [a] =>
      let x := Byte.to_N a in
      String (b64_digit (x / 4))
        (String (b64_digit ((x mod 4) * 16)) "==")
  | [a; b] =>
      let x := Byte.to_N a in
      let y := Byte.to_N b in
      String (b64_digit (x / 4))
        (String (b64_digit ((x mod 4) * 16 + y / 16))
           (String (b64_digit ((y mod 16) * 4)) "="))
  | a :: b :: c :: rest =>
      let x := Byte.to_N a in
      let y := Byte.to_N b in
      let z := Byte.to_N c in
      String (b64_digit (x / 4))
        (String (b64_digit ((x mod 4) * 16 + y / 16))
           (String (b64_digit ((y mod 16) * 4 + z / 64))
              (String (b64_digit (z mod 64)) (b64encode rest))))
  end.

(** * The polling transport: [app.py] *)

Module App.

(** What the program does to the outside world, in program order. *)
Inductive Effect : Type :=
| WsAccept
| LaunchBrowser
| CloseBrowser
| PageMouseMove (x y : json)
| PageMouseClick (x y : json)
| PageMouseDown
| PageMouseUp
| PageMouseWheel (delta_x delta_y : json)
| PageKeyboardPress (key : string)
| PageKeyboardType (key : string)
| PageBringToFront
| PageReload
| PageGoto (url : json)
| PageSetViewportSize (width height : json)
| PageScreenshot (type : string) (quality : Z)
| WsSendJson (msg : json)
| Sleep (seconds : Q)
| Print (line : LogLine)
with LogLine : Type :=
| LogUnhandledKey (key : json)
| LogScreenshotError (e : exn)
| LogReceived (message : json)
| LogDisconnected (session_id : string)
| LogError (e : exn).

(** The collaborators: given the calls made so far, does the next call raise,
    and which image does a screenshot of a given type and quality return. *)
Record Env : Type := mkEnv {
  raises : list Effect -> Effect -> bool;
  screenshot_bytes : list Effect -> string -> Z -> list Byte.byte
}.

(** One entry of [active_sessions].  The handles of the entry ([playwright],
    [browser], [context], [page]) are opaque and only reached through the
    calls of [Effect]. *)
Record Session : Type := mkSession {
  last_screenshot : option string;
  mouse_down : bool
}.

Record World : Type := mkWorld {
  active_sessions : gmap string Session;
  trace : list Effect
}.

Definition set_sessions (m : gmap string Session) (w : World) : World :=
  mkWorld m (trace w).

Definition log (e : Effect) (w : World) : World :=
  mkWorld (active_sessions w) (trace w ++ [e]).

Section WithEnv.

Variable env : Env.

(** A call into a collaborator: recorded, then it returns or raises. *)
Definition call (e : Effect) : M World unit :=
  fun w => if raises env (trace w) e
           then (Raise ExternalError, log e w)
           else (Ok tt, log e w).

(** [asyncio.sleep] and [print] are recorded and return. *)
Definition emit (e : Effect) : M World unit :=
  fun w => (Ok tt, log e w).

(** [await page.screenshot(type=..., quality=...)] *)
Definition page_screenshot (type : string) (quality : Z)
  : M World (list Byte.byte) :=
  fun w => let e := PageScreenshot type quality in
           if raises env (trace w) e
           then (Raise ExternalError, log e w)
           else (Ok (screenshot_bytes env (trace w) type quality), log e w).

(** [active_sessions[session_id]] *)
Definition get_session (session_id : string) : M World Session :=
  fun w => match active_sessions w !! session_id with
           | Some s => (Ok s, w)
           | None => (Raise (KeyError session_id), w)
           end.

(** [active_sessions[session_id]["mouse_down"] = b] *)
Definition set_mouse_down (session_id : string) (b : bool) : M World unit :=
  s <- get_session session_id ;;
  fun w => (Ok tt,
            set_sessions
              (<[session_id := mkSession (last_screenshot s) b]>
                 (active_sessions w)) w).

(** [active_sessions[session_id]["last_screenshot"] = v] *)
Definition set_last_screenshot (session_id : string) (v : string)
  : M World unit :=
  s <- get_session session_id ;;
  fun w => (Ok tt,
            set_sessions
              (<[session_id := mkSession (Some v) (mouse_down s)]>
                 (active_sessions w)) w).

(** [start_browser_session]: the browser is launched with a page of 1280 by
    720, and the entry starts with no screenshot recorded and the button
    up. *)
Definition start_browser_session (session_id : string) : M World unit :=
  call LaunchBrowser ;;
  fun w => (Ok tt,
            set_sessions
              (<[session_id := mkSession None false]> (active_sessions w)) w).

(** [close_browser_session] *)
Definition close_browser_session (session_id : string) : M World unit :=
  s <- (fun w => (Ok (active_sessions w !! session_id), w)) ;;
  match s with
  | Some _ =>
      call CloseBrowser ;;
      fun w => (Ok tt,
                set_sessions (delete session_id (active_sessions w)) w)
  | None => ret tt
  end.

(** [handle_mouse_event(page, event, session_id)] *)
Definition handle_mouse_event (event : json) (session_id : string)
  : M World unit :=
  event_type <- py_getitem event "eventType" ;;
  x <- py_getitem event "x" ;;
  y <- py_getitem event "y" ;;
  is_double_click <- py_get event "isDoubleClick" (JBool false) ;;
  (if json_eq_str event_type "mousedown"
   then set_mouse_down session_id true
   else if json_in_strs event_type ["mouseup"; "dblclick"]
        then set_mouse_down session_id false
        else ret tt) ;;
  call (PageMouseMove x y) ;;
  if json_eq_str event_type "mousedown" then
    call (PageMouseClick x y)
  else if json_eq_str event_type "mouseup" then
    call PageMouseUp
  else if json_eq_str event_type "dblclick" then
    call PageMouseDown ;;
    call PageMouseUp ;;
    emit (Sleep (1 # 10)) ;;
    call PageMouseDown ;;
    call PageMouseUp
  else if json_eq_str event_type "mousemove" then
    s <- get_session session_id ;;
    if mouse_down s then call (PageMouseMove x y) else ret tt
  else ret tt.

Definition special_keys : list (string * string) :=
  [ ("Backspace", "Backspace"); ("Enter", "Enter"); ("Tab", "Tab");
    ("Escape", "Escape"); ("ArrowLeft", "ArrowLeft");
    ("ArrowRight", "ArrowRight"); ("ArrowUp", "ArrowUp");
    ("ArrowDown", "ArrowDown"); ("Delete", "Delete"); ("Home", "Home");
    ("End", "End"); ("PageUp", "PageUp"); ("PageDown", "PageDown") ].

Fixpoint special_keys_lookup (k : string) (d : list (string * string))
  : option string :=
  match d with
  | [] => None
  | (k', v) :: d' => if String.eqb k k' then Some v else special_keys_lookup k d'
  end.

(** [key in special_keys]: hashing a list or a dict raises, any other value
    that is not one of the string keys is absent. *)
Definition in_special_keys (key : json) : M World (option string) :=
  match key with
  | JStr k => ret (special_keys_lookup k special_keys)
  | JList _ | JDict _ => raise TypeError
  | _ => ret None
  end.

(** [len(key)] *)
Definition py_len (key : json) : M World nat :=
  match key with
  | JStr k => ret (py_str_len k)
  | JList l => ret (List.length l)
  | JDict d => ret (List.length d)
  | _ => raise TypeError
  end.

(** The list [modifiers] that the handler collects. *)
Definition modifiers_of (shift ctrl alt meta : json) : list string :=
  (if truthy shift then ["Shift"] else []) ++
  (if truthy ctrl then ["Control"] else []) ++
  (if truthy alt then ["Alt"] else []) ++
  (if truthy meta then ["Meta"] else []).

(** [handle_keyboard_event(page, event)] *)
Definition handle_keyboard_event (event : json) : M World unit :=
  event_type <- py_getitem event "eventType" ;;
  key <- py_getitem event "key" ;;
  code <- py_get event "code" (JStr "") ;;
  shift <- py_get event "shiftKey" (JBool false) ;;
  ctrl <- py_get event "ctrlKey" (JBool false) ;;
  alt <- py_get event "altKey" (JBool false) ;;
  meta <- py_get event "metaKey" (JBool false) ;;
  let modifiers := modifiers_of shift ctrl alt meta in
  call PageBringToFront ;;
  if json_eq_str event_type "keydown" then
    special <- in_special_keys key ;;
    match special with
    | Some mapped => call (PageKeyboardPress mapped)
    | None =>
        n <- py_len key ;;
        if Nat.eqb n 1 then
          match key with
          | JStr k => call (PageKeyboardType k)
          | _ => raise TypeError
          end
        else if json_eq_str key "F5" then
          call PageReload
        else
          emit (Print (LogUnhandledKey key))
    end
  else if json_eq_str event_type "keyup" then
    ret tt
  else ret tt.

(** [handle_scroll_event(page, event)] *)
Definition handle_scroll_event (event : json) : M World unit :=
  delta_x <- py_get event "deltaX" (JInt 0) ;;
  delta_y <- py_get event "deltaY" (JInt 0) ;;
  call (PageMouseWheel delta_x delta_y).

(** [handle_navigation_event(page, event)] *)
Definition handle_navigation_event (event : json) : M World unit :=
  url <- py_getitem event "url" ;;
  call (PageGoto url).

(** The JSON object sent for one frame. *)
Definition screenshot_message (base64_image : string) : json :=
  JDict [ ("type", JStr "screenshot");
          ("data", JStr ("data:image/jpeg;base64," ++ base64_image)) ].

(** [base64_image != active_sessions[session_id]["last_screenshot"]]:
    a string differs from [None]. *)
Definition differs_from (base64_image : string) (last : option string)
  : bool :=
  match last with
  | Some l => negb (String.eqb base64_image l)
  | None => true
  end.

(** The [try] block inside [send_screenshots]: one capture, compared with
    the last frame recorded, sent and recorded when different, then the
    pause. *)
Definition send_screenshots_body (session_id : string) : M World unit :=
  screenshot <- page_screenshot "jpeg" 80 ;;
  let base64_image := b64encode screenshot in
  s <- get_session session_id ;;
  (if differs_from base64_image (last_screenshot s) then
     call (WsSendJson (screenshot_message base64_image)) ;;
     set_last_screenshot session_id base64_image
   else ret tt) ;;
  emit (Sleep (1 # 1000)).

(** [send_screenshots], run for at most [n] passes of its [while True].
    An exception in the body is printed and [break]s the loop. *)
Fixpoint send_screenshots (n : nat) (session_id : string)
  : M World LoopStatus :=
  match n with
  | O => ret Running
  | S n' =>
      st <- try_except
              (send_screenshots_body session_id ;; ret Running)
              (fun e => emit (Print (LogScreenshotError e)) ;; ret Exited) ;;
      match st with
      | Running => send_screenshots n' session_id
      | Exited => ret Exited
      end
  end.

(** The initial frame of [websocket_endpoint]: captured and sent, not
    recorded in the session. *)
Definition send_initial_screenshot : M World unit :=
  screenshot <- page_screenshot "jpeg" 85 ;;
  let base64_image := b64encode screenshot in
  call (WsSendJson (screenshot_message base64_image)).

(** The body of the receive loop once a message has been parsed. *)
Definition handle_message (message : json) (session_id : string)
  : M World unit :=
  emit (Print (LogReceived message)) ;;
  type <- py_getitem message "type" ;;
  if json_eq_str type "mouse" then
    handle_mouse_event message session_id
  else if json_eq_str type "keyboard" then
    handle_keyboard_event message
  else if json_eq_str type "scroll" then
    handle_scroll_event message
  else if json_eq_str type "navigation" then
    handle_navigation_event message
  else if json_eq_str type "resize" then
    width <- py_getitem message "width" ;;
    height <- py_getitem message "height" ;;
    call (PageSetViewportSize width height)
  else ret tt.

End WithEnv.

(** What happens next on a connection: the client's text arrives (with the
    result of [json.loads], [None] when it is not JSON), the client goes
    away, or the screenshot task gets to run one pass of its loop. *)
Inductive Tick : Type :=
| ClientMessage (parsed : option json)
| ClientDisconnect
| FrameTick.

Section Endpoint.

Variable env : Env.

(** The receive loop of [websocket_endpoint] interleaved with the screenshot
    task, whose status is [task].  The loop only ends by an exception. *)
Fixpoint serve (schedule : list Tick) (session_id : string)
  (task : LoopStatus) : M World LoopStatus :=
  match schedule with
  | [] => ret task
  | FrameTick :: rest =>
      match task with
      | Running =>
          st <- send_screenshots env 1 session_id ;;
          serve rest session_id st
      | Exited => serve rest session_id Exited
      end
  | ClientMessage (Some message) :: rest =>
      handle_message env message session_id ;;
      serve rest session_id task
  | ClientMessage None :: _ => raise JSONDecodeError
  | ClientDisconnect :: _ => raise WebSocketDisconnect
  end.

(** How far a connection got. *)
Inductive Connection : Type :=
| Serving (task : LoopStatus)
| Closed.

(** [websocket_endpoint(websocket, session_id)].  When the initial frame
    fails, the [finally] block finds [screenshot_task] unbound and raises
    before the session is closed. *)
Definition websocket_endpoint (schedule : list Tick) (session_id : string)
  : M World Connection :=
  call env WsAccept ;;
  (fun w => match active_sessions w !! session_id with
            | Some _ => (Ok tt, w)
            | None => start_browser_session env session_id w
            end) ;;
  fun w =>
    match send_initial_screenshot env w with
    | (Raise e, w1) =>
        (emit (Print (LogError e)) ;;
         raise (RuntimeError "UnboundLocalError: screenshot_task")) w1
    | (Ok _, w1) =>
        match serve schedule session_id Running w1 with
        | (Ok task, w2) => (Ok (Serving task), w2)
        | (Raise e, w2) =>
            (emit (Print (match e with
                          | WebSocketDisconnect => LogDisconnected session_id
                          | _ => LogError e
                          end)) ;;
             close_browser_session env session_id ;;
             ret Closed) w2
        end
    end.

End Endpoint.

End App.

(** * The real-time transport: [request_listen.py] *)

Module RequestListen.

(** ** Images

    A [numpy] array is kept as the expression that built it; [shape] gives
    its dimensions.  The shape rules are those of the libraries: a decoded
    picture is [(height, width)] or [(height, width, channels)];
    [cv2.cvtColor(_, COLOR_RGBA2RGB)] wants four channels and leaves three;
    [cv2.resize(_, (w, h))] wants a non-empty picture of two or three
    dimensions and keeps the channels; [cv2.putText] draws in place. *)
Inductive ndarray : Type :=
| FromImage (dims : list nat) (png : list Byte.byte)
| Zeros (dims : list nat)
| CvtColorRGBA2RGB (a : ndarray)
| Resize (a : ndarray) (width height : nat)
| PutText (a : ndarray) (text : string) (org : Z * Z) (font_scale : Z)
    (color : Z * Z * Z) (thickness : Z).

Fixpoint shape (a : ndarray) : list nat :=
  match a with
  | FromImage dims _ => dims
  | Zeros dims => dims
  | CvtColorRGBA2RGB a' =>
      match shape a' with
      | [h; w; _] => [h; w; 3]
      | dims => dims
      end
  | Resize a' width height =>
      match shape a' with
      | [_; _; c] => [height; width; c]
      | _ => [height; width]
      end
  | PutText a' _ _ _ _ _ => shape a'
  end.

(** The frame handed to the transport by [recv]. *)
Record VideoFrame : Type := mkVideoFrame {
  pixels : ndarray;
  format : string;
  width : nat;
  height : nat;
  pts : Z;
  time_base : Q
}.

Record IceCandidate : Type := mkIceCandidate {
  candidate : json;
  sdpMid : json;
  sdpMLineIndex : json
}.

Inductive Effect : Type :=
| WsAccept
| WsSendText (payload : json)
| StartPlaywright
| LaunchBrowser
| NewPage
| PageGoto (url : string)
| PageScreenshot (type : string)
| ImageOpen (png : list Byte.byte)
| NewSessionDescription (sdp type : json)
| NewIceCandidate (c : IceCandidate)
| PcAddTrack
| PcSetRemoteDescription (sdp type : json)
| PcCreateAnswer
| PcSetLocalDescription
| PcAddIceCandidate (c : IceCandidate)
| PcClose
| NextTimestamp
| CancelCaptureTask
| Sleep (seconds : Q)
| Print (line : LogLine)
with LogLine : Type :=
| LogCaptureError (e : exn)
| LogInitializingBrowser
| LogOfferReceived (type : json)
| LogAnswerSent
| LogMessageKeys (keys : list string)
| LogNullCandidate
| LogCandidateNotDict (c : json)
| LogCandidateMissingFields
| LogCandidateAdded
| LogCandidateFailed (e : exn)
| LogClientDisconnected
| LogMessageError (e : exn)
| LogWebSocketError (e : exn)
| LogConnectionClosed.

(** The collaborators: which calls raise, what a screenshot holds, how it
    decodes ([None] when it is no picture), which local description the peer
    connection ends up with, and the clock of the track. *)
Record Env : Type := mkEnv {
  raises : list Effect -> Effect -> bool;
  screenshot_bytes : list Effect -> string -> list Byte.byte;
  decoded_dims : list Byte.byte -> option (list nat);
  answer : list Effect -> option (json * json);
  timestamp : list Effect -> Z * Q
}.

(** The globals [browser], [page], [playwright_instance] (set or not), the
    peer connection of one [/offer] connection, its [BrowserTrack], and the
    trace. *)
Record World : Type := mkWorld {
  playwright_instance : bool;
  browser : bool;
  page : bool;
  in_pcs : bool;
  remoteDescription : option (json * json);
  localDescription : option (json * json);
  iceCandidates : list IceCandidate;
  pc_closed : bool;
  browser_track : bool;
  frame : option ndarray;
  running : bool;
  trace : list Effect
}.

(** The part of the world that belongs to the peer connection. *)
Definition pc_state (w : World)
  : option (json * json) * option (json * json) * list IceCandidate * bool :=
  (remoteDescription w, localDescription w, iceCandidates w, pc_closed w).

Definition log (e : Effect) (w : World) : World :=
  mkWorld (playwright_instance w) (browser w) (page w) (in_pcs w)
    (remoteDescription w) (localDescription w) (iceCandidates w)
    (pc_closed w) (browser_track w) (frame w) (running w) (trace w ++ [e]).

Definition set_globals (pl br pg : bool) (w : World) : World :=
  mkWorld pl br pg (in_pcs w)
    (remoteDescription w) (localDescription w) (iceCandidates w)
    (pc_closed w) (browser_track w) (frame w) (running w) (trace w).

Definition set_in_pcs (b : bool) (w : World) : World :=
  mkWorld (playwright_instance w) (browser w) (page w) b
    (remoteDescription w) (localDescription w) (iceCandidates w)
    (pc_closed w) (browser_track w) (frame w) (running w) (trace w).

Definition set_pc (rd ld : option (json * json)) (cs : list IceCandidate)
  (closed : bool) (w : World) : World :=
  mkWorld (playwright_instance w) (browser w) (page w) (in_pcs w)
    rd ld cs closed (browser_track w) (frame w) (running w) (trace w).

Definition set_track (created : bool) (f : option ndarray) (r : bool)
  (w : World) : World :=
  mkWorld (playwright_instance w) (browser w) (page w) (in_pcs w)
    (remoteDescription w) (localDescription w) (iceCandidates w)
    (pc_closed w) created f r (trace w).

Definition update (f : World -> World) : M World unit :=
  fun w => (Ok tt, f w).

Definition get {A} (f : World -> A) : M World A :=
  fun w => (Ok (f w), w).

Section WithEnv.

Variable env : Env.

Definition call (e : Effect) : M World unit :=
  fun w => if raises env (trace w) e
           then (Raise ExternalError, log e w)
           else (Ok tt, log e w).

Definition emit (e : Effect) : M World unit :=
  fun w => (Ok tt, log e w).

(** [await self.page.screenshot(type="png")] *)
Definition page_screenshot (type : string) : M World (list Byte.byte) :=
  fun w => let e := PageScreenshot type in
           if raises env (trace w) e
           then (Raise ExternalError, log e w)
           else (Ok (screenshot_bytes env (trace w) type), log e w).

(** [np.array(Image.open(BytesIO(screenshot)))] *)
Definition image_open (screenshot : list Byte.byte) : M World ndarray :=
  fun w => let e := ImageOpen screenshot in
           match decoded_dims env screenshot with
           | Some dims => (Ok (FromImage dims screenshot), log e w)
           | None => (Raise ExternalError, log e w)
           end.

(** [frame.shape[-1]] *)
Definition shape_last (a : ndarray) : M World nat :=
  match last (shape a) with
  | Some n => ret n
  | None => raise TypeError
  end.

(** [cv2.cvtColor(frame, cv2.COLOR_RGBA2RGB)] *)
Definition cv2_cvtColor_RGBA2RGB (a : ndarray) : M World ndarray :=
  match shape a with
  | [_; _; 4] => ret (CvtColorRGBA2RGB a)
  | _ => raise ExternalError
  end.

(** [cv2.resize(frame, (width, height))] *)
Definition cv2_resize (a : ndarray) (width height : nat) : M World ndarray :=
  match shape a with
  | [h; w] | [h; w; _] =>
      if (Nat.eqb h 0 || Nat.eqb w 0)%bool then raise ExternalError
      else ret (Resize a width height)
  | _ => raise ExternalError
  end.

(** The frame that replaces a failed capture. *)
Definition capture_error_frame : ndarray :=
  PutText (Zeros [720; 1280; 3]) "Capture Error" (50, 360)%Z 2 (0, 0, 255)%Z 3.

(** The [try] block of [capture_frames] up to the assignment: a screenshot
    is taken, decoded, stripped of its alpha channel and resized. *)
Definition capture_attempt : M World ndarray :=
  screenshot <- page_screenshot "png" ;;
  img <- image_open screenshot ;;
  channels <- shape_last img ;;
  converted <- (if Nat.eqb channels 4
                then cv2_cvtColor_RGBA2RGB img
                else ret img) ;;
  cv2_resize converted 1280 720.

(** One pass through the body of [while self.running] in
    [BrowserTrack.capture_frames]. *)
Definition capture_frames_body : M World unit :=
  try_except
    (resized <- capture_attempt ;;
     update (fun w => set_track (browser_track w) (Some resized) (running w) w))
    (fun e =>
       emit (Print (LogCaptureError e)) ;;
       update (fun w => set_track (browser_track w)
                          (Some (Zeros [720; 1280; 3])) (running w) w) ;;
       update (fun w => set_track (browser_track w)
                          (match frame w with
                           | Some f =>
                               Some (PutText f "Capture Error" (50, 360)%Z 2
                                       (0, 0, 255)%Z 3)
                           | None => None
                           end) (running w) w)) ;;
  emit (Sleep (3 # 100)).

(** [BrowserTrack.capture_frames], for at most [n] passes. *)
Fixpoint capture_frames (n : nat) : M World LoopStatus :=
  match n with
  | O => ret Running
  | S n' =>
      r <- get running ;;
      if r : bool then capture_frames_body ;; capture_frames n'
      else ret Exited
  end.

(** [VideoFrame.from_ndarray(frame, format="rgb24")]: three dimensions,
    three channels. *)
Definition VideoFrame_from_ndarray (a : ndarray) (fmt : string)
  : M World VideoFrame :=
  match shape a with
  | [h; w; 3] => ret (mkVideoFrame a fmt w h 0 0)
  | _ => raise (ValueError "from_ndarray")
  end.

(** [await self.next_timestamp()]: [BrowserTrack] defines no such method
    and has to find it in its base class; when the lookup fails the call
    raises [AttributeError]. *)
Definition next_timestamp : M World (Z * Q) :=
  fun w => let e := NextTimestamp in
           if raises env (trace w) e
           then (Raise AttributeError, log e w)
           else (Ok (timestamp env (trace w)), log e w).

(** [BrowserTrack.recv] *)
Definition recv : M World VideoFrame :=
  ts <- next_timestamp ;;
  current <- get frame ;;
  let picture := match current with
                 | Some f => f
                 | None => Zeros [720; 1280; 3]
                 end in
  vf <- VideoFrame_from_ndarray picture "rgb24" ;;
  ret (mkVideoFrame (pixels vf) (format vf) (width vf) (height vf)
         (fst ts) (snd ts)).

(** [BrowserTrack.stop]: the flag is cleared and the capture task, when it
    is not done, is cancelled and awaited, its [CancelledError] being
    swallowed.  The task is done only when the track has been stopped before:
    the loop of [capture_frames] catches every exception of its body and
    leaves its [while] only once [running] is false. *)
Definition stop : M World unit :=
  was_running <- get running ;;
  update (fun w => set_track (browser_track w) (frame w) false w) ;;
  if was_running : bool then emit CancelCaptureTask else ret tt.

(** [initialize_browser()] *)
Definition initialize_browser : M World unit :=
  br <- get browser ;;
  pg <- get page ;;
  pl <- get playwright_instance ;;
  if (negb br || negb pg || negb pl)%bool then
    emit (Print LogInitializingBrowser) ;;
    call StartPlaywright ;;
    update (fun w => set_globals true (browser w) (page w) w) ;;
    call LaunchBrowser ;;
    update (fun w => set_globals (playwright_instance w) true (page w) w) ;;
    call NewPage ;;
    update (fun w => set_globals (playwright_instance w) (browser w) true w) ;;
    call (PageGoto "http://time.syiban.com/haomiao.php") ;;
    br' <- get browser ;;
    pg' <- get page ;;
    if (negb br' || negb pg')%bool
    then raise (RuntimeError "浏览器初始化失败")
    else ret tt
  else ret tt.

(** The two checks on the offer, lines 123 to 126 of the source. *)
Definition validate_offer (offer : json) : M World unit :=
  match offer with
  | JDict d =>
      if (negb (dict_has "sdp" d) || negb (dict_has "type" d))%bool
      then raise (ValueError "无效的offer格式：必须包含sdp和type字段")
      else
        sdp <- py_getitem offer "sdp" ;;
        type <- py_getitem offer "type" ;;
        if (is_none sdp || negb (json_eq_str type "offer"))%bool
        then raise (ValueError "无效的offer数据：sdp不能为空且类型必须为'offer'")
        else ret tt
  | _ => raise (ValueError "无效的offer格式：必须包含sdp和type字段")
  end.

(** [await pc.setRemoteDescription(offer_sdp)] *)
Definition pc_setRemoteDescription (sdp type : json) : M World unit :=
  call (PcSetRemoteDescription sdp type) ;;
  update (fun w => set_pc (Some (sdp, type)) (localDescription w)
                     (iceCandidates w) (pc_closed w) w).

(** [await pc.setLocalDescription(answer)]: the description the peer
    connection then holds is the environment's. *)
Definition pc_setLocalDescription : M World unit :=
  fun w =>
    let e := PcSetLocalDescription in
    if raises env (trace w) e then (Raise ExternalError, log e w)
    else (Ok tt,
          log e (set_pc (remoteDescription w) (answer env (trace w))
                   (iceCandidates w) (pc_closed w) w)).

(** [await pc.addIceCandidate(candidate)] *)
Definition pc_addIceCandidate (c : IceCandidate) : M World unit :=
  call (PcAddIceCandidate c) ;;
  update (fun w => set_pc (remoteDescription w) (localDescription w)
                     (iceCandidates w ++ [c]) (pc_closed w) w).

End WithEnv.

(** What the websocket delivers next: a text (with the result of
    [json.loads], [None] when it is not JSON) or the end of the
    connection. *)
Inductive Inbound : Type :=
| Text (parsed : option json)
| Disconnect.

(** Where the coroutine [websocket_offer] stands when the input runs out. *)
Inductive Phase : Type :=
| AwaitingOffer
| AwaitingCandidates
| Finished.

Section Signaling.

Variable env : Env.

(** [json.loads(await websocket.receive_text())] *)
Definition receive (m : Inbound) : M World json :=
  match m with
  | Text (Some v) => ret v
  | Text None => raise JSONDecodeError
  | Disconnect => raise WebSocketDisconnect
  end.

(** [list(data.keys())] *)
Definition py_keys (data : json) : M World (list string) :=
  match data with
  | JDict d => ret (map fst d)
  | _ => raise AttributeError
  end.

(** Step 1 of [websocket_offer]: the offer is received, announced and
    checked. *)
Definition receive_offer (first : Inbound) : M World json :=
  offer <- receive first ;;
  t <- py_get offer "type" JNull ;;
  emit (Print (LogOfferReceived t)) ;;
  validate_offer offer ;;
  ret offer.

(** Steps 2 to 4: the browser and the track are set up, the answer is made,
    checked and sent. *)
Definition generate_answer (offer : json) : M World unit :=
  sdp <- py_getitem offer "sdp" ;;
  type <- py_getitem offer "type" ;;
  call env (NewSessionDescription sdp type) ;;
  initialize_browser env ;;
  update (set_track true None true) ;;
  call env PcAddTrack ;;
  pc_setRemoteDescription env sdp type ;;
  call env PcCreateAnswer ;;
  pc_setLocalDescription env ;;
  ld <- get localDescription ;;
  match ld with
  | None => raise (RuntimeError "生成本地SDP描述失败")
  | Some (local_sdp, local_type) =>
      if is_none local_sdp
      then raise (RuntimeError "本地SDP描述中sdp为空")
      else
        call env (WsSendText (JDict [("sdp", local_sdp);
                                     ("type", local_type)])) ;;
        emit (Print LogAnswerSent)
  end.

Definition negotiate (first : Inbound) : M World unit :=
  offer <- receive_offer first ;;
  generate_answer offer.

(** One pass through the body of the candidate loop (step 5).  [Running]
    stands for [continue] and for reaching the end of the body, [Exited]
    for [break]. *)
Definition handle_candidate_message (m : Inbound) : M World LoopStatus :=
  try_except
    (data <- receive m ;;
     keys <- py_keys data ;;
     emit (Print (LogMessageKeys keys)) ;;
     match data with
     | JDict d =>
         match dict_lookup "candidate" d with
         | Some candidate_data =>
             match candidate_data with
             | JNull =>
                 emit (Print LogNullCandidate) ;; ret Running
             | JDict cd =>
                 if (negb (dict_has "candidate" cd)
                     || negb (dict_has "sdpMid" cd))%bool
                 then emit (Print LogCandidateMissingFields) ;; ret Running
                 else
                   try_except
                     (c <- py_getitem (JDict cd) "candidate" ;;
                      mid <- py_getitem (JDict cd) "sdpMid" ;;
                      idx <- py_get (JDict cd) "sdpMLineIndex" JNull ;;
                      let ice := mkIceCandidate c mid idx in
                      call env (NewIceCandidate ice) ;;
                      pc_addIceCandidate env ice ;;
                      emit (Print LogCandidateAdded) ;;
                      ret Running)
                     (fun e =>
                        emit (Print (LogCandidateFailed e)) ;; ret Running)
             | _ =>
                 emit (Print (LogCandidateNotDict candidate_data)) ;;
                 ret Running
             end
         | None => ret Running
         end
     | _ => raise AttributeError
     end)
    (fun e =>
       match e with
       | WebSocketDisconnect =>
           emit (Print LogClientDisconnected) ;; ret Exited
       | _ => emit (Print (LogMessageError e)) ;; ret Exited
       end).

(** The candidate loop over the messages that arrive. *)
Fixpoint candidate_loop (inbound : list Inbound) : M World LoopStatus :=
  match inbound with
  | [] => ret Running
  | m :: rest =>
      st <- handle_candidate_message m ;;
      match st with
      | Running => candidate_loop rest
      | Exited => ret Exited
      end
  end.

(** The [finally] block of [websocket_offer]. *)
Definition cleanup : M World unit :=
  call env PcClose ;;
  update (fun w => set_pc (remoteDescription w) (localDescription w)
                     (iceCandidates w) true w) ;;
  update (set_in_pcs false) ;;
  created <- get browser_track ;;
  (if created : bool then stop else ret tt) ;;
  emit (Print LogConnectionClosed).

(** [websocket_offer(websocket)] on the messages [inbound]. *)
Definition websocket_offer (inbound : list Inbound) : M World Phase :=
  call env WsAccept ;;
  update (set_pc None None [] false) ;;
  update (set_in_pcs true) ;;
  update (set_track false None false) ;;
  match inbound with
  | [] => ret AwaitingOffer
  | first :: rest =>
      fun w =>
        match negotiate first w with
        | (Raise e, w1) =>
            (emit (Print (LogWebSocketError e)) ;; cleanup ;; ret Finished) w1
        | (Ok _, w1) =>
            match candidate_loop rest w1 with
            | (Ok Running, w2) => (Ok AwaitingCandidates, w2)
            | (Ok Exited, w2) => (cleanup ;; ret Finished) w2
            | (Raise e, w2) =>
                (emit (Print (LogWebSocketError e)) ;; cleanup ;;
                 ret Finished) w2
            end
        end
  end.

End Signaling.

End RequestListen.

(** * The desktop shell: [GUI-Playwright.py]

    Only [AsyncBrowserManager.navigate_to], the other place of the repository
    where a typed address is loaded. *)

Module GuiPlaywright.

Inductive Effect : Type :=
| StatusNotStarted
| StatusLoading (url : string)
| StatusLoadFailed (e : exn)
| ProgressUpdate (percent : Z)
| PageGoto (url : string) (wait_until : string).

Record Env : Type := mkEnv {
  raises : list Effect -> Effect -> bool
}.

Record World : Type := mkWorld {
  page : bool;
  is_running : bool;
  trace : list Effect
}.

Definition log (e : Effect) (w : World) : World :=
  mkWorld (page w) (is_running w) (trace w ++ [e]).

Definition emit (e : Effect) : M World unit :=
  fun w => (Ok tt, log e w).

Definition call (env : Env) (e : Effect) : M World unit :=
  fun w => if raises env (trace w) e
           then (Raise ExternalError, log e w)
           else (Ok tt, log e w).

(** [url.startswith(('http://', 'https://'))] *)
Definition has_scheme (url : string) : bool :=
  (String.prefix "http://" url || String.prefix "https://" url)%bool.

(** [AsyncBrowserManager.navigate_to(self, url)] *)
Definition navigate_to (env : Env) (url : string) : M World unit :=
  fun w =>
    if (negb (page w) || negb (is_running w))%bool
    then emit StatusNotStarted w
    else
      try_except
        (let url' := if negb (has_scheme url) then "https://" ++ url
                     else url in
         emit (StatusLoading url') ;;
         emit (ProgressUpdate 30) ;;
         call env (PageGoto url' "domcontentloaded") ;;
         emit (ProgressUpdate 80))
        (fun e => emit (StatusLoadFailed e) ;; emit (ProgressUpdate 0)) w.

End GuiPlaywright.

(** * Vocabulary of the properties *)

Module AppSpec.
Import App.

(** The event type of the pointer event that a tick delivers, if it
    delivers one. *)
Definition pointer_event (t : Tick) : option string :=
  match t with
  | ClientMessage (Some (JDict d)) =>
      match dict_lookup "type" d, dict_lookup "eventType" d with
      | Some type, Some (JStr e) =>
          if json_eq_str type "mouse" then Some e else None
      | _, _ => None
      end
  | _ => None
  end.

(** Down-class and up-class events. *)
Definition is_button_event (e : string) : bool :=
  (String.eqb e "mousedown" || String.eqb e "mouseup"
   || String.eqb e "dblclick")%bool.

Definition most_recent_button_event (schedule : list Tick) : option string :=
  last (List.filter is_button_event (omap pointer_event schedule)).

(** What was appended to the trace between two worlds. *)
Definition new_effects (w w' : World) : list Effect :=
  drop (length (trace w)) (trace w').

(** The frames handed to the websocket, oldest first. *)
Definition sent_messages (tr : list Effect) : list json :=
  omap (fun e => match e with WsSendJson m => Some m | _ => None end) tr.

Fixpoint no_consecutive_duplicates (l : list json) : Prop :=
  match l with
  | x :: rest =>
      match rest with
      | y :: _ => x <> y
      | [] => True
      end /\ no_consecutive_duplicates rest
  | [] => True
  end.

(** The sleeps of a trace up to its next capture. *)
Fixpoint sleeps_until_capture (tr : list Effect) : list Q :=
  match tr with
  | [] => []
  | PageScreenshot _ _ :: _ => []
  | Sleep d :: rest => d :: sleeps_until_capture rest
  | _ :: rest => sleeps_until_capture rest
  end.

(** For every capture of a trace, the sleeps between it and the next
    capture (or the end of the trace). *)
Fixpoint pauses (tr : list Effect) : list (list Q) :=
  match tr with
  | [] => []
  | PageScreenshot _ _ :: rest => sleeps_until_capture rest :: pauses rest
  | _ :: rest => pauses rest
  end.

(** A stretch of trace without captures and without sleeps. *)
Definition quiet (tr : list Effect) : bool :=
  forallb (fun e => match e with
                    | PageScreenshot _ _ | Sleep _ => false
                    | _ => true
                    end) tr.

(** A computation that leaves [active_sessions] alone. *)
Definition keeps_sessions {A} (m : M World A) : Prop :=
  forall w r w', m w = (r, w') -> active_sessions w' = active_sessions w.

(** A computation that leaves the button flag of every session alone. *)
Definition keeps_flags {A} (m : M World A) : Prop :=
  forall w r w', m w = (r, w') ->
    forall sid, mouse_down <$> active_sessions w' !! sid
                = mouse_down <$> active_sessions w !! sid.

(** The flag after one pointer event of type [event_type]. *)
Definition button_step (event_type : json) (flag : bool) : bool :=
  if json_eq_str event_type "mousedown" then true
  else if json_in_strs event_type ["mouseup"; "dblclick"] then false
  else flag.

(** The flag after a tick, by the pointer event it delivers. *)
Definition flag_after (t : Tick) (f : bool) : bool :=
  match pointer_event t with
  | Some e => if is_button_event e then String.eqb e "mousedown" else f
  | None => f
  end.

(** Every session but [session_id] is as it was. *)
Definition others_kept (session_id : string) (w w' : World) : Prop :=
  forall sid, sid <> session_id ->
    active_sessions w' !! sid = active_sessions w !! sid.

(** A session that was there is still there. *)
Definition session_stays (session_id : string) (w w' : World) : Prop :=
  is_Some (active_sessions w !! session_id) ->
  is_Some (active_sessions w' !! session_id).

(** The frame recorded for every session is as it was. *)
Definition screenshots_kept (w w' : World) : Prop :=
  forall sid, last_screenshot <$> active_sessions w' !! sid
              = last_screenshot <$> active_sessions w !! sid.

(** The button flag of every session is as it was. *)
Definition flags_kept (w w' : World) : Prop :=
  forall sid, mouse_down <$> active_sessions w' !! sid
              = mouse_down <$> active_sessions w !! sid.

(** The trace has grown by effects that all pass [ok]. *)
Definition appends (ok : Effect -> bool) (w w' : World) : Prop :=
  exists new, trace w' = (trace w ++ new)%list /\ forallb ok new = true.

(** Effects that neither capture the page nor write to the websocket. *)
Definition frameless (e : Effect) : bool :=
  match e with
  | PageScreenshot _ _ | WsSendJson _ => false
  | _ => true
  end.

(** Effects that do not close the browser. *)
Definition not_closing (e : Effect) : bool :=
  match e with CloseBrowser => false | _ => true end.

(** The fields a message of a given type is indexed with. *)
Definition mandatory_fields (type : string) : list string :=
  if String.eqb type "mouse" then ["eventType"; "x"; "y"]
  else if String.eqb type "keyboard" then ["eventType"; "key"]
  else if String.eqb type "navigation" then ["url"]
  else if String.eqb type "resize" then ["width"; "height"]
  else [].

(** What a key-down of the key named [k] comes to. *)
Definition key_action (k : string) : Effect :=
  if existsb (String.eqb k) (map fst special_keys) then PageKeyboardPress k
  else if Nat.eqb (py_str_len k) 1 then PageKeyboardType k
  else if String.eqb k "F5" then PageReload
  else Print (LogUnhandledKey (JStr k)).

End AppSpec.

Module RequestListenSpec.
Import RequestListen.

(** An offer as the design document wants it: a mapping with a non-null
    ['sdp'] and a ['type'] equal to ["offer"]. *)
Definition well_formed_offer (payload : json) : Prop :=
  exists d sdp,
    payload = JDict d /\
    dict_lookup "sdp" d = Some sdp /\ sdp <> JNull /\
    dict_lookup "type" d = Some (JStr "offer").

(** A candidate that is to be discarded: null, not a mapping, or a mapping
    without ['candidate'] or without ['sdpMid']. *)
Definition malformed_candidate (c : json) : Prop :=
  c = JNull \/ is_dict c = false \/
  exists cd, c = JDict cd /\
    (dict_lookup "candidate" cd = None \/ dict_lookup "sdpMid" cd = None).

(** Screenshots decode to colour pictures with or without an alpha
    channel. *)
Definition truecolor (env : Env) : Prop :=
  forall png dims, decoded_dims env png = Some dims ->
    exists h w c, dims = [h; w; c] /\ (c = 3 \/ c = 4).

Definition new_effects (w w' : World) : list Effect :=
  drop (length (trace w)) (trace w').

Fixpoint sleeps_until_capture (tr : list Effect) : list Q :=
  match tr with
  | [] => []
  | PageScreenshot _ :: _ => []
  | Sleep d :: rest => d :: sleeps_until_capture rest
  | _ :: rest => sleeps_until_capture rest
  end.

Fixpoint pauses (tr : list Effect) : list (list Q) :=
  match tr with
  | [] => []
  | PageScreenshot _ :: rest => sleeps_until_capture rest :: pauses rest
  | _ :: rest => pauses rest
  end.

(** A stretch of trace without captures and without sleeps. *)
Definition quiet (tr : list Effect) : bool :=
  forallb (fun e => match e with
                    | PageScreenshot _ | Sleep _ => false
                    | _ => true
                    end) tr.

(** The world with another trace, and with another frame in the track. *)
Definition with_trace (tr : list Effect) (w : World) : World :=
  mkWorld (playwright_instance w) (browser w) (page w) (in_pcs w)
    (remoteDescription w) (localDescription w) (iceCandidates w)
    (pc_closed w) (browser_track w) (frame w) (running w) tr.

Definition with_frame (f : option ndarray) (w : World) : World :=
  set_track (browser_track w) f (running w) w.

(** The calls of one capture attempt: the screenshot, and its decoding when
    the screenshot is there. *)
Definition attempt_effects (env : Env) (w : World) : list Effect :=
  PageScreenshot "png" ::
  (if raises env (trace w) (PageScreenshot "png") then []
   else [ImageOpen (screenshot_bytes env (trace w) "png")]).

(** The trace of one pass of the capture loop, and the frame it leaves. *)
Definition pass_effects (env : Env) (w : World) : list Effect :=
  attempt_effects env w ++
  match fst (capture_attempt env w) with
  | Ok _ => []
  | Raise e => [Print (LogCaptureError e)]
  end ++ [Sleep (3 # 100)].

Definition pass_frame (env : Env) (w : World) : ndarray :=
  match fst (capture_attempt env w) with
  | Ok f => f
  | Raise _ => capture_error_frame
  end.

(** A computation that only appends to the trace. *)
Definition extends {A} (m : M World A) : Prop :=
  forall w r w', m w = (r, w') ->
    exists new, trace w' = (trace w ++ new)%list.

(** The track holds no frame yet, or one of the negotiated resolution. *)
Definition frame_ok (w : World) : Prop :=
  match frame w with
  | Some f => shape f = [720; 1280; 3]
  | None => True
  end.

(** The time an iteration has spent when it reaches its sleep, for a given
    cost of every call. *)
Definition elapsed (cost : Effect -> Q) (tr : list Effect) : Q :=
  fold_right Qplus 0%Q
    (map (fun e => match e with Sleep _ => 0%Q | _ => cost e end) tr).

(** The pause the design document asks for. *)
Definition paced_sleep (target_interval elapsed_time : Q) : Q :=
  Qmax 0%Q (target_interval - elapsed_time)%Q.

(** Three calls that the program makes in a way the library does not take:
    [next_timestamp] on a track derived from [MediaStreamTrack], which has no
    such method; [RTCIceCandidate] with a [candidate] keyword, which its
    constructor does not have; [addTrack] on a peer connection that was
    given a [dict] for its configuration. *)
Definition lacks_next_timestamp (env : Env) : Prop :=
  forall tr, raises env tr NextTimestamp = true.

Definition refuses_candidate_keyword (env : Env) : Prop :=
  forall tr c, raises env tr (NewIceCandidate c) = true.

Definition refuses_dict_configuration (env : Env) : Prop :=
  forall tr, raises env tr PcAddTrack = true.

(** The trace has grown by effects that all pass [ok]. *)
Definition grows_by (ok : Effect -> bool) (w w' : World) : Prop :=
  exists new, trace w' = (trace w ++ new)%list /\ forallb ok new = true.

(** Effects that belong neither to the making of the answer nor to the
    candidate loop. *)
Definition before_the_answer (e : Effect) : bool :=
  match e with
  | PcSetRemoteDescription _ _ | PcCreateAnswer | PcSetLocalDescription
  | WsSendText _ | NewIceCandidate _ | PcAddIceCandidate _
  | Print LogAnswerSent | Print (LogMessageKeys _) => false
  | _ => true
  end.

(** The track runs only if it has been created. *)
Definition track_coherent (w : World) : Prop :=
  browser_track w = false -> running w = false.

(** The peer connection is as open and as registered as it was, and the
    track is still coherent. *)
Definition connection_kept (w w' : World) : Prop :=
  pc_closed w' = pc_closed w /\ in_pcs w' = in_pcs w /\
  (track_coherent w -> track_coherent w').

(** Candidates are only added, and the descriptions of the peer connection
    are as they were. *)
Definition candidates_grow (w w' : World) : Prop :=
  (exists added, iceCandidates w' = (iceCandidates w ++ added)%list) /\
  remoteDescription w' = remoteDescription w /\
  localDescription w' = localDescription w.

(** A stretch of trace in which the peer connection is not asked to add a
    candidate. *)
Definition adds_no_candidate (tr : list Effect) : bool :=
  forallb (fun e => match e with
                    | PcAddIceCandidate _ => false
                    | _ => true
                    end) tr.

(** The world of a connection on which nothing was negotiated: no
    description, no candidate and no track, the peer connection being
    [registered] in [pcs] or not, and [closed] or not. *)
Definition unanswered (registered closed : bool) (tr : list Effect)
  (w : World) : World :=
  mkWorld (playwright_instance w) (browser w) (page w) registered
    None None [] closed false None false tr.

End RequestListenSpec.

(** * Sample inputs *)

Module AppSamples.
Import App.

(** Collaborators that never fail; the page never changes, and a screenshot
    is two bytes, the second telling its quality. *)
Definition calm : Env :=
  mkEnv (fun _ _ => false)
        (fun _ _ quality =>
           [Byte.x4d; if Z.eqb quality 85 then Byte.x55 else Byte.x50]).

(** Collaborators whose screenshot call always fails. *)
Definition blind : Env :=
  mkEnv (fun _ e => match e with PageScreenshot _ _ => true | _ => false end)
        (fun _ _ _ => []).

(** Collaborators that never fail and whose screenshots are empty. *)
Definition hollow : Env :=
  mkEnv (fun _ _ => false) (fun _ _ _ => []).

(** One fresh session ["s1"], nothing traced yet. *)
Definition fresh : World :=
  mkWorld (<["s1" := mkSession None false]> ∅) [].

Definition mouse (event_type : string) : json :=
  JDict [ ("type", JStr "mouse"); ("eventType", JStr event_type);
          ("x", JInt 10); ("y", JInt 20) ].

Definition key_down (key : string) : json :=
  JDict [ ("type", JStr "keyboard"); ("eventType", JStr "keydown");
          ("key", JStr key) ].

Definition navigation (url : string) : json :=
  JDict [ ("type", JStr "navigation"); ("url", JStr url) ].

(** Session ["s2"] with its button down, next to which ["s1"] will be
    opened. *)
Definition with_neighbour : World :=
  mkWorld (<["s2" := mkSession (Some "TVA=") true]> ∅) [].

(** A drag interleaved with frames: press, a frame, move, release, move. *)
Definition drag : list Tick :=
  [ ClientMessage (Some (mouse "mousedown")); FrameTick;
    ClientMessage (Some (mouse "mousemove"));
    ClientMessage (Some (mouse "mouseup"));
    ClientMessage (Some (mouse "mousemove")) ].

End AppSamples.

Module RequestListenSamples.
Import RequestListen.

(** Collaborators that never fail: every screenshot is one byte that decodes
    to an 800 by 600 picture with an alpha channel. *)
Definition calm : Env :=
  mkEnv (fun _ _ => false) (fun _ _ => [Byte.x89])
        (fun _ => Some [600; 800; 4]%nat)
        (fun _ => Some (JStr "v=0", JStr "answer"))
        (fun tr => (Z.of_nat (length tr), 1 # 90000)).

(** Collaborators whose screenshot call always fails. *)
Definition blind : Env :=
  mkEnv (fun _ e => match e with PageScreenshot _ => true | _ => false end)
        (fun _ _ => []) (fun _ => None) (fun _ => None)
        (fun _ => (0%Z, 1 # 90000)).

(** Collaborators that fail where the library does: no [next_timestamp],
    no [candidate] keyword, no [dict] for a configuration; everything else
    as with [calm]. *)
Definition aiortc : Env :=
  mkEnv (fun _ e => match e with
                    | NextTimestamp | NewIceCandidate _ | PcAddTrack => true
                    | _ => false
                    end)
        (fun _ _ => [Byte.x89])
        (fun _ => Some [600; 800; 4]%nat)
        (fun _ => Some (JStr "v=0", JStr "answer"))
        (fun tr => (Z.of_nat (length tr), 1 # 90000)).

(** Nothing launched, no connection yet. *)
Definition cold : World :=
  mkWorld false false false false None None [] false false None false [].

(** A connection whose track has just been created. *)
Definition idle : World :=
  mkWorld true true true true None None [] false true None true [].

(** A capture that takes ten milliseconds, everything else being free. *)
Definition slow_capture (e : Effect) : Q :=
  match e with PageScreenshot _ => 1 # 100 | _ => 0 end.

Definition free (e : Effect) : Q := 0.

Definition offer (sdp type : json) : json :=
  JDict [("sdp", sdp); ("type", type)].

Definition candidate_message (c : json) : json :=
  JDict [("candidate", c)].

End RequestListenSamples.

(** * Properties *)

(** ** Reasoning about computations *)

Lemma bind_inv {S A B} (m : M S A) (k : A -> M S B) s r s' :
  bind m k s = (r, s') ->
  (exists a s1, m s = (Ok a, s1) /\ k a s1 = (r, s')) \/
  (exists e, m s = (Raise e, s') /\ r = Raise e).
Proof.
  unfold bind. destruct (m s) as [[a|e] s1]; intros H.
  - left. eauto.
  - right. inversion H; subst. eauto.
Qed.

Lemma bind_ok_inv {S A B} (m : M S A) (k : A -> M S B) s b s' :
  bind m k s = (Ok b, s') ->
  exists a s1, m s = (Ok a, s1) /\ k a s1 = (Ok b, s').
Proof.
  intros H. apply bind_inv in H as [H|[e [_ H]]]; [done|discriminate].
Qed.

Lemma bind_ok {S A B} (m : M S A) (k : A -> M S B) s a s1 :
  m s = (Ok a, s1) -> bind m k s = k a s1.
Proof. unfold bind. by intros ->. Qed.

Lemma bind_raise {S A B} (m : M S A) (k : A -> M S B) s e s1 :
  m s = (Raise e, s1) -> bind m k s = (Raise e, s1).
Proof. unfold bind. by intros ->. Qed.

Lemma py_getitem_ok {S} (v : json) k (s : S) x s' :
  py_getitem v k s = (Ok x, s') ->
  s' = s /\ exists d, v = JDict d /\ dict_lookup k d = Some x.
Proof.
  destruct v; try discriminate. unfold py_getitem.
  destruct (dict_lookup k d) eqn:E; [|discriminate].
  intros [= <- <-]. eauto.
Qed.

Lemma py_getitem_state {S} (v : json) k (s : S) r s' :
  py_getitem v k s = (r, s') -> s' = s.
Proof.
  destruct v; try (by intros [= _ <-]). unfold py_getitem.
  by destruct (dict_lookup k d); intros [= _ <-].
Qed.

Lemma py_get_state {S} (v : json) k dflt (s : S) r s' :
  py_get v k dflt s = (r, s') -> s' = s.
Proof.
  destruct v; try (by intros [= _ <-]). unfold py_get.
  by destruct (dict_lookup k d); intros [= _ <-].
Qed.

Lemma py_getitem_dict {S} d k x (s : S) :
  dict_lookup k d = Some x -> py_getitem (JDict d) k s = (Ok x, s).
Proof. unfold py_getitem. by intros ->. Qed.

Lemma py_get_dict {S} d k dflt (s : S) :
  py_get (JDict d) k dflt s =
    (Ok (match dict_lookup k d with Some x => x | None => dflt end), s).
Proof. unfold py_get. by destruct (dict_lookup k d). Qed.

(** Invert [bind m k s = (Ok _, _)] in hypothesis [H]. *)
Ltac bind_ok_in H :=
  let a := fresh "a" in
  let s1 := fresh "w" in
  let H1 := fresh "Hstep" in
  apply bind_ok_inv in H as (a & s1 & H1 & H).

Tactic Notation "invert_bind" hyp(H) "as" ident(a) ident(s1) ident(H1) :=
  apply bind_ok_inv in H as (a & s1 & H1 & H).

(** Relations kept along every run of a computation. *)
Section Relates.

Context {S : Type} (R : relation S) `{!PreOrder R}.

Lemma relates_ret {A} (a : A) : relates R (ret a).
Proof. by intros s r s' [= _ <-]. Qed.

Lemma relates_raise {A} e : relates R (@raise S A e).
Proof. by intros s r s' [= _ <-]. Qed.

Lemma relates_bind {A B} (m : M S A) (k : A -> M S B) :
  relates R m -> (forall a, relates R (k a)) -> relates R (bind m k).
Proof.
  intros Hm Hk s r s' H.
  apply bind_inv in H as [(a & s1 & H1 & H2)|(e & H1 & _)].
  - etrans; [exact (Hm _ _ _ H1)|exact (Hk _ _ _ _ H2)].
  - exact (Hm _ _ _ H1).
Qed.

Lemma relates_try_except {A} (m : M S A) (h : exn -> M S A) :
  relates R m -> (forall e, relates R (h e)) -> relates R (try_except m h).
Proof.
  intros Hm Hh s r s' H. unfold try_except in H.
  destruct (m s) as [[a|e] s1] eqn:Hms.
  - simplify_eq. exact (Hm _ _ _ Hms).
  - etrans; [exact (Hm _ _ _ Hms)|exact (Hh _ _ _ _ H)].
Qed.

Lemma relates_py_getitem v k : relates R (py_getitem v k).
Proof. intros s r s' H. by rewrite (py_getitem_state _ _ _ _ _ H). Qed.

Lemma relates_py_get v k d : relates R (py_get v k d).
Proof. intros s r s' H. by rewrite (py_get_state _ _ _ _ _ _ H). Qed.

End Relates.

(** ** Base64 *)

Example b64encode_Man :
  b64encode [Byte.x4d; Byte.x61; Byte.x6e] = "TWFu".
Proof. reflexivity. Qed.

Example b64encode_Ma :
  b64encode [Byte.x4d; Byte.x61] = "TWE=".
Proof. reflexivity. Qed.

Example b64encode_M :
  b64encode [Byte.x4d] = "TQ==".
Proof. reflexivity. Qed.

(** ** The polling transport *)

Module AppFacts.
Import App AppSpec.

Lemma keeps_bind {A B} (m : M World A) (k : A -> M World B) :
  keeps_sessions m -> (forall a, keeps_sessions (k a)) ->
  keeps_sessions (bind m k).
Proof.
  intros Hm Hk w r w' H.
  apply bind_inv in H as [(a & w1 & H1 & H2)|(e & H1 & _)].
  - rewrite (Hk _ _ _ _ H2). eauto.
  - eauto.
Qed.

Lemma keeps_ret {A} (a : A) : keeps_sessions (ret a).
Proof. by intros w r w' [= _ <-]. Qed.

Lemma keeps_raise {A} e : keeps_sessions (@raise World A e).
Proof. by intros w r w' [= _ <-]. Qed.

Lemma keeps_call env e : keeps_sessions (call env e).
Proof. intros w r w'. unfold call. by case_match; intros [= _ <-]. Qed.

Lemma keeps_emit e : keeps_sessions (emit e).
Proof. by intros w r w' [= _ <-]. Qed.

Lemma keeps_page_screenshot env t q : keeps_sessions (page_screenshot env t q).
Proof. intros w r w'. unfold page_screenshot. by case_match; intros [= _ <-]. Qed.

Lemma keeps_get_session sid : keeps_sessions (get_session sid).
Proof. intros w r w'. unfold get_session. by case_match; intros [= _ <-]. Qed.

Lemma keeps_py_getitem v k : keeps_sessions (py_getitem v k).
Proof. intros w r w' H. by rewrite (py_getitem_state _ _ _ _ _ H). Qed.

Lemma keeps_py_get v k d : keeps_sessions (py_get v k d).
Proof. intros w r w' H. by rewrite (py_get_state _ _ _ _ _ _ H). Qed.

Lemma keeps_if {A} (b : bool) (m1 m2 : M World A) :
  keeps_sessions m1 -> keeps_sessions m2 ->
  keeps_sessions (if b then m1 else m2).
Proof. by destruct b. Qed.

Create HintDb frame.
#[local] Hint Resolve keeps_ret keeps_raise keeps_call keeps_emit
  keeps_page_screenshot keeps_get_session keeps_py_getitem keeps_py_get
  : frame.

Ltac keeps :=
  repeat first
    [ solve [auto with frame]
    | apply keeps_bind; [|intros ?]
    | apply keeps_if
    | match goal with
      | |- keeps_sessions (match ?x with _ => _ end) => destruct x
      end ].

(** Use that the computation of hypothesis [H] keeps the sessions. *)
Ltac keeps_in H :=
  match type of H with
  | ?m ?w = _ =>
      let Hk := fresh "Hkeep" in
      assert (Hk : keeps_sessions m) by keeps;
      specialize (Hk _ _ _ H)
  end.

Lemma keeps_handle_keyboard_event env event :
  keeps_sessions (handle_keyboard_event env event).
Proof. unfold handle_keyboard_event, in_special_keys, py_len. keeps. Qed.

Lemma keeps_handle_scroll_event env event :
  keeps_sessions (handle_scroll_event env event).
Proof. unfold handle_scroll_event. keeps. Qed.

Lemma keeps_handle_navigation_event env event :
  keeps_sessions (handle_navigation_event env event).
Proof. unfold handle_navigation_event. keeps. Qed.

#[local] Hint Resolve keeps_handle_keyboard_event keeps_handle_scroll_event
  keeps_handle_navigation_event : frame.

Lemma session_eta (s : Session) :
  mkSession (last_screenshot s) (mouse_down s) = s.
Proof. by destruct s. Qed.

Lemma set_mouse_down_ok sid b w s :
  active_sessions w !! sid = Some s ->
  set_mouse_down sid b w =
    (Ok tt, set_sessions (<[sid := mkSession (last_screenshot s) b]>
                            (active_sessions w)) w).
Proof. intros Hs. unfold set_mouse_down, bind, get_session. by rewrite Hs. Qed.

(** A pointer event that is handled to its end sets the flag by its type
    and touches nothing else of the session table. *)
Lemma handle_mouse_event_ok env event sid w w' s :
  active_sessions w !! sid = Some s ->
  handle_mouse_event env event sid w = (Ok tt, w') ->
  exists d t, event = JDict d /\ dict_lookup "eventType" d = Some t /\
    active_sessions w' =
      <[sid := mkSession (last_screenshot s) (button_step t (mouse_down s))]>
        (active_sessions w).
Proof.
  intros Hs H. unfold handle_mouse_event in H.
  bind_ok_in H. apply py_getitem_ok in Hstep as (-> & d & -> & Ht).
  exists d, a. split; [done|]. split; [done|].
  bind_ok_in H. apply py_getitem_ok in Hstep as (-> & _).
  bind_ok_in H. apply py_getitem_ok in Hstep as (-> & _).
  bind_ok_in H. apply py_get_state in Hstep as ->.
  bind_ok_in H. keeps_in H. rewrite Hkeep. clear H Hkeep.
  unfold button_step.
  destruct (json_eq_str a "mousedown").
  - rewrite (set_mouse_down_ok _ _ _ _ Hs) in Hstep. by simplify_eq.
  - destruct (json_in_strs a ["mouseup"; "dblclick"]).
    + rewrite (set_mouse_down_ok _ _ _ _ Hs) in Hstep. by simplify_eq.
    + unfold ret in Hstep. simplify_eq. rewrite session_eta. by rewrite insert_id.
Qed.

Lemma keeps_sessions_flags {A} (m : M World A) :
  keeps_sessions m -> keeps_flags m.
Proof. intros Hm w r w' H sid. by rewrite (Hm _ _ _ H). Qed.

Lemma keeps_flags_bind {A B} (m : M World A) (k : A -> M World B) :
  keeps_flags m -> (forall a, keeps_flags (k a)) -> keeps_flags (bind m k).
Proof.
  intros Hm Hk w r w' H sid.
  apply bind_inv in H as [(a & w1 & H1 & H2)|(e & H1 & _)].
  - rewrite (Hk _ _ _ _ H2). eauto.
  - eauto.
Qed.

Lemma keeps_flags_try_except {A} (m : M World A) (h : exn -> M World A) :
  keeps_flags m -> (forall e, keeps_flags (h e)) ->
  keeps_flags (try_except m h).
Proof.
  intros Hm Hh w r w' H sid. unfold try_except in H.
  destruct (m w) as [[a|e] w1] eqn:Hmw.
  - simplify_eq. eauto.
  - rewrite (Hh _ _ _ _ H). eauto.
Qed.

Lemma keeps_flags_set_last_screenshot sid v :
  keeps_flags (set_last_screenshot sid v).
Proof.
  intros w r w' H sid'. unfold set_last_screenshot, bind, get_session in H.
  destruct (active_sessions w !! sid) as [s|] eqn:Hs; simplify_eq/=; [|done].
  destruct (decide (sid = sid')) as [<-|Hne].
  - by rewrite lookup_insert_eq, Hs.
  - by rewrite lookup_insert_ne.
Qed.

Lemma keeps_flags_send_screenshots_body env sid :
  keeps_flags (send_screenshots_body env sid).
Proof.
  unfold send_screenshots_body.
  apply keeps_flags_bind; [apply keeps_sessions_flags; keeps|intros ?].
  apply keeps_flags_bind; [apply keeps_sessions_flags; keeps|intros ?].
  apply keeps_flags_bind; [|intros ?; apply keeps_sessions_flags; keeps].
  case_match; [|apply keeps_sessions_flags; keeps].
  apply keeps_flags_bind; [apply keeps_sessions_flags; keeps|intros ?].
  apply keeps_flags_set_last_screenshot.
Qed.

Lemma keeps_flags_send_screenshots env n sid :
  keeps_flags (send_screenshots env n sid).
Proof.
  induction n as [|n IH]; simpl.
  - apply keeps_sessions_flags; keeps.
  - apply keeps_flags_bind.
    + apply keeps_flags_try_except.
      * apply keeps_flags_bind;
          [apply keeps_flags_send_screenshots_body|intros ?].
        apply keeps_sessions_flags; keeps.
      * intros e. apply keeps_sessions_flags; keeps.
    + intros [|]; [done|apply keeps_sessions_flags; keeps].
Qed.

Lemma button_step_spec e f :
  button_step (JStr e) f =
    if is_button_event e then String.eqb e "mousedown" else f.
Proof.
  unfold button_step, is_button_event, json_in_strs, json_eq_str. simpl.
  destruct (String.eqb e "mousedown") eqn:E1; [done|].
  destruct (String.eqb e "mouseup"), (String.eqb e "dblclick"); done.
Qed.

Lemma handle_message_flag env msg sid w w' f :
  mouse_down <$> active_sessions w !! sid = Some f ->
  handle_message env msg sid w = (Ok tt, w') ->
  mouse_down <$> active_sessions w' !! sid
    = Some (flag_after (ClientMessage (Some msg)) f).
Proof.
  intros Hf H. unfold handle_message in H.
  invert_bind H as u w0 Hemit. unfold emit in Hemit. simplify_eq.
  invert_bind H as ty w1 Hget.
  apply py_getitem_ok in Hget as (-> & d & -> & Hty).
  unfold flag_after, pointer_event. rewrite Hty.
  destruct (json_eq_str ty "mouse") eqn:Hmouse.
  - destruct (active_sessions w !! sid) as [s|] eqn:Hs; [|done].
    simpl in Hf. simplify_eq.
    apply (handle_mouse_event_ok _ _ _ _ _ s) in H; [|done].
    destruct H as (d' & t & [= <-] & Ht & ->).
    rewrite Ht, lookup_insert_eq. simpl. f_equal.
    destruct t; try done. apply button_step_spec.
  - assert (Hk : active_sessions w' = active_sessions w).
    { repeat case_match; try (keeps_in H; done). }
    rewrite Hk, Hf. by repeat case_match.
Qed.

Lemma most_recent_button_event_cons t schedule f :
  match most_recent_button_event (t :: schedule) with
  | Some e => String.eqb e "mousedown"
  | None => f
  end =
  match most_recent_button_event schedule with
  | Some e => String.eqb e "mousedown"
  | None => flag_after t f
  end.
Proof.
  unfold most_recent_button_event, flag_after. simpl.
  destruct (pointer_event t) as [e|]; [|done]. simpl.
  destruct (is_button_event e); [|done].
  rewrite last_cons.
  by destruct (last _).
Qed.

(** The flag at the end of a schedule that is served without an exception. *)
Lemma serve_flag env schedule sid : forall task w task' w' f,
  mouse_down <$> active_sessions w !! sid = Some f ->
  serve env schedule sid task w = (Ok task', w') ->
  mouse_down <$> active_sessions w' !! sid =
    Some (match most_recent_button_event schedule with
          | Some e => String.eqb e "mousedown"
          | None => f
          end).
Proof.
  induction schedule as [|t rest IH]; intros task w task' w' f Hf H.
  - simpl in H. unfold ret in H. by simplify_eq.
  - rewrite most_recent_button_event_cons.
    destruct t as [[msg|]| |]; simpl in H; try discriminate.
    + bind_ok_in H. destruct a.
      eapply IH; [|exact H].
      exact (handle_message_flag _ _ _ _ _ _ Hf Hstep).
    + assert (Hfa : flag_after FrameTick f = f) by done. rewrite Hfa.
      destruct task.
      * bind_ok_in H. eapply IH; [|exact H].
        rewrite <- Hf. eapply (keeps_flags_send_screenshots env 1); eauto.
      * eapply IH; eauto.
Qed.

(** *** The button flag *)

(** C1. For every schedule of messages and frame passes that a session
    serves without an exception, starting with the button up, [mouse_down] is
    true at the end iff the most recent down-class or up-class pointer event
    was a [mousedown]; and a further pointer event that is handled to its end
    leaves the flag false when it is a [mouseup] or a [dblclick], true when
    it is a [mousedown], and as it was when it is a [mousemove]. *)
Theorem mouse_down_iff_last_button_event_is_mousedown
    env schedule sid task task' w w' s :
  active_sessions w !! sid = Some s ->
  mouse_down s = false ->
  serve env schedule sid task w = (Ok task', w') ->
  exists s',
    active_sessions w' !! sid = Some s' /\
    (mouse_down s' = true <->
       most_recent_button_event schedule = Some "mousedown") /\
    (forall d t w'',
       dict_lookup "eventType" d = Some (JStr t) ->
       handle_mouse_event env (JDict d) sid w' = (Ok tt, w'') ->
       exists s'',
         active_sessions w'' !! sid = Some s'' /\
         (t = "mousedown" -> mouse_down s'' = true) /\
         (t = "mouseup" \/ t = "dblclick" -> mouse_down s'' = false) /\
         (t = "mousemove" -> mouse_down s'' = mouse_down s')).
Proof.
  intros Hs Hup Hserve.
  assert (Hf : mouse_down <$> active_sessions w !! sid = Some false)
    by (by rewrite Hs; simpl; rewrite Hup).
  pose proof (serve_flag _ _ _ _ _ _ _ _ Hf Hserve) as Hend.
  destruct (active_sessions w' !! sid) as [s'|] eqn:Hs'; [|done].
  exists s'. split; [done|]. simpl in Hend. injection Hend as Hend.
  split.
  - rewrite Hend. destruct (most_recent_button_event schedule) as [e|].
    + rewrite String.eqb_eq. split; [by intros ->|by intros [= ->]].
    + split; discriminate.
  - intros d t w'' Ht Hev.
    destruct (handle_mouse_event_ok _ _ _ _ _ _ Hs' Hev)
      as (d' & t' & [= <-] & Ht' & Hw'').
    rewrite Ht in Ht'. injection Ht' as <-.
    rewrite Hw'', lookup_insert_eq. eexists. split; [done|]. simpl.
    split; [by intros ->|]. split; [by intros [-> | ->]|by intros ->].
Qed.

Lemma mouse_down_iff_last_button_event_is_mousedown_witness :
  exists s',
    active_sessions
      (snd (serve AppSamples.calm AppSamples.drag "s1" Running
              AppSamples.fresh)) !! "s1" = Some s' /\
    (mouse_down s' = true <->
       most_recent_button_event AppSamples.drag = Some "mousedown") /\
    (forall d t w'',
       dict_lookup "eventType" d = Some (JStr t) ->
       handle_mouse_event AppSamples.calm (JDict d) "s1"
         (snd (serve AppSamples.calm AppSamples.drag "s1" Running
                 AppSamples.fresh)) = (Ok tt, w'') ->
       exists s'',
         active_sessions w'' !! "s1" = Some s'' /\
         (t = "mousedown" -> mouse_down s'' = true) /\
         (t = "mouseup" \/ t = "dblclick" -> mouse_down s'' = false) /\
         (t = "mousemove" -> mouse_down s'' = mouse_down s')).
Proof.
  apply (mouse_down_iff_last_button_event_is_mousedown
           AppSamples.calm AppSamples.drag "s1" Running Running
           AppSamples.fresh _ (mkSession None false)).
  - vm_compute. reflexivity.
  - reflexivity.
  - vm_compute. reflexivity.
Defined.

(** *** Pointer moves with the button up *)

(** C7, as the design document states it, fails: a pointer move that arrives
    while the button is up still moves the pointer of the page. *)
Lemma mousemove_with_button_up_is_dispatched :
  ~ (forall env event sid w s r w',
       active_sessions w !! sid = Some s ->
       mouse_down s = false ->
       py_getitem event "eventType" w = (Ok (JStr "mousemove"), w) ->
       handle_mouse_event env event sid w = (r, w') ->
       trace w' = trace w).
Proof.
  intros H.
  specialize (H AppSamples.calm (AppSamples.mouse "mousemove") "s1"
                AppSamples.fresh (mkSession None false) (Ok tt)
                (mkWorld (active_sessions AppSamples.fresh)
                   [PageMouseMove (JInt 10) (JInt 20)])).
  discriminate H; vm_compute; reflexivity.
Qed.

(** C7, amended.  A pointer move that arrives while the button is up moves
    the pointer of the page to its coordinates, once, does nothing else to
    the page, and leaves every session as it was. *)
Theorem mousemove_with_button_up_moves_once env d x y sid w s :
  dict_lookup "eventType" d = Some (JStr "mousemove") ->
  dict_lookup "x" d = Some x ->
  dict_lookup "y" d = Some y ->
  active_sessions w !! sid = Some s ->
  mouse_down s = false ->
  exists r,
    handle_mouse_event env (JDict d) sid w =
      (r, mkWorld (active_sessions w) (trace w ++ [PageMouseMove x y])).
Proof.
  intros Ht Hx Hy Hs Hup.
  unfold handle_mouse_event.
  unfold bind at 1. unfold py_getitem at 1. rewrite Ht. cbn [ret].
  unfold bind at 1. unfold py_getitem at 1. rewrite Hx. cbn [ret].
  unfold bind at 1. unfold py_getitem at 1. rewrite Hy. cbn [ret].
  unfold bind at 1. rewrite py_get_dict.
  cbn [json_eq_str json_in_strs existsb String.eqb Ascii.eqb Bool.eqb orb].
  unfold bind, ret, call, get_session, log. cbn [active_sessions trace].
  destruct (raises env (trace w) (PageMouseMove x y)); [by eexists|].
  cbn [active_sessions]. rewrite Hs, Hup. by eexists.
Qed.

Lemma mousemove_with_button_up_moves_once_witness :
  exists r,
    handle_mouse_event AppSamples.calm (AppSamples.mouse "mousemove") "s1"
      AppSamples.fresh =
      (r, mkWorld (active_sessions AppSamples.fresh)
            (trace AppSamples.fresh ++ [PageMouseMove (JInt 10) (JInt 20)])).
Proof.
  apply (mousemove_with_button_up_moves_once AppSamples.calm _ (JInt 10)
           (JInt 20) "s1" AppSamples.fresh (mkSession None false));
    reflexivity.
Defined.

(** *** Keys *)

(** C10. A key-down event whose key is ["F5"] brings the page to the front
    and reloads it: no key is pressed or typed and nothing is reported as
    unhandled. *)
Theorem f5_keydown_reloads_page env d w :
  dict_lookup "eventType" d = Some (JStr "keydown") ->
  dict_lookup "key" d = Some (JStr "F5") ->
  raises env (trace w) PageBringToFront = false ->
  exists r,
    handle_keyboard_event env (JDict d) w =
      (r, mkWorld (active_sessions w)
            (trace w ++ [PageBringToFront; PageReload])).
Proof.
  intros Ht Hk Hfront.
  unfold handle_keyboard_event.
  unfold bind at 1. unfold py_getitem at 1. rewrite Ht. cbn [ret].
  unfold bind at 1. unfold py_getitem at 1. rewrite Hk. cbn [ret].
  do 5 (unfold bind at 1; rewrite py_get_dict).
  unfold bind at 1. unfold call at 1. rewrite Hfront.
  change (json_eq_str (JStr "keydown") "keydown") with true. cbv iota.
  unfold bind, in_special_keys, py_len, ret, call, log.
  change (special_keys_lookup "F5" special_keys) with (@None string).
  change (py_str_len "F5" =? 1)%nat with false.
  change (json_eq_str (JStr "F5") "F5") with true.
  cbn [trace active_sessions].
  destruct (raises env _ PageReload); eexists; rewrite <- ?app_assoc;
    reflexivity.
Qed.

Lemma f5_keydown_reloads_page_witness :
  exists r,
    handle_keyboard_event AppSamples.calm (AppSamples.key_down "F5")
      AppSamples.fresh =
      (r, mkWorld (active_sessions AppSamples.fresh)
            (trace AppSamples.fresh ++ [PageBringToFront; PageReload])).
Proof.
  apply (f5_keydown_reloads_page AppSamples.calm _ AppSamples.fresh);
    reflexivity.
Defined.

(** *** Navigation *)

(** A navigation event is passed to [page.goto] as it is. *)
Lemma handle_navigation_event_verbatim env d url w :
  dict_lookup "url" d = Some url ->
  exists r,
    handle_navigation_event env (JDict d) w =
      (r, mkWorld (active_sessions w) (trace w ++ [PageGoto url])).
Proof.
  intros Hu. unfold handle_navigation_event, bind, py_getitem.
  rewrite Hu. cbn [ret]. unfold call, log.
  destruct (raises env _ _); by eexists.
Qed.

(** C8, on the code: the address ["example.com"] reaches [page.goto] without
    a scheme, and not as ["https://example.com"]. *)
Theorem navigation_without_scheme_is_not_completed :
  trace (snd (handle_navigation_event AppSamples.calm
                (AppSamples.navigation "example.com") AppSamples.fresh))
    = [PageGoto (JStr "example.com")] /\
  trace (snd (handle_navigation_event AppSamples.calm
                (AppSamples.navigation "example.com") AppSamples.fresh))
    <> [PageGoto (JStr "https://example.com")].
Proof. split; [reflexivity|discriminate]. Qed.


(** *** Frames *)

Lemma new_effects_app w w' new :
  trace w' = (trace w ++ new)%list -> new_effects w w' = new.
Proof. unfold new_effects. intros ->. apply drop_app_length. Qed.

Lemma sent_messages_app tr1 tr2 :
  sent_messages (tr1 ++ tr2) = (sent_messages tr1 ++ sent_messages tr2)%list.
Proof. apply omap_app. Qed.

Lemma differs_from_spec b last :
  differs_from b last = true <-> Some b <> last.
Proof.
  destruct last as [l|]; simpl; [|done].
  rewrite negb_true_iff, String.eqb_neq. split; congruence.
Qed.

Lemma screenshot_message_inj b1 b2 :
  screenshot_message b1 = screenshot_message b2 -> b1 = b2.
Proof. unfold screenshot_message. simpl. intros [= H]. exact H. Qed.

(** What one pass of [send_screenshots] does, case by case. *)
Lemma send_screenshots_pass env sid w :
  let b := b64encode (screenshot_bytes env (trace w) "jpeg" 80) in
  exists st new sessions',
    send_screenshots env 1 sid w
      = (Ok st, mkWorld sessions' (trace w ++ new)) /\
    ( (* the capture or the session lookup fails *)
      (st = Exited /\ sent_messages new = [] /\
       (raises env (trace w) (PageScreenshot "jpeg" 80) = true \/
        active_sessions w !! sid = None))
      \/
      (* an unchanged frame is skipped *)
      (st = Running /\ sent_messages new = [] /\
       sessions' = active_sessions w /\
       raises env (trace w) (PageScreenshot "jpeg" 80) = false /\
       exists s, active_sessions w !! sid = Some s /\
                 differs_from b (last_screenshot s) = false)
      \/
      (* a changed frame is sent, and recorded unless the send fails *)
      (sent_messages new = [screenshot_message b] /\
       raises env (trace w) (PageScreenshot "jpeg" 80) = false /\
       exists s, active_sessions w !! sid = Some s /\
                 differs_from b (last_screenshot s) = true /\
                 (st = Running ->
                  sessions' =
                    <[sid := mkSession (Some b) (mouse_down s)]>
                      (active_sessions w))) ).
Proof.
  intros b. subst b.
  unfold send_screenshots, try_except, send_screenshots_body, bind,
    page_screenshot, get_session, call, set_last_screenshot, emit, ret, log,
    set_sessions.
  cbn [trace active_sessions].
  destruct (raises env (trace w) (PageScreenshot "jpeg" 80)) eqn:Hshot.
  { eexists Exited, _, _. split; [cbn [trace active_sessions]; rewrite <- ?app_assoc; reflexivity|].
    left. simpl. auto. }
  cbn [trace active_sessions].
  destruct (active_sessions w !! sid) as [s|] eqn:Hs.
  2:{ eexists Exited, _, _. split; [cbn [trace active_sessions]; rewrite <- ?app_assoc; reflexivity|].
      left. simpl. auto. }
  cbn [trace active_sessions].
  destruct (differs_from _ (last_screenshot s)) eqn:Hdiff.
  2:{ eexists Running, _, _. split; [cbn [trace active_sessions]; rewrite <- ?app_assoc; reflexivity|].
      right; left. simpl. eauto 10. }
  cbn [trace active_sessions].
  destruct (raises env _ (WsSendJson _)) eqn:Hsend.
  { eexists Exited, _, _. split; [cbn [trace active_sessions]; rewrite <- ?app_assoc; reflexivity|].
    right; right. simpl. split; [done|]. split; [done|].
    exists s. split; [done|]. split; [done|]. discriminate. }
  unfold bind, get_session. cbn [trace active_sessions]. rewrite Hs.
  eexists Running, _, _. split; [cbn [trace active_sessions]; rewrite <- ?app_assoc; reflexivity|].
  right; right. simpl. split; [done|]. split; [done|].
  exists s. eauto.
Qed.

Lemma send_screenshots_S env n sid w :
  send_screenshots env (S n) sid w =
    match send_screenshots env 1 sid w with
    | (Ok Running, w1) => send_screenshots env n sid w1
    | other => other
    end.
Proof.
  simpl. unfold bind.
  destruct (try_except _ _ w) as [[[|]|e] w1]; done.
Qed.

(** The frames that [n] passes send: no two in a row are the same, and the
    first differs from the frame recorded before the passes. *)
Lemma send_screenshots_frames env sid n : forall w,
  exists st w',
    send_screenshots env n sid w = (Ok st, w') /\
    exists new,
      trace w' = (trace w ++ new)%list /\
      no_consecutive_duplicates (sent_messages new) /\
      forall s l m,
        active_sessions w !! sid = Some s ->
        last_screenshot s = Some l ->
        head (sent_messages new) = Some m ->
        m <> screenshot_message l.
Proof.
  induction n as [|n IH]; intros w.
  - exists Running, w. split; [done|]. exists []. rewrite app_nil_r.
    repeat split; try done.
  - rewrite send_screenshots_S.
    destruct (send_screenshots_pass env sid w)
      as (st & new1 & sessions1 & -> & Hcases).
    set (b := b64encode (screenshot_bytes env (trace w) "jpeg" 80)) in *.
    destruct Hcases as
      [(-> & Hsent & _)
      |[(-> & Hsent & -> & _ & s & Hs & Hsame)
       |(Hsent & _ & s & Hs & Hdiff & Hrec)]].
    + eexists _, _. split; [reflexivity|]. exists new1.
      cbn [trace]. rewrite Hsent. repeat split; try done.
    + destruct (IH (mkWorld (active_sessions w) (trace w ++ new1)))
        as (st & w' & Hrun & new2 & Htr & Hnodup & Hhead).
      exists st, w'. split; [done|]. exists (new1 ++ new2)%list.
      cbn [trace active_sessions] in *.
      rewrite Htr, app_assoc, sent_messages_app, Hsent. cbn [app].
      split; [done|]. split; [done|]. eauto.
    + destruct st.
      * specialize (Hrec eq_refl). subst sessions1.
        destruct (IH (mkWorld (<[sid:=mkSession (Some b) (mouse_down s)]>
                                 (active_sessions w)) (trace w ++ new1)))
          as (st & w' & Hrun & new2 & Htr & Hnodup & Hhead).
        exists st, w'. split; [done|]. exists (new1 ++ new2)%list.
        cbn [trace active_sessions] in *.
        rewrite Htr, app_assoc, sent_messages_app, Hsent. cbn [app].
        split; [done|]. split.
        -- split; [|done].
           destruct (sent_messages new2) as [|m rest] eqn:Hm; [done|].
           intros Heq.
           eapply (Hhead _ b m); [apply lookup_insert_eq|done|done|done].
        -- intros s0 l m Hs0 Hl [= <-] Heq.
           apply screenshot_message_inj in Heq. subst l.
           rewrite Hs in Hs0. injection Hs0 as <-.
           apply differs_from_spec in Hdiff. congruence.
      * eexists _, _. split; [reflexivity|]. exists new1.
        cbn [trace]. rewrite Hsent. split; [done|]. split; [done|].
        intros s0 l m Hs0 Hl [= <-] Heq.
        apply screenshot_message_inj in Heq. subst l.
        rewrite Hs in Hs0. injection Hs0 as <-.
        apply differs_from_spec in Hdiff. congruence.
Qed.

Lemma send_screenshots_ok env n sid w :
  exists st, fst (send_screenshots env n sid w) = Ok st.
Proof.
  destruct (send_screenshots_frames env sid n w) as (st & w' & -> & _).
  by exists st.
Qed.

(** C2. The frame loop never hands the websocket the same frame twice in a
    row; a captured frame is sent exactly when its text differs from the
    frame recorded for the session as sent last ([None] at the start of a
    session, so that the first frame of the loop is always sent); and the
    frame captured when the connection opens is always sent. *)
Theorem frames_are_sent_iff_changed env sid :
  (forall n w,
     no_consecutive_duplicates
       (sent_messages
          (new_effects w (snd (send_screenshots env n sid w))))) /\
  (forall w s,
     active_sessions w !! sid = Some s ->
     raises env (trace w) (PageScreenshot "jpeg" 80) = false ->
     let b := b64encode (screenshot_bytes env (trace w) "jpeg" 80) in
     let sent :=
       sent_messages (new_effects w (snd (send_screenshots env 1 sid w))) in
     (Some b <> last_screenshot s -> sent = [screenshot_message b]) /\
     (Some b = last_screenshot s -> sent = []) /\
     (last_screenshot s = None -> sent = [screenshot_message b])) /\
  (forall w,
     raises env (trace w) (PageScreenshot "jpeg" 85) = false ->
     sent_messages
       (new_effects w (snd (send_initial_screenshot env w)))
     = [screenshot_message
         (b64encode (screenshot_bytes env (trace w) "jpeg" 85))]).
Proof.
  split; [|split].
  - intros n w.
    destruct (send_screenshots_frames env sid n w)
      as (st & w' & -> & new & Htr & Hnodup & _).
    cbn [snd]. by rewrite (new_effects_app _ _ _ Htr).
  - intros w s Hs Hshot b sent. subst sent.
    destruct (send_screenshots_pass env sid w)
      as (st & new & sessions' & -> & Hcases).
    cbn [snd]. rewrite (new_effects_app _ _ new) by done.
    fold b in Hcases.
    assert (Hsent : sent_messages new =
              if differs_from b (last_screenshot s)
              then [screenshot_message b] else []).
    { destruct Hcases as
        [(_ & _ & [Hr|Hn])
        |[(_ & Hsent & _ & _ & s0 & Hs0 & Hsame)
         |(Hsent & _ & s0 & Hs0 & Hdiff & _)]]; try congruence.
      - rewrite Hs in Hs0. injection Hs0 as <-. by rewrite Hsame.
      - rewrite Hs in Hs0. injection Hs0 as <-. by rewrite Hdiff. }
    rewrite Hsent. repeat split.
    + intros Hne. apply differs_from_spec in Hne. by rewrite Hne.
    + intros Heq. destruct (differs_from b (last_screenshot s)) eqn:Hd; [|done].
      apply differs_from_spec in Hd. congruence.
    + by intros ->.
  - intros w Hshot.
    unfold send_initial_screenshot, bind, page_screenshot, call, log.
    rewrite Hshot. cbn [trace active_sessions].
    destruct (raises env _ (WsSendJson _)); cbn [snd];
      (erewrite new_effects_app;
       [|cbn [trace]; rewrite <- app_assoc; reflexivity]); reflexivity.
Qed.

Example frames_of_three_passes :
  sent_messages
    (new_effects AppSamples.fresh
       (snd (send_screenshots AppSamples.calm 3 "s1" AppSamples.fresh)))
  = [screenshot_message "TVA="].
Proof. reflexivity. Qed.

(** *** Pauses and failures of the frame loop *)

Lemma sleeps_until_capture_quiet mid rest :
  quiet mid = true ->
  sleeps_until_capture (mid ++ rest) = sleeps_until_capture rest.
Proof.
  induction mid as [|e mid IH]; [done|]. simpl.
  destruct e; try discriminate; intros H; by rewrite IH.
Qed.

Lemma pauses_quiet mid rest :
  quiet mid = true -> pauses (mid ++ rest) = pauses rest.
Proof.
  induction mid as [|e mid IH]; [done|]. simpl.
  destruct e; try discriminate; intros H; by rewrite IH.
Qed.

Ltac pass_case :=
  split; [reflexivity|]; cbn [trace];
  split; [|split; [rewrite <- ?app_assoc; reflexivity|done]];
  reflexivity.

(** The trace of one pass of [send_screenshots]: the capture, then neither
    captures nor sleeps, and at the end the pause when the loop goes on. *)
Lemma send_screenshots_pass_trace env sid w :
  exists st w' mid,
    send_screenshots env 1 sid w = (Ok st, w') /\
    quiet mid = true /\
    trace w' =
      (trace w ++ PageScreenshot "jpeg" 80 :: mid ++
         match st with Running => [Sleep (1 # 1000)] | Exited => [] end)%list /\
    (raises env (trace w) (PageScreenshot "jpeg" 80) = true ->
     st = Exited /\ mid = [Print (LogScreenshotError ExternalError)]).
Proof.
  unfold send_screenshots, try_except, send_screenshots_body, bind,
    page_screenshot, get_session, call, set_last_screenshot, emit, ret, log,
    set_sessions.
  cbn [trace active_sessions].
  destruct (raises env (trace w) (PageScreenshot "jpeg" 80)).
  { eexists Exited, _, [_]. pass_case. }
  cbn [trace active_sessions].
  destruct (active_sessions w !! sid) as [s|] eqn:Hs.
  2:{ eexists Exited, _, [_]. pass_case. }
  cbn [trace active_sessions].
  destruct (differs_from _ (last_screenshot s)).
  2:{ eexists Running, _, []. pass_case. }
  cbn [trace active_sessions].
  destruct (raises env _ (WsSendJson _)).
  { eexists Exited, _, [_; _]. pass_case. }
  unfold bind, get_session. cbn [trace active_sessions]. rewrite Hs.
  eexists Running, _, [_]. pass_case.
Qed.

(** Over [n] passes of [send_screenshots], every capture but the one of a
    pass that leaves the loop is followed by exactly one pause, always of
    the same length. *)
Lemma send_screenshots_pauses env sid n : forall w,
  exists st w' new k,
    send_screenshots env n sid w = (Ok st, w') /\
    trace w' = (trace w ++ new)%list /\
    sleeps_until_capture new = [] /\
    pauses new =
      (repeat [1 # 1000] k ++
       match st with Running => [] | Exited => [[]] end)%list /\
    (k <= n)%nat /\
    (st = Running -> k = n).
Proof.
  induction n as [|n IH]; intros w.
  - exists Running, w, [], 0%nat. rewrite app_nil_r. by repeat split.
  - rewrite send_screenshots_S.
    destruct (send_screenshots_pass_trace env sid w)
      as ([|] & w1 & mid & -> & Hq & Htr1 & _).
    + destruct (IH w1)
        as (st & w' & new2 & k & -> & Htr2 & Hhead & Hp2 & Hk & Hn).
      exists st, w', (PageScreenshot "jpeg" 80 :: mid ++ Sleep (1 # 1000) :: new2)%list,
        (S k).
      split; [done|]. split.
      { rewrite Htr2, Htr1, <- !app_assoc. cbn [app].
        by rewrite <- app_assoc. }
      split; [done|]. split.
      { cbn [pauses]. rewrite sleeps_until_capture_quiet, pauses_quiet by done.
        cbn [sleeps_until_capture pauses]. by rewrite Hhead, Hp2. }
      split; [lia|]. intros ->. by rewrite Hn.
    + exists Exited, w1, (PageScreenshot "jpeg" 80 :: mid)%list, 0%nat.
      split; [done|]. split; [by rewrite Htr1, app_nil_r|].
      split; [done|]. split.
      { cbn [pauses repeat app].
        rewrite <- (app_nil_r mid).
        by rewrite sleeps_until_capture_quiet, pauses_quiet. }
      split; [lia|done].
Qed.

(** C6, as the design document states it, fails for the polling transport:
    when the screenshot call raises, the frame loop is left at once, and
    further passes do nothing. *)
Lemma send_screenshots_leaves_loop_on_capture_failure :
  ~ (forall env sid w n,
       raises env (trace w) (PageScreenshot "jpeg" 80) = true ->
       fst (send_screenshots env (S n) sid w) = Ok Running).
Proof.
  intros H.
  specialize (H AppSamples.blind "s1" AppSamples.fresh 0%nat eq_refl).
  discriminate H.
Qed.

(** In the polling transport a failed capture is printed and ends the frame
    loop: whatever the number of passes asked for, the trace grows by the
    one capture and the report. *)
Lemma send_screenshots_capture_failure env sid w n :
  raises env (trace w) (PageScreenshot "jpeg" 80) = true ->
  send_screenshots env (S n) sid w =
    (Ok Exited,
     mkWorld (active_sessions w)
       (trace w ++ [PageScreenshot "jpeg" 80;
                    Print (LogScreenshotError ExternalError)])).
Proof.
  intros Hshot. rewrite send_screenshots_S.
  unfold send_screenshots, try_except, send_screenshots_body, bind,
    page_screenshot, emit, ret, log.
  rewrite Hshot. cbn [trace active_sessions].
  by rewrite <- app_assoc.
Qed.

(** The polling loop looks at a payload only to compare it with the frame
    recorded: whatever bytes the screenshot call returns are encoded, sent
    and recorded when they differ from it, and the loop goes on. *)
Lemma send_screenshots_sends_what_it_gets env sid w s :
  raises env (trace w) (PageScreenshot "jpeg" 80) = false ->
  active_sessions w !! sid = Some s ->
  differs_from (b64encode (screenshot_bytes env (trace w) "jpeg" 80))
    (last_screenshot s) = true ->
  raises env (trace w ++ [PageScreenshot "jpeg" 80])
    (WsSendJson
       (screenshot_message
          (b64encode (screenshot_bytes env (trace w) "jpeg" 80)))) = false ->
  send_screenshots env 1 sid w =
    (Ok Running,
     mkWorld
       (<[sid := mkSession
                   (Some (b64encode (screenshot_bytes env (trace w) "jpeg" 80)))
                   (mouse_down s)]> (active_sessions w))
       (trace w ++
          [PageScreenshot "jpeg" 80;
           WsSendJson
             (screenshot_message
                (b64encode (screenshot_bytes env (trace w) "jpeg" 80)));
           Sleep (1 # 1000)])).
Proof.
  intros Hshot Hs Hdiff Hsend.
  unfold send_screenshots, try_except, send_screenshots_body, bind,
    page_screenshot, get_session, call, set_last_screenshot, emit, ret, log,
    set_sessions.
  cbn [trace active_sessions]. rewrite Hshot.
  cbn [trace active_sessions]. rewrite Hs, Hdiff.
  cbn [trace active_sessions]. rewrite Hsend.
  unfold bind, get_session. cbn [trace active_sessions]. rewrite Hs.
  cbn [trace active_sessions]. by rewrite <- !app_assoc.
Qed.

(** A payload that is the frame recorded is passed over, and the loop goes
    on. *)
Lemma send_screenshots_skips_what_it_has env sid w s :
  raises env (trace w) (PageScreenshot "jpeg" 80) = false ->
  active_sessions w !! sid = Some s ->
  differs_from (b64encode (screenshot_bytes env (trace w) "jpeg" 80))
    (last_screenshot s) = false ->
  send_screenshots env 1 sid w =
    (Ok Running,
     mkWorld (active_sessions w)
       (trace w ++ [PageScreenshot "jpeg" 80; Sleep (1 # 1000)])).
Proof.
  intros Hshot Hs Hdiff.
  unfold send_screenshots, try_except, send_screenshots_body, bind,
    page_screenshot, get_session, call, set_last_screenshot, emit, ret, log,
    set_sessions.
  cbn [trace active_sessions]. rewrite Hshot.
  cbn [trace active_sessions]. rewrite Hs, Hdiff.
  cbn [trace active_sessions]. by rewrite <- !app_assoc.
Qed.

(** *** A whole connection *)

Lemma keeps_send_initial_screenshot env :
  keeps_sessions (send_initial_screenshot env).
Proof. unfold send_initial_screenshot. keeps. Qed.

(** On a connection that opens a new session and is still being served, the
    flag is the one the last button event left, up when there was none. *)
Lemma websocket_endpoint_flag env schedule sid w task w' :
  active_sessions w !! sid = None ->
  websocket_endpoint env schedule sid w = (Ok (Serving task), w') ->
  mouse_down <$> active_sessions w' !! sid =
    Some (match most_recent_button_event schedule with
          | Some e => String.eqb e "mousedown"
          | None => false
          end).
Proof.
  intros Hnew H. unfold websocket_endpoint in H.
  invert_bind H as u w0 Haccept.
  assert (Hw0 : active_sessions w0 = active_sessions w)
    by (by apply (keeps_call env WsAccept w (Ok u))).
  invert_bind H as u1 w1 Hstart.
  rewrite Hw0, Hnew in Hstart. unfold start_browser_session in Hstart.
  invert_bind Hstart as u2 w2 Hlaunch.
  assert (Hw2 : active_sessions w2 = active_sessions w0)
    by (by apply (keeps_call env LaunchBrowser w0 (Ok u2))).
  injection Hstart as _ <-.
  destruct (send_initial_screenshot env _) as [[u3|e] w3] eqn:Hinit;
    [|discriminate].
  pose proof (keeps_send_initial_screenshot env _ _ _ Hinit) as Hw3.
  destruct (serve env schedule sid Running w3) as [[task'|e] w4] eqn:Hserve.
  - injection H as _ <-.
    apply (serve_flag _ _ _ _ _ _ _ false) in Hserve; [done|].
    rewrite Hw3. cbn [active_sessions set_sessions].
    by rewrite lookup_insert_eq.
  - unfold bind, emit, close_browser_session, call, ret in H.
    repeat case_match; simplify_eq.
Qed.

Example a_drag_over_a_connection :
  let '(r, w) := websocket_endpoint AppSamples.calm AppSamples.drag "s1"
                   (mkWorld ∅ []) in
  r = Ok (Serving Running) /\
  active_sessions w !! "s1" = Some (mkSession (Some "TVA=") false) /\
  sent_messages (trace w) =
    [screenshot_message "TVU="; screenshot_message "TVA="].
Proof. vm_compute. done. Qed.

Example a_disconnect_closes_the_session :
  let '(r, w) := websocket_endpoint AppSamples.calm
                   [ClientMessage (Some (AppSamples.mouse "mousedown"));
                    ClientDisconnect; FrameTick]
                   "s1" (mkWorld ∅ []) in
  r = Ok Closed /\ active_sessions w !! "s1" = None.
Proof. vm_compute. done. Qed.

(** *** What a connection leaves alone *)

#[local] Instance others_kept_preorder sid : PreOrder (others_kept sid).
Proof.
  split; [by intros w sid' _|].
  intros w1 w2 w3 H12 H23 sid' Hne. by rewrite H23, H12.
Qed.

#[local] Instance session_stays_preorder sid : PreOrder (session_stays sid).
Proof.
  split; [intros w H; exact H|].
  intros w1 w2 w3 H12 H23 H. apply H23, H12, H.
Qed.

#[local] Instance screenshots_kept_preorder : PreOrder screenshots_kept.
Proof.
  split; [by intros w sid|].
  intros w1 w2 w3 H12 H23 sid. by rewrite H23, H12.
Qed.

#[local] Instance appends_preorder ok : PreOrder (appends ok).
Proof.
  split.
  - intros w. exists []. by rewrite app_nil_r.
  - intros w1 w2 w3 (n1 & H1 & Hok1) (n2 & H2 & Hok2).
    exists (n1 ++ n2)%list. rewrite H2, H1, app_assoc. split; [done|].
    by rewrite forallb_app, Hok1, Hok2.
Qed.

Lemma others_kept_same sid w w' :
  active_sessions w' = active_sessions w -> others_kept sid w w'.
Proof. intros H sid' _. by rewrite H. Qed.

Lemma session_stays_same sid w w' :
  active_sessions w' = active_sessions w -> session_stays sid w w'.
Proof. unfold session_stays. by intros ->. Qed.

Lemma screenshots_kept_same w w' :
  active_sessions w' = active_sessions w -> screenshots_kept w w'.
Proof. intros H sid. by rewrite H. Qed.

(** A computation that leaves the sessions alone keeps every relation that
    only looks at them. *)
Lemma relates_keeps {A} (R : relation World) (m : M World A) :
  (forall w w', active_sessions w' = active_sessions w -> R w w') ->
  keeps_sessions m -> relates R m.
Proof. intros HR Hm w r w' H. apply HR. exact (Hm _ _ _ H). Qed.

Lemma set_mouse_down_inv sid b w r w' :
  set_mouse_down sid b w = (r, w') ->
  (active_sessions w !! sid = None /\ w' = w) \/
  (exists s, active_sessions w !! sid = Some s /\
     w' = set_sessions
            (<[sid := mkSession (last_screenshot s) b]> (active_sessions w))
            w).
Proof.
  unfold set_mouse_down, bind, get_session.
  destruct (active_sessions w !! sid) as [s|]; intros [= _ <-]; eauto.
Qed.

Lemma set_last_screenshot_inv sid v w r w' :
  set_last_screenshot sid v w = (r, w') ->
  (active_sessions w !! sid = None /\ w' = w) \/
  (exists s, active_sessions w !! sid = Some s /\
     w' = set_sessions
            (<[sid := mkSession (Some v) (mouse_down s)]> (active_sessions w))
            w).
Proof.
  unfold set_last_screenshot, bind, get_session.
  destruct (active_sessions w !! sid) as [s|]; intros [= _ <-]; eauto.
Qed.

Lemma others_kept_set_mouse_down sid b :
  relates (others_kept sid) (set_mouse_down sid b).
Proof.
  intros w r w' H sid' Hne.
  apply set_mouse_down_inv in H as [[_ ->]|(s & _ & ->)]; [done|].
  cbn. by rewrite lookup_insert_ne.
Qed.

Lemma others_kept_set_last_screenshot sid v :
  relates (others_kept sid) (set_last_screenshot sid v).
Proof.
  intros w r w' H sid' Hne.
  apply set_last_screenshot_inv in H as [[_ ->]|(s & _ & ->)]; [done|].
  cbn. by rewrite lookup_insert_ne.
Qed.

Lemma session_stays_set_mouse_down sid b :
  relates (session_stays sid) (set_mouse_down sid b).
Proof.
  intros w r w' H Hin.
  apply set_mouse_down_inv in H as [[_ ->]|(s & _ & ->)]; [done|].
  cbn. by rewrite lookup_insert_eq.
Qed.

Lemma session_stays_set_last_screenshot sid v :
  relates (session_stays sid) (set_last_screenshot sid v).
Proof.
  intros w r w' H Hin.
  apply set_last_screenshot_inv in H as [[_ ->]|(s & _ & ->)]; [done|].
  cbn. by rewrite lookup_insert_eq.
Qed.

Lemma screenshots_kept_set_mouse_down sid b :
  relates screenshots_kept (set_mouse_down sid b).
Proof.
  intros w r w' H sid'.
  apply set_mouse_down_inv in H as [[_ ->]|(s & Hs & ->)]; [done|].
  cbn. destruct (decide (sid = sid')) as [<-|Hne].
  - by rewrite lookup_insert_eq, Hs.
  - by rewrite lookup_insert_ne.
Qed.

Lemma appends_same ok w w' : trace w' = trace w -> appends ok w w'.
Proof. intros H. exists []. by rewrite app_nil_r. Qed.

Lemma appends_call ok env e :
  ok e = true -> relates (appends ok) (call env e).
Proof.
  intros Hok w r w' H. unfold call in H. exists [e]. cbn. rewrite Hok.
  by destruct (raises env _ _); simplify_eq.
Qed.

Lemma appends_emit ok e : ok e = true -> relates (appends ok) (emit e).
Proof.
  intros Hok w r w' H. unfold emit in H. exists [e]. cbn. rewrite Hok.
  by simplify_eq.
Qed.

Lemma appends_get_session ok sid : relates (appends ok) (get_session sid).
Proof.
  intros w r w' H. apply appends_same. unfold get_session in H.
  by destruct (_ !! _); simplify_eq.
Qed.

Lemma appends_set_mouse_down ok sid b :
  relates (appends ok) (set_mouse_down sid b).
Proof.
  intros w r w' H. apply appends_same.
  by apply set_mouse_down_inv in H as [[_ ->]|(s & _ & ->)].
Qed.

Create HintDb relates.
#[local] Hint Resolve others_kept_set_mouse_down
  others_kept_set_last_screenshot session_stays_set_mouse_down
  session_stays_set_last_screenshot screenshots_kept_set_mouse_down
  appends_get_session appends_set_mouse_down : relates.
#[local] Hint Extern 1 (relates (others_kept _) _) =>
  apply relates_keeps; [apply others_kept_same|solve [keeps]] : relates.
#[local] Hint Extern 1 (relates (session_stays _) _) =>
  apply relates_keeps; [apply session_stays_same|solve [keeps]] : relates.
#[local] Hint Extern 1 (relates screenshots_kept _) =>
  apply relates_keeps; [apply screenshots_kept_same|solve [keeps]] : relates.
#[local] Hint Extern 1 (relates (appends _) (call _ _)) =>
  apply appends_call; reflexivity : relates.
#[local] Hint Extern 1 (relates (appends _) (emit _)) =>
  apply appends_emit; reflexivity : relates.

Ltac relates :=
  repeat first
    [ solve [auto with relates]
    | match goal with
      | |- relates ?R (ret _) => apply (relates_ret R)
      | |- relates ?R (raise _) => apply (relates_raise R)
      | |- relates ?R (py_getitem _ _) => apply (relates_py_getitem R)
      | |- relates ?R (py_get _ _ _) => apply (relates_py_get R)
      | |- relates ?R (bind _ _) => apply (relates_bind R); [|intros ?]
      | |- relates ?R (try_except _ _) =>
          apply (relates_try_except R); [|intros ?]
      | |- relates _ (if ?b then _ else _) => destruct b
      | |- relates _ (match ?x with _ => _ end) => destruct x
      end ].

Lemma others_kept_handle_message env msg sid :
  relates (others_kept sid) (handle_message env msg sid).
Proof. unfold handle_message, handle_mouse_event. relates. Qed.

Lemma session_stays_handle_message env msg sid :
  relates (session_stays sid) (handle_message env msg sid).
Proof. unfold handle_message, handle_mouse_event. relates. Qed.

Lemma screenshots_kept_handle_message env msg sid :
  relates screenshots_kept (handle_message env msg sid).
Proof. unfold handle_message, handle_mouse_event. relates. Qed.

Lemma frameless_handle_message env msg sid :
  relates (appends frameless) (handle_message env msg sid).
Proof.
  unfold handle_message, handle_mouse_event, handle_keyboard_event,
    handle_scroll_event, handle_navigation_event, in_special_keys, py_len.
  relates.
Qed.

Lemma others_kept_send_screenshots env n sid :
  relates (others_kept sid) (send_screenshots env n sid).
Proof.
  induction n as [|n IH]; simpl; [relates|].
  unfold send_screenshots_body. relates.
Qed.

Lemma session_stays_send_screenshots env n sid :
  relates (session_stays sid) (send_screenshots env n sid).
Proof.
  induction n as [|n IH]; simpl; [relates|].
  unfold send_screenshots_body. relates.
Qed.

(** The receive loop keeps whatever its handlers and the frame task keep. *)
Lemma serve_relates (R : relation World) `{!PreOrder R} env sid :
  (forall msg, relates R (handle_message env msg sid)) ->
  relates R (send_screenshots env 1 sid) ->
  forall schedule task, relates R (serve env schedule sid task).
Proof.
  intros Hmsg Hframe. induction schedule as [|t rest IH]; intros task.
  - by apply relates_ret.
  - destruct t as [[msg|]| |]; cbn [serve].
    + apply (relates_bind R); [apply Hmsg|intros ?; apply IH].
    + by apply relates_raise.
    + by apply relates_raise.
    + destruct task; [|apply IH].
      apply (relates_bind R); [apply Hframe|intros ?; apply IH].
Qed.

Lemma serve_exited_relates (R : relation World) `{!PreOrder R} env sid :
  (forall msg, relates R (handle_message env msg sid)) ->
  forall schedule, relates R (serve env schedule sid Exited).
Proof.
  intros Hmsg. induction schedule as [|t rest IH].
  - by apply relates_ret.
  - destruct t as [[msg|]| |]; cbn [serve].
    + apply (relates_bind R); [apply Hmsg|intros ?; apply IH].
    + by apply relates_raise.
    + by apply relates_raise.
    + apply IH.
Qed.

Lemma relates_both {A B} (R : relation World) `{!PreOrder R}
    (m : M World A) (k : A -> M World B) (h : exn -> M World B) :
  relates R m -> (forall a, relates R (k a)) -> (forall e, relates R (h e)) ->
  relates R (fun w => match m w with
                      | (Ok a, w1) => k a w1
                      | (Raise e, w1) => h e w1
                      end).
Proof.
  intros Hm Hk Hh w r w' H.
  destruct (m w) as [[a|e] w1] eqn:Hmw.
  - etrans; [exact (Hm _ _ _ Hmw)|exact (Hk _ _ _ _ H)].
  - etrans; [exact (Hm _ _ _ Hmw)|exact (Hh _ _ _ _ H)].
Qed.

Lemma others_kept_start_browser_session env sid :
  relates (others_kept sid) (start_browser_session env sid).
Proof.
  unfold start_browser_session. relates.
  intros w r w' [= _ <-] sid' Hne. cbn. by rewrite lookup_insert_ne.
Qed.

Lemma others_kept_close_browser_session env sid :
  relates (others_kept sid) (close_browser_session env sid).
Proof.
  unfold close_browser_session.
  apply (relates_bind (others_kept sid));
    [by intros w r w' [= _ <-]|intros [s|]]; relates.
  intros w r w' [= _ <-] sid' Hne. cbn. by rewrite lookup_delete_ne.
Qed.

Lemma others_kept_websocket_endpoint env schedule sid :
  relates (others_kept sid) (websocket_endpoint env schedule sid).
Proof.
  unfold websocket_endpoint.
  apply (relates_bind (others_kept sid)); [relates|intros _].
  apply (relates_bind (others_kept sid)).
  { intros w r w' H. destruct (active_sessions w !! sid).
    - by simplify_eq.
    - exact (others_kept_start_browser_session _ _ _ _ _ H). }
  intros _.
  apply (relates_both (others_kept sid) (send_initial_screenshot env)
           (fun _ w1 =>
              match serve env schedule sid Running w1 with
              | (Ok task, w2) => (Ok (Serving task), w2)
              | (Raise e, w2) => _ w2
              end)
           (fun e w1 => _ w1)).
  - unfold send_initial_screenshot. relates.
  - intros _.
    apply (relates_both (others_kept sid) (serve env schedule sid Running)
             (fun task => ret (Serving task)) (fun e w2 => _ w2)).
    + apply (serve_relates (others_kept sid)).
      * intros msg. apply others_kept_handle_message.
      * apply others_kept_send_screenshots.
    + intros task. relates.
    + intros e. apply (relates_bind (others_kept sid)); [relates|intros _].
      apply (relates_bind (others_kept sid));
        [apply others_kept_close_browser_session|].
      intros _. relates.
  - intros e. relates.
Qed.

(** *** The sessions of other connections *)

(** X1. Whatever a connection for one session receives, and however it ends,
    it leaves the entry of every other session in [active_sessions] as it
    was: its flag, its recorded frame, and whether it is there at all. *)
Theorem a_connection_leaves_other_sessions_alone
    env schedule sid sid' w r w' :
  sid' <> sid ->
  websocket_endpoint env schedule sid w = (r, w') ->
  active_sessions w' !! sid' = active_sessions w !! sid'.
Proof.
  intros Hne H.
  exact (others_kept_websocket_endpoint _ _ _ _ _ _ H _ Hne).
Qed.

Lemma a_connection_leaves_other_sessions_alone_witness :
  active_sessions
    (snd (websocket_endpoint AppSamples.calm
            (AppSamples.drag ++ [ClientDisconnect]) "s1"
            AppSamples.with_neighbour)) !! "s2"
  = Some (mkSession (Some "TVA=") true).
Proof.
  rewrite (a_connection_leaves_other_sessions_alone AppSamples.calm
             (AppSamples.drag ++ [ClientDisconnect]) "s1" "s2"
             AppSamples.with_neighbour
             (fst (websocket_endpoint AppSamples.calm
                     (AppSamples.drag ++ [ClientDisconnect]) "s1"
                     AppSamples.with_neighbour))
             (snd (websocket_endpoint AppSamples.calm
                     (AppSamples.drag ++ [ClientDisconnect]) "s1"
                     AppSamples.with_neighbour))).
  - reflexivity.
  - discriminate.
  - apply surjective_pairing.
Defined.

(** *** The end of a connection *)

Lemma serve_ok_heard_no_goodbye env schedule sid : forall task w task' w',
  serve env schedule sid task w = (Ok task', w') ->
  ~ In ClientDisconnect schedule /\ ~ In (ClientMessage None) schedule.
Proof.
  induction schedule as [|t rest IH]; intros task w task' w' H.
  - split; intros [].
  - destruct t as [[msg|]| |]; cbn [serve] in H; try discriminate.
    + bind_ok_in H. destruct (IH _ _ _ _ H) as [H1 H2].
      split; intros [Heq|Hin]; try discriminate; auto.
    + assert (Hrest : exists task1 w1,
                serve env rest sid task1 w1 = (Ok task', w')).
      { destruct task; [bind_ok_in H|]; eauto. }
      destruct Hrest as (task1 & w1 & Hrest).
      destruct (IH _ _ _ _ Hrest) as [H1 H2].
      split; intros [Heq|Hin]; try discriminate; auto.
Qed.

Lemma session_stays_serve env schedule sid task :
  relates (session_stays sid) (serve env schedule sid task).
Proof.
  apply (serve_relates (session_stays sid)).
  - intros msg. apply session_stays_handle_message.
  - apply session_stays_send_screenshots.
Qed.

(** X2. A connection that has ended has closed its browser session: the
    last thing it did was to close the browser, and the session is gone from
    [active_sessions].  A connection whose client went away, or sent a text
    that is not JSON, has ended. *)
Theorem a_connection_that_ends_closes_its_session env schedule sid w c w' :
  websocket_endpoint env schedule sid w = (Ok c, w') ->
  (c = Closed ->
     active_sessions w' !! sid = None /\
     last (trace w') = Some CloseBrowser) /\
  (In ClientDisconnect schedule \/ In (ClientMessage None) schedule ->
     c = Closed).
Proof.
  intros H. unfold websocket_endpoint in H.
  invert_bind H as u w0 Haccept.
  invert_bind H as u1 w1 Hstart.
  assert (Hin1 : is_Some (active_sessions w1 !! sid)).
  { destruct (active_sessions w0 !! sid) as [s|] eqn:Hs.
    - simplify_eq. rewrite Hs. eauto.
    - unfold start_browser_session in Hstart.
      invert_bind Hstart as u2 w2 Hlaunch. simplify_eq. cbn.
      rewrite lookup_insert_eq. eauto. }
  destruct (send_initial_screenshot env w1) as [[u3|e] w3] eqn:Hinit;
    [|discriminate].
  pose proof (keeps_send_initial_screenshot env _ _ _ Hinit) as Hw3.
  destruct (serve env schedule sid Running w3) as [[task|e] w4] eqn:Hserve.
  - simplify_eq. split; [discriminate|]. intros Hbye.
    apply serve_ok_heard_no_goodbye in Hserve. tauto.
  - assert (Hin4 : is_Some (active_sessions w4 !! sid)).
    { apply (session_stays_serve _ _ _ _ _ _ _ Hserve). by rewrite Hw3. }
    destruct Hin4 as [s Hs].
    unfold bind, emit, close_browser_session, bind, call, ret in H.
    cbn [active_sessions trace log] in H. rewrite Hs in H.
    cbn [active_sessions trace log] in H.
    destruct (raises env _ CloseBrowser); [discriminate|].
    simplify_eq. split; [|done]. intros _. cbn. split.
    + apply lookup_delete_eq.
    + apply last_snoc.
Qed.

Lemma a_connection_that_ends_closes_its_session_witness :
  (Closed = Closed ->
     active_sessions
       (snd (websocket_endpoint AppSamples.calm
               [ClientMessage (Some (AppSamples.mouse "mousedown"));
                ClientDisconnect] "s1" (mkWorld ∅ []))) !! "s1" = None /\
     last (trace
             (snd (websocket_endpoint AppSamples.calm
                     [ClientMessage (Some (AppSamples.mouse "mousedown"));
                      ClientDisconnect] "s1" (mkWorld ∅ []))))
       = Some CloseBrowser) /\
  (In ClientDisconnect
      [ClientMessage (Some (AppSamples.mouse "mousedown")); ClientDisconnect]
   \/ In (ClientMessage None)
        [ClientMessage (Some (AppSamples.mouse "mousedown"));
         ClientDisconnect] ->
     Closed = Closed).
Proof.
  apply (a_connection_that_ends_closes_its_session AppSamples.calm
           [ClientMessage (Some (AppSamples.mouse "mousedown"));
            ClientDisconnect] "s1" (mkWorld ∅ []) Closed).
  vm_compute. reflexivity.
Defined.

(** X3. When the frame that opens a connection cannot be captured or sent,
    the endpoint reports the error and then fails on the frame task it never
    started: the browser is not closed and the session stays in
    [active_sessions]. *)
Theorem a_failed_first_frame_leaves_the_session_open
    env schedule sid w msg w' :
  websocket_endpoint env schedule sid w = (Raise (RuntimeError msg), w') ->
  is_Some (active_sessions w' !! sid) /\
  exists opening first_frame,
    trace w' = (trace w ++ opening ++ first_frame
                  ++ [Print (LogError ExternalError)])%list /\
    forallb not_closing (opening ++ first_frame) = true /\
    (first_frame = [PageScreenshot "jpeg" 85] \/
     exists m, first_frame = [PageScreenshot "jpeg" 85; WsSendJson m]).
Proof.
  intros H. unfold websocket_endpoint in H.
  unfold bind at 1 in H. unfold call at 1 in H.
  destruct (raises env (trace w) WsAccept); [discriminate|].
  unfold bind at 1 in H. cbn [active_sessions log] in H.
  assert (Hopen : exists w1 opening,
            is_Some (active_sessions w1 !! sid) /\
            trace w1 = (trace w ++ opening)%list /\
            forallb not_closing opening = true /\
            (fun w : World =>
               match send_initial_screenshot env w with
               | (Ok _, w1) =>
                   match serve env schedule sid Running w1 with
                   | (Ok task, w2) => (Ok (Serving task), w2)
                   | (Raise e, w2) =>
                       (emit (Print (match e with
                                     | WebSocketDisconnect =>
                                         LogDisconnected sid
                                     | _ => LogError e
                                     end)) ;;
                        close_browser_session env sid ;;
                        ret Closed) w2
                   end
               | (Raise e, w1) =>
                   (emit (Print (LogError e)) ;;
                    raise (RuntimeError "UnboundLocalError: screenshot_task"))
                     w1
               end) w1 = (Raise (RuntimeError msg), w')).
  { destruct (active_sessions w !! sid) as [s|] eqn:Hs.
    - exists (log WsAccept w), [WsAccept]. cbn. rewrite Hs. eauto.
    - unfold start_browser_session, bind, call in H.
      cbn [trace log active_sessions] in H.
      destruct (raises env _ LaunchBrowser); [discriminate|].
      eexists _, [WsAccept; LaunchBrowser]. split; [|split; [|split]].
      4: exact H.
      + cbn. rewrite lookup_insert_eq. eauto.
      + cbn. by rewrite <- app_assoc.
      + reflexivity. }
  clear H. destruct Hopen as (w1 & opening & Hin & Htr & Hok & H).
  cbv beta in H.
  unfold send_initial_screenshot, bind, page_screenshot, call in H.
  destruct (raises env (trace w1) (PageScreenshot "jpeg" 85)).
  { unfold emit, raise in H. simplify_eq. split; [done|].
    exists opening, [PageScreenshot "jpeg" 85]. cbn [trace log].
    rewrite Htr, forallb_app, Hok, <- !app_assoc. eauto. }
  cbn [trace log] in H.
  destruct (raises env _ (WsSendJson _)).
  { unfold emit, raise in H. simplify_eq. split; [done|].
    eexists opening, [PageScreenshot "jpeg" 85; WsSendJson _].
    cbn [trace log]. rewrite Htr, forallb_app, Hok, <- !app_assoc. eauto. }
  destruct (serve env schedule sid Running _) as [[task|e] w4];
    [discriminate|].
  unfold emit, close_browser_session, bind, call, ret in H.
  repeat case_match; simplify_eq.
Qed.

Lemma a_failed_first_frame_leaves_the_session_open_witness :
  is_Some
    (active_sessions
       (snd (websocket_endpoint AppSamples.blind [ClientDisconnect] "s1"
               (mkWorld ∅ []))) !! "s1") /\
  exists opening first_frame,
    trace (snd (websocket_endpoint AppSamples.blind [ClientDisconnect] "s1"
                  (mkWorld ∅ [])))
      = (trace (mkWorld ∅ []) ++ opening ++ first_frame
           ++ [Print (LogError ExternalError)])%list /\
    forallb not_closing (opening ++ first_frame) = true /\
    (first_frame = [PageScreenshot "jpeg" 85] \/
     exists m, first_frame = [PageScreenshot "jpeg" 85; WsSendJson m]).
Proof.
  apply (a_failed_first_frame_leaves_the_session_open AppSamples.blind
           [ClientDisconnect] "s1" (mkWorld ∅ [])
           "UnboundLocalError: screenshot_task").
  vm_compute. reflexivity.
Defined.

(** X4. Once a capture has failed, the connection shows its client no
    further frame: the failed capture and its report are followed by no
    screenshot and by nothing written to the websocket, whatever messages
    still arrive and are handled. *)
Theorem a_failed_capture_ends_the_frames_of_a_connection
    env schedule sid w r w' :
  raises env (trace w) (PageScreenshot "jpeg" 80) = true ->
  serve env (FrameTick :: schedule) sid Running w = (r, w') ->
  exists rest,
    trace w' = (trace w ++ PageScreenshot "jpeg" 80
                  :: Print (LogScreenshotError ExternalError) :: rest)%list /\
    forallb frameless rest = true /\
    sent_messages rest = [].
Proof.
  intros Hshot H. cbn [serve] in H. unfold bind at 1 in H.
  rewrite (send_screenshots_capture_failure _ _ _ _ Hshot) in H.
  apply (serve_exited_relates (appends frameless)) in H;
    [|intros msg; apply frameless_handle_message].
  destruct H as (rest & Htr & Hok). cbn [trace] in Htr.
  exists rest. rewrite Htr, <- app_assoc. split; [done|]. split; [done|].
  clear Htr. induction rest as [|e rest IH]; [done|].
  cbn [forallb] in Hok. apply andb_prop in Hok as [He Hrest].
  unfold sent_messages. cbn [omap list_omap].
  destruct e; try discriminate He; by apply IH.
Qed.

Lemma a_failed_capture_ends_the_frames_of_a_connection_witness :
  exists rest,
    trace (snd (serve AppSamples.blind
                  [FrameTick; ClientMessage (Some (AppSamples.mouse "mouseup"));
                   FrameTick]
                  "s1" Running AppSamples.fresh))
      = (trace AppSamples.fresh ++ PageScreenshot "jpeg" 80
           :: Print (LogScreenshotError ExternalError) :: rest)%list /\
    forallb frameless rest = true /\
    sent_messages rest = [].
Proof.
  apply (a_failed_capture_ends_the_frames_of_a_connection AppSamples.blind
           [ClientMessage (Some (AppSamples.mouse "mouseup")); FrameTick]
           "s1" AppSamples.fresh
           (fst (serve AppSamples.blind
                   [FrameTick;
                    ClientMessage (Some (AppSamples.mouse "mouseup"));
                    FrameTick]
                   "s1" Running AppSamples.fresh))).
  - reflexivity.
  - apply surjective_pairing.
Defined.

(** *** Messages that cannot be handled *)

(** X5. A message that lacks a field its type is indexed with is refused
    with a [KeyError] for a field that is missing, after the message has
    been printed and before anything is done to the page or the session. *)
Theorem a_message_without_a_mandatory_field_is_refused
    env d type f sid w :
  dict_lookup "type" d = Some (JStr type) ->
  In f (mandatory_fields type) ->
  dict_lookup f d = None ->
  exists k,
    In k (mandatory_fields type) /\ dict_lookup k d = None /\
    handle_message env (JDict d) sid w
      = (Raise (KeyError k), log (Print (LogReceived (JDict d))) w).
Proof.
  intros Hty Hin Hnone.
  unfold handle_message. unfold bind at 1. unfold emit at 1.
  rewrite (bind_ok _ _ _ _ _ (py_getitem_dict d "type" _ _ Hty)).
  unfold mandatory_fields in *. cbn [json_eq_str].
  destruct (String.eqb type "mouse") eqn:E1.
  { unfold handle_mouse_event.
    destruct (dict_lookup "eventType" d) as [t|] eqn:H1.
    2:{ exists "eventType". split; [cbn; auto|]. split; [done|].
        unfold bind at 1. unfold py_getitem. by rewrite H1. }
    rewrite (bind_ok _ _ _ _ _ (py_getitem_dict d "eventType" _ _ H1)).
    destruct (dict_lookup "x" d) as [x|] eqn:H2.
    2:{ exists "x". split; [cbn; auto|]. split; [done|].
        unfold bind at 1. unfold py_getitem. by rewrite H2. }
    rewrite (bind_ok _ _ _ _ _ (py_getitem_dict d "x" _ _ H2)).
    destruct (dict_lookup "y" d) as [y|] eqn:H3.
    2:{ exists "y". split; [cbn; auto|]. split; [done|].
        unfold bind at 1. unfold py_getitem. by rewrite H3. }
    exfalso. destruct Hin as [<-|[<-|[<-|[]]]]; congruence. }
  destruct (String.eqb type "keyboard") eqn:E2.
  { unfold handle_keyboard_event.
    destruct (dict_lookup "eventType" d) as [t|] eqn:H1.
    2:{ exists "eventType". split; [cbn; auto|]. split; [done|].
        unfold bind at 1. unfold py_getitem. by rewrite H1. }
    rewrite (bind_ok _ _ _ _ _ (py_getitem_dict d "eventType" _ _ H1)).
    destruct (dict_lookup "key" d) as [key|] eqn:H2.
    2:{ exists "key". split; [cbn; auto|]. split; [done|].
        unfold bind at 1. unfold py_getitem. by rewrite H2. }
    exfalso. destruct Hin as [<-|[<-|[]]]; congruence. }
  destruct (String.eqb type "scroll") eqn:E3.
  { assert (type = "scroll") as -> by (by apply String.eqb_eq).
    destruct Hin. }
  destruct (String.eqb type "navigation") eqn:E4.
  { unfold handle_navigation_event.
    destruct (dict_lookup "url" d) as [url|] eqn:H1.
    2:{ exists "url". split; [cbn; auto|]. split; [done|].
        unfold bind at 1. unfold py_getitem. by rewrite H1. }
    exfalso. destruct Hin as [<-|[]]; congruence. }
  destruct (String.eqb type "resize") eqn:E5; [|destruct Hin].
  destruct (dict_lookup "width" d) as [width|] eqn:H1.
  2:{ exists "width". split; [cbn; auto|]. split; [done|].
      unfold bind at 1. unfold py_getitem. by rewrite H1. }
  rewrite (bind_ok _ _ _ _ _ (py_getitem_dict d "width" _ _ H1)).
  destruct (dict_lookup "height" d) as [height|] eqn:H2.
  2:{ exists "height". split; [cbn; auto|]. split; [done|].
      unfold bind at 1. unfold py_getitem. by rewrite H2. }
  exfalso. destruct Hin as [<-|[<-|[]]]; congruence.
Qed.

Lemma a_message_without_a_mandatory_field_is_refused_witness :
  exists k,
    In k (mandatory_fields "mouse") /\
    dict_lookup k [("type", JStr "mouse"); ("eventType", JStr "mousedown");
                   ("x", JInt 10)] = None /\
    handle_message AppSamples.calm
      (JDict [("type", JStr "mouse"); ("eventType", JStr "mousedown");
              ("x", JInt 10)]) "s1" AppSamples.fresh
      = (Raise (KeyError k),
         log (Print (LogReceived
                       (JDict [("type", JStr "mouse");
                               ("eventType", JStr "mousedown");
                               ("x", JInt 10)]))) AppSamples.fresh).
Proof.
  apply (a_message_without_a_mandatory_field_is_refused AppSamples.calm
           [("type", JStr "mouse"); ("eventType", JStr "mousedown");
            ("x", JInt 10)] "mouse" "y" "s1" AppSamples.fresh).
  - reflexivity.
  - simpl. auto.
  - reflexivity.
Defined.

(** X6. A message whose type is none of the five that the endpoint knows is
    printed and otherwise ignored: nothing is done to the page and no
    session changes. *)
Theorem a_message_of_unknown_type_is_ignored env d type sid w :
  dict_lookup "type" d = Some type ->
  json_in_strs type ["mouse"; "keyboard"; "scroll"; "navigation"; "resize"]
    = false ->
  handle_message env (JDict d) sid w
    = (Ok tt, log (Print (LogReceived (JDict d))) w).
Proof.
  intros Hty Hnone. unfold handle_message.
  unfold bind at 1. unfold emit at 1.
  rewrite (bind_ok _ _ _ _ _ (py_getitem_dict d "type" _ _ Hty)).
  unfold json_in_strs in Hnone. cbn [existsb] in Hnone.
  repeat (apply orb_false_elim in Hnone as [? Hnone]).
  by repeat match goal with H : json_eq_str _ _ = false |- _ =>
              rewrite H; clear H end.
Qed.

Lemma a_message_of_unknown_type_is_ignored_witness :
  handle_message AppSamples.calm (JDict [("type", JStr "ping")]) "s1"
    AppSamples.fresh
  = (Ok tt,
     log (Print (LogReceived (JDict [("type", JStr "ping")])))
       AppSamples.fresh).
Proof.
  apply (a_message_of_unknown_type_is_ignored AppSamples.calm
           [("type", JStr "ping")] (JStr "ping") "s1" AppSamples.fresh);
    reflexivity.
Defined.

(** *** Drags *)

(** X7. A pointer move that arrives while the button of the session is down
    is dispatched twice: the move that every pointer event starts with, and
    the move of the drag, to the same coordinates; no session changes. *)
Theorem mousemove_with_button_down_moves_twice env d x y sid w s :
  dict_lookup "eventType" d = Some (JStr "mousemove") ->
  dict_lookup "x" d = Some x ->
  dict_lookup "y" d = Some y ->
  active_sessions w !! sid = Some s ->
  mouse_down s = true ->
  raises env (trace w) (PageMouseMove x y) = false ->
  exists r,
    handle_mouse_event env (JDict d) sid w =
      (r, mkWorld (active_sessions w)
            (trace w ++ [PageMouseMove x y; PageMouseMove x y])).
Proof.
  intros Ht Hx Hy Hs Hdown Hmove.
  unfold handle_mouse_event.
  unfold bind at 1. unfold py_getitem at 1. rewrite Ht. cbn [ret].
  unfold bind at 1. unfold py_getitem at 1. rewrite Hx. cbn [ret].
  unfold bind at 1. unfold py_getitem at 1. rewrite Hy. cbn [ret].
  unfold bind at 1. rewrite py_get_dict.
  cbn [json_eq_str json_in_strs existsb String.eqb Ascii.eqb Bool.eqb orb].
  unfold bind, ret, call, get_session, log. cbn [active_sessions trace].
  rewrite Hmove. cbn [active_sessions trace]. rewrite Hs, Hdown.
  cbn [active_sessions trace].
  destruct (raises env (trace w ++ _) _); eexists; rewrite <- ?app_assoc;
    reflexivity.
Qed.

Lemma mousemove_with_button_down_moves_twice_witness :
  exists r,
    handle_mouse_event AppSamples.calm (AppSamples.mouse "mousemove") "s2"
      AppSamples.with_neighbour =
      (r, mkWorld (active_sessions AppSamples.with_neighbour)
            (trace AppSamples.with_neighbour
               ++ [PageMouseMove (JInt 10) (JInt 20);
                   PageMouseMove (JInt 10) (JInt 20)])).
Proof.
  apply (mousemove_with_button_down_moves_twice AppSamples.calm _ (JInt 10)
           (JInt 20) "s2" AppSamples.with_neighbour
           (mkSession (Some "TVA=") true));
    reflexivity.
Defined.

(** *** Keys *)

Lemma bind_py_getitem_dict {B} d k (f : json -> M World B) w :
  bind (py_getitem (JDict d) k) f w =
    match dict_lookup k d with
    | Some x => f x w
    | None => (Raise (KeyError k), w)
    end.
Proof. unfold bind, py_getitem. by destruct (dict_lookup k d). Qed.

Lemma bind_py_get_dict {B} d k dflt (f : json -> M World B) w :
  bind (py_get (JDict d) k dflt) f w =
    f (match dict_lookup k d with Some x => x | None => dflt end) w.
Proof. unfold bind. by rewrite py_get_dict. Qed.

(** What a keyboard event does, by the two fields that it reads. *)
Lemma handle_keyboard_event_reads env d w :
  handle_keyboard_event env (JDict d) w =
    match dict_lookup "eventType" d, dict_lookup "key" d with
    | Some event_type, Some key =>
        handle_keyboard_event env
          (JDict [("eventType", event_type); ("key", key)]) w
    | Some _, None => (Raise (KeyError "key"), w)
    | None, _ => (Raise (KeyError "eventType"), w)
    end.
Proof.
  unfold handle_keyboard_event.
  rewrite bind_py_getitem_dict.
  destruct (dict_lookup "eventType" d) as [t|]; [|done].
  rewrite bind_py_getitem_dict.
  destruct (dict_lookup "key" d) as [key|]; [|done].
  rewrite !bind_py_getitem_dict. cbn [dict_lookup String.eqb Ascii.eqb
    Bool.eqb]. cbv beta.
  repeat (rewrite !bind_py_get_dict; cbv beta).
  reflexivity.
Qed.

(** X8. The modifier keys of a keyboard event do not change what the event
    does: two events with the same type and the same key are handled alike,
    whatever their ['shiftKey'], ['ctrlKey'], ['altKey'], ['metaKey'] and
    ['code']. *)
Theorem modifier_keys_do_not_change_what_a_key_does env d1 d2 w :
  dict_lookup "eventType" d1 = dict_lookup "eventType" d2 ->
  dict_lookup "key" d1 = dict_lookup "key" d2 ->
  handle_keyboard_event env (JDict d1) w
    = handle_keyboard_event env (JDict d2) w.
Proof.
  intros Ht Hk.
  by rewrite (handle_keyboard_event_reads env d1),
    (handle_keyboard_event_reads env d2), Ht, Hk.
Qed.

Lemma modifier_keys_do_not_change_what_a_key_does_witness :
  handle_keyboard_event AppSamples.calm
    (JDict [("type", JStr "keyboard"); ("eventType", JStr "keydown");
            ("key", JStr "c"); ("ctrlKey", JBool true)])
    AppSamples.fresh
  = handle_keyboard_event AppSamples.calm (AppSamples.key_down "c")
      AppSamples.fresh.
Proof.
  apply (modifier_keys_do_not_change_what_a_key_does AppSamples.calm
           [("type", JStr "keyboard"); ("eventType", JStr "keydown");
            ("key", JStr "c"); ("ctrlKey", JBool true)]
           [("type", JStr "keyboard"); ("eventType", JStr "keydown");
            ("key", JStr "c")] AppSamples.fresh);
    reflexivity.
Defined.

Lemma special_keys_lookup_spec k :
  special_keys_lookup k special_keys =
    if existsb (String.eqb k) (map fst special_keys) then Some k else None.
Proof.
  unfold special_keys. cbn [special_keys_lookup map fst existsb].
  repeat (destruct (String.eqb k _) eqn:E;
          [by apply String.eqb_eq in E as ->|clear E; cbn [orb]]).
  reflexivity.
Qed.

(** X9. A keyboard event with a string for its key brings the page to the
    front and then, when it is a key-down, comes to exactly one action: the
    key is pressed under its own name when it is one of the thirteen special
    keys, typed when it is a single character, the page is reloaded when it
    is ["F5"], and any other key is only reported.  An event of any other
    type does nothing more. *)
Theorem a_key_event_comes_to_one_action env d t k w :
  dict_lookup "eventType" d = Some t ->
  dict_lookup "key" d = Some (JStr k) ->
  raises env (trace w) PageBringToFront = false ->
  exists r,
    handle_keyboard_event env (JDict d) w =
      (r, mkWorld (active_sessions w)
            (trace w ++ PageBringToFront
               :: if json_eq_str t "keydown" then [key_action k] else [])).
Proof.
  intros Ht Hk Hfront.
  rewrite handle_keyboard_event_reads, Ht, Hk.
  unfold handle_keyboard_event.
  repeat (rewrite bind_py_getitem_dict;
          cbn [dict_lookup String.eqb Ascii.eqb Bool.eqb]; cbv beta).
  repeat (rewrite !bind_py_get_dict; cbv beta). cbv zeta.
  unfold bind at 1. unfold call at 1. rewrite Hfront.
  destruct (json_eq_str t "keydown").
  2:{ exists (Ok tt). by destruct (json_eq_str t "keyup"). }
  unfold key_action, in_special_keys. unfold bind at 1. cbn [ret].
  rewrite special_keys_lookup_spec.
  destruct (existsb _ _).
  { unfold call, log. cbn [trace active_sessions].
    destruct (raises env (trace w ++ _) _); eexists; rewrite <- app_assoc;
      reflexivity. }
  unfold py_len. unfold bind at 1. cbn [ret].
  destruct (py_str_len k =? 1)%nat.
  { unfold call, log. cbn [trace active_sessions].
    destruct (raises env (trace w ++ _) _); eexists; rewrite <- app_assoc;
      reflexivity. }
  cbn [json_eq_str]. destruct (String.eqb k "F5").
  { unfold call, log. cbn [trace active_sessions].
    destruct (raises env (trace w ++ _) _); eexists; rewrite <- app_assoc;
      reflexivity. }
  unfold emit, log. cbn [trace active_sessions].
  eexists. rewrite <- app_assoc. reflexivity.
Qed.

Lemma a_key_event_comes_to_one_action_witness :
  exists r,
    handle_keyboard_event AppSamples.calm (AppSamples.key_down "Shift")
      AppSamples.fresh =
      (r, mkWorld (active_sessions AppSamples.fresh)
            (trace AppSamples.fresh ++ PageBringToFront
               :: if json_eq_str (JStr "keydown") "keydown"
                  then [key_action "Shift"] else [])).
Proof.
  apply (a_key_event_comes_to_one_action AppSamples.calm _ (JStr "keydown")
           "Shift" AppSamples.fresh);
    reflexivity.
Defined.

Example special_key_pressed_under_its_own_name :
  key_action "ArrowLeft" = PageKeyboardPress "ArrowLeft" /\
  key_action "a" = PageKeyboardType "a" /\
  key_action "F5" = PageReload /\
  key_action "Shift" = Print (LogUnhandledKey (JStr "Shift")) /\
  key_action "" = Print (LogUnhandledKey (JStr "")).
Proof. by vm_compute. Qed.

(** A key of one character is typed whatever the number of bytes that
    encode it; two characters are not. *)
Example one_character_is_typed_whatever_its_encoding :
  py_str_len "é" = 1 /\ key_action "é" = PageKeyboardType "é" /\
  py_str_len "中" = 1 /\ key_action "中" = PageKeyboardType "中" /\
  py_str_len "中文" = 2 /\
  key_action "中文" = Print (LogUnhandledKey (JStr "中文")).
Proof. by vm_compute. Qed.

(** *** One writer for each field *)

(** X10. The two coroutines of a connection write different fields of the
    session: handling a message never changes the frame recorded for any
    session, and the frame loop never changes the button flag of any
    session. *)
Theorem input_and_frames_have_one_writer_each env sid :
  (forall msg w,
     screenshots_kept w (snd (handle_message env msg sid w))) /\
  (forall n w, flags_kept w (snd (send_screenshots env n sid w))).
Proof.
  split.
  - intros msg w.
    apply (screenshots_kept_handle_message env msg sid w
             (fst (handle_message env msg sid w))).
    apply surjective_pairing.
  - intros n w sid'.
    exact (keeps_flags_send_screenshots env n sid w _ _
             (surjective_pairing _) sid').
Qed.

(** *** The frame recorded for a session *)

Lemma send_screenshots_grows env n sid w r w' :
  send_screenshots env n sid w = (r, w') ->
  exists new, trace w' = (trace w ++ new)%list.
Proof.
  intros H.
  destruct (send_screenshots_frames env sid n w)
    as (st & w'' & Hrun & new & Htr & _).
  rewrite H in Hrun. simplify_eq. eauto.
Qed.

(** X11. While the frame loop runs, the frame recorded for its session is
    the frame it sent last: after any number of passes that leave the loop
    running, [last_screenshot] holds the text of the last frame handed to
    the websocket by these passes, and when they sent none the sessions are
    as they were. *)
Theorem the_frame_recorded_is_the_frame_last_sent env sid n : forall w w',
  send_screenshots env n sid w = (Ok Running, w') ->
  match last (sent_messages (new_effects w w')) with
  | Some m =>
      exists s' b,
        active_sessions w' !! sid = Some s' /\
        last_screenshot s' = Some b /\
        m = screenshot_message b
  | None => active_sessions w' = active_sessions w
  end.
Proof.
  induction n as [|n IH]; intros w w' H.
  - cbn in H. unfold ret in H. simplify_eq.
    unfold new_effects. by rewrite drop_all.
  - rewrite send_screenshots_S in H.
    destruct (send_screenshots_pass env sid w)
      as (st & new1 & sessions1 & Heq & Hcases).
    rewrite Heq in H.
    set (b := b64encode (screenshot_bytes env (trace w) "jpeg" 80)) in *.
    destruct Hcases as
      [(-> & _)
      |[(-> & Hsent & -> & _)
       |(Hsent & _ & s & Hs & Hdiff & Hrec)]].
    + discriminate.
    + pose proof (IH _ _ H) as IHw.
      destruct (send_screenshots_grows _ _ _ _ _ _ H) as [new2 Htr].
      cbn [trace] in Htr.
      match type of IHw with
      | context [new_effects ?w1 w'] =>
          rewrite (new_effects_app w1 w' new2 Htr) in IHw
      end.
      rewrite (new_effects_app w w' (new1 ++ new2)%list)
        by (by rewrite Htr, app_assoc).
      rewrite sent_messages_app, Hsent. exact IHw.
    + destruct st; [|discriminate]. specialize (Hrec eq_refl). subst.
      pose proof (IH _ _ H) as IHw.
      destruct (send_screenshots_grows _ _ _ _ _ _ H) as [new2 Htr].
      cbn [trace] in Htr.
      match type of IHw with
      | context [new_effects ?w1 w'] =>
          rewrite (new_effects_app w1 w' new2 Htr) in IHw
      end.
      rewrite (new_effects_app w w' (new1 ++ new2)%list)
        by (by rewrite Htr, app_assoc).
      rewrite sent_messages_app, Hsent. cbn [app].
      destruct (sent_messages new2) as [|m rest].
      * cbn in IHw. cbn [last]. eexists _, b. rewrite IHw.
        cbn [active_sessions]. rewrite lookup_insert_eq. done.
      * rewrite last_cons_cons.
        destruct (last (m :: rest)) as [m'|] eqn:Hl; [exact IHw|].
        by apply last_None in Hl.
Qed.

Lemma the_frame_recorded_is_the_frame_last_sent_witness :
  match last (sent_messages
                (new_effects AppSamples.fresh
                   (snd (send_screenshots AppSamples.calm 3 "s1"
                           AppSamples.fresh)))) with
  | Some m =>
      exists s' b,
        active_sessions
          (snd (send_screenshots AppSamples.calm 3 "s1" AppSamples.fresh))
          !! "s1" = Some s' /\
        last_screenshot s' = Some b /\
        m = screenshot_message b
  | None =>
      active_sessions
        (snd (send_screenshots AppSamples.calm 3 "s1" AppSamples.fresh))
      = active_sessions AppSamples.fresh
  end.
Proof.
  apply (the_frame_recorded_is_the_frame_last_sent AppSamples.calm "s1" 3
           AppSamples.fresh).
  vm_compute. reflexivity.
Defined.

(** X13. When its session is no longer in [active_sessions], the frame loop
    ends at its next pass: the screenshot is taken, the [KeyError] of the
    lookup is printed, and nothing is sent. *)
Theorem the_frame_loop_ends_when_its_session_is_gone env sid n w :
  active_sessions w !! sid = None ->
  raises env (trace w) (PageScreenshot "jpeg" 80) = false ->
  send_screenshots env (S n) sid w =
    (Ok Exited,
     mkWorld (active_sessions w)
       (trace w ++ [PageScreenshot "jpeg" 80;
                    Print (LogScreenshotError (KeyError sid))])).
Proof.
  intros Hgone Hshot. rewrite send_screenshots_S.
  unfold send_screenshots, try_except, send_screenshots_body, bind,
    page_screenshot, get_session, emit, ret, log.
  rewrite Hshot. cbn [trace active_sessions]. rewrite Hgone.
  cbn [trace active_sessions]. by rewrite <- app_assoc.
Qed.

Lemma the_frame_loop_ends_when_its_session_is_gone_witness :
  send_screenshots AppSamples.calm 2 "s1" (mkWorld ∅ []) =
    (Ok Exited,
     mkWorld (active_sessions (mkWorld ∅ []))
       (trace (mkWorld ∅ [])
          ++ [PageScreenshot "jpeg" 80;
              Print (LogScreenshotError (KeyError "s1"))])).
Proof.
  apply (the_frame_loop_ends_when_its_session_is_gone AppSamples.calm "s1" 1
           (mkWorld ∅ []));
    reflexivity.
Defined.

(** *** Opening and closing a session *)

(** X12. Opening a session that was not there and closing it again leaves
    [active_sessions] as it was: in between the session is registered with
    no frame recorded and the button up, the browser is launched once and
    closed once, and closing the session a second time does nothing. *)
Theorem a_session_opened_and_closed_leaves_no_entry env sid w w1 w2 :
  active_sessions w !! sid = None ->
  start_browser_session env sid w = (Ok tt, w1) ->
  close_browser_session env sid w1 = (Ok tt, w2) ->
  active_sessions w1 !! sid = Some (mkSession None false) /\
  active_sessions w2 = active_sessions w /\
  trace w2 = (trace w ++ [LaunchBrowser; CloseBrowser])%list /\
  close_browser_session env sid w2 = (Ok tt, w2).
Proof.
  intros Hnew Hstart Hclose.
  unfold start_browser_session, bind, call in Hstart.
  destruct (raises env (trace w) LaunchBrowser); [discriminate|].
  simplify_eq.
  unfold close_browser_session, bind, call in Hclose.
  cbn [active_sessions set_sessions log trace] in Hclose.
  rewrite lookup_insert_eq in Hclose.
  destruct (raises env _ CloseBrowser); [discriminate|].
  simplify_eq. cbn [active_sessions set_sessions log trace].
  split; [apply lookup_insert_eq|].
  assert (Hback : delete sid (<[sid := mkSession None false]>
                                (active_sessions w)) = active_sessions w).
  { rewrite delete_insert_eq. by apply delete_id. }
  split; [done|]. split; [by rewrite <- app_assoc|].
  unfold close_browser_session, bind.
  cbn [active_sessions set_sessions log trace].
  by rewrite Hback, Hnew.
Qed.

Lemma a_session_opened_and_closed_leaves_no_entry_witness :
  active_sessions
    (snd (start_browser_session AppSamples.calm "s1"
            AppSamples.with_neighbour)) !! "s1"
    = Some (mkSession None false) /\
  active_sessions
    (snd (close_browser_session AppSamples.calm "s1"
            (snd (start_browser_session AppSamples.calm "s1"
                    AppSamples.with_neighbour))))
    = active_sessions AppSamples.with_neighbour /\
  trace
    (snd (close_browser_session AppSamples.calm "s1"
            (snd (start_browser_session AppSamples.calm "s1"
                    AppSamples.with_neighbour))))
    = (trace AppSamples.with_neighbour
         ++ [LaunchBrowser; CloseBrowser])%list /\
  close_browser_session AppSamples.calm "s1"
    (snd (close_browser_session AppSamples.calm "s1"
            (snd (start_browser_session AppSamples.calm "s1"
                    AppSamples.with_neighbour))))
  = (Ok tt,
     snd (close_browser_session AppSamples.calm "s1"
            (snd (start_browser_session AppSamples.calm "s1"
                    AppSamples.with_neighbour)))).
Proof.
  apply (a_session_opened_and_closed_leaves_no_entry AppSamples.calm "s1"
           AppSamples.with_neighbour).
  - reflexivity.
  - reflexivity.
  - vm_compute. reflexivity.
Defined.
End AppFacts.

Module GuiPlaywrightFacts.
Import GuiPlaywright.

(** The desktop shell completes an address that has no scheme before it
    loads it. *)
Lemma navigate_to_completes_scheme env url w :
  page w = true -> is_running w = true ->
  has_scheme url = false ->
  exists r,
    navigate_to env url w =
      (r, mkWorld (page w) (is_running w)
            (trace w ++ StatusLoading ("https://" ++ url)
               :: ProgressUpdate 30
               :: PageGoto ("https://" ++ url) "domcontentloaded"
               :: (if raises env
                        (trace w ++ [StatusLoading ("https://" ++ url);
                                     ProgressUpdate 30])
                        (PageGoto ("https://" ++ url) "domcontentloaded")
                   then [StatusLoadFailed ExternalError; ProgressUpdate 0]
                   else [ProgressUpdate 80]))).
Proof.
  destruct w as [p r tr]. cbn [page is_running trace]. intros -> -> Hs.
  unfold navigate_to. rewrite Hs. cbn [negb orb page is_running].
  unfold try_except, bind, emit, call, log. cbn [trace page is_running].
  rewrite <- !app_assoc. cbn [app].
  destruct (raises env _ _); eexists; cbn [trace page is_running];
    rewrite <- ?app_assoc; reflexivity.
Qed.

Example navigate_to_example_com :
  trace (snd (navigate_to (mkEnv (fun _ _ => false)) "example.com"
                (mkWorld true true [])))
    = [ StatusLoading "https://example.com"; ProgressUpdate 30;
        PageGoto "https://example.com" "domcontentloaded";
        ProgressUpdate 80 ].
Proof. reflexivity. Qed.

Lemma has_scheme_completed url : has_scheme ("https://" ++ url) = true.
Proof. by destruct url. Qed.

(** X22. [navigate_to] never raises.  When the browser has not been started
    it only reports so.  Otherwise the address handed to [page.goto] always
    begins with ["http://"] or ["https://"]: it is the address given when
    that has one of them in front, and the address given after ["https://"]
    when it has not; a failure of [page.goto] is reported and the progress
    reset. *)
Theorem navigate_to_loads_an_address_with_a_scheme env url w :
  exists w',
    navigate_to env url w = (Ok tt, w') /\
    page w' = page w /\ is_running w' = is_running w /\
    (page w = false \/ is_running w = false ->
       trace w' = (trace w ++ [StatusNotStarted])%list) /\
    (page w = true -> is_running w = true ->
       exists target rest,
         trace w' =
           (trace w ++ StatusLoading target :: ProgressUpdate 30
              :: PageGoto target "domcontentloaded" :: rest)%list /\
         has_scheme target = true /\
         (has_scheme url = true -> target = url) /\
         (has_scheme url = false -> target = "https://" ++ url) /\
         (rest = [ProgressUpdate 80] \/
          rest = [StatusLoadFailed ExternalError; ProgressUpdate 0])).
Proof.
  destruct w as [p r tr]. unfold navigate_to. cbn [page is_running trace].
  destruct p, r; cbn [negb orb];
    try (eexists; split; [reflexivity|]; cbn;
         repeat split; try done; try (by intros [|]); auto; fail).
  set (target := if negb (has_scheme url) then "https://" ++ url else url).
  assert (Htarget : has_scheme target = true /\
                    (has_scheme url = true -> target = url) /\
                    (has_scheme url = false -> target = "https://" ++ url)).
  { subst target. destruct (has_scheme url) eqn:Hs; cbn [negb].
    - by repeat split.
    - split; [apply has_scheme_completed|]. by split. }
  destruct Htarget as (Hok & Hsame & Hdone).
  unfold try_except, bind, emit, call, log. cbn [trace page is_running].
  destruct (raises env _ _).
  - eexists. split; [reflexivity|]. cbn [page is_running trace].
    split; [done|]. split; [done|]. split; [by intros [|]|]. intros _ _.
    exists target, [StatusLoadFailed ExternalError; ProgressUpdate 0].
    rewrite <- !app_assoc. cbn [app]. auto 10.
  - eexists. split; [reflexivity|]. cbn [page is_running trace].
    split; [done|]. split; [done|]. split; [by intros [|]|]. intros _ _.
    exists target, [ProgressUpdate 80].
    rewrite <- !app_assoc. cbn [app]. auto 10.
Qed.

Example navigate_to_keeps_a_given_scheme :
  trace (snd (navigate_to (mkEnv (fun _ _ => false)) "http://example.com"
                (mkWorld true true [])))
    = [ StatusLoading "http://example.com"; ProgressUpdate 30;
        PageGoto "http://example.com" "domcontentloaded";
        ProgressUpdate 80 ].
Proof. reflexivity. Qed.

End GuiPlaywrightFacts.

(** ** The real-time transport *)

Module RequestListenFacts.
Import RequestListen RequestListenSpec.

(** *** The capture loop *)

Lemma with_trace_same w : with_trace (trace w) w = w.
Proof. by destruct w. Qed.

Lemma log_with_trace e w : log e w = with_trace (trace w ++ [e]) w.
Proof. done. Qed.

Lemma stateless_bind {A B} (m : M World A) (k : A -> M World B) :
  (forall w, snd (m w) = w) -> (forall a w, snd (k a w) = w) ->
  forall w, snd (bind m k w) = w.
Proof.
  intros Hm Hk w. unfold bind. specialize (Hm w).
  destruct (m w) as [[a|e] w1]; cbn [snd] in *; subst; [apply Hk|done].
Qed.

Lemma shape_last_stateless a w : snd (shape_last a w) = w.
Proof. unfold shape_last. by destruct (last _). Qed.

Lemma cv2_cvtColor_stateless a w : snd (cv2_cvtColor_RGBA2RGB a w) = w.
Proof. unfold cv2_cvtColor_RGBA2RGB. by repeat case_match. Qed.

Lemma cv2_resize_stateless a width height w :
  snd (cv2_resize a width height w) = w.
Proof. unfold cv2_resize. by repeat case_match. Qed.

(** A capture attempt only adds its calls to the trace. *)
Lemma capture_attempt_world env w :
  snd (capture_attempt env w) =
    with_trace (trace w ++ attempt_effects env w) w.
Proof.
  unfold capture_attempt, attempt_effects.
  unfold bind at 1. unfold page_screenshot.
  destruct (raises env (trace w) (PageScreenshot "png")); [done|].
  unfold bind at 1. unfold image_open.
  destruct (decoded_dims env _) as [dims|].
  - rewrite stateless_bind.
    + unfold log, with_trace. cbn. by rewrite <- app_assoc.
    + apply shape_last_stateless.
    + intros c. apply stateless_bind.
      * intros w0. destruct (c =? 4)%nat; [apply cv2_cvtColor_stateless|done].
      * intros conv. apply cv2_resize_stateless.
  - cbn [snd]. unfold log, with_trace. cbn. by rewrite <- app_assoc.
Qed.

(** One pass of the capture loop never raises; it appends its calls and its
    pause, and leaves the captured frame or the placeholder. *)
Lemma capture_frames_body_spec env w :
  capture_frames_body env w =
    (Ok tt,
     with_trace (trace w ++ pass_effects env w)
       (with_frame (Some (pass_frame env w)) w)).
Proof.
  unfold capture_frames_body, pass_effects, pass_frame.
  pose proof (capture_attempt_world env w) as Hw.
  unfold bind at 1. unfold try_except. unfold bind at 1.
  destruct (capture_attempt env w) as [[f|e] w1]; cbn [fst snd] in *;
    subst w1.
  - unfold update, emit, log, with_trace, with_frame, set_track. cbn.
    by rewrite <- !app_assoc.
  - unfold bind, update, emit, log, with_trace, with_frame, set_track,
      capture_error_frame. cbn.
    by rewrite <- !app_assoc.
Qed.

Lemma track_sleeps_until_capture_quiet mid rest :
  quiet mid = true ->
  sleeps_until_capture (mid ++ rest) = sleeps_until_capture rest.
Proof.
  induction mid as [|e mid IH]; [done|]. simpl.
  destruct e; try discriminate; intros H; by rewrite IH.
Qed.

Lemma track_pauses_quiet mid rest :
  quiet mid = true -> pauses (mid ++ rest) = pauses rest.
Proof.
  induction mid as [|e mid IH]; [done|]. simpl.
  destruct e; try discriminate; intros H; by rewrite IH.
Qed.

Lemma track_new_effects_app w w' new :
  trace w' = (trace w ++ new)%list -> new_effects w w' = new.
Proof. unfold new_effects. intros ->. apply drop_app_length. Qed.

(** A pass is a capture, then neither captures nor sleeps, then the pause. *)
Lemma pass_effects_shape env w :
  exists mid,
    quiet mid = true /\
    pass_effects env w =
      (PageScreenshot "png" :: mid ++ [Sleep (3 # 100)])%list.
Proof.
  unfold pass_effects, attempt_effects.
  exists ((if raises env (trace w) (PageScreenshot "png") then []
           else [ImageOpen (screenshot_bytes env (trace w) "png")]) ++
          match fst (capture_attempt env w) with
          | Ok _ => []
          | Raise e => [Print (LogCaptureError e)]
          end)%list.
  destruct (raises env _ _), (fst (capture_attempt env w)); done.
Qed.

(** Under [truecolor], a capture that succeeds gives a resized picture of
    the negotiated resolution. *)
Lemma capture_attempt_frame env w f :
  truecolor env ->
  fst (capture_attempt env w) = Ok f ->
  shape f = [720; 1280; 3] /\ exists src, f = Resize src 1280 720.
Proof.
  intros Hcolor. unfold capture_attempt.
  unfold bind at 1. unfold page_screenshot.
  destruct (raises env _ _); [discriminate|].
  unfold bind at 1. unfold image_open.
  destruct (decoded_dims env _) as [dims|] eqn:Hdims; [|discriminate].
  destruct (Hcolor _ _ Hdims) as (h & wd & c & -> & [-> | ->]).
  - unfold bind, shape_last, cv2_resize, ret, raise. cbn.
    destruct (_ || _)%bool; [discriminate|].
    intros [= <-]. split; [done|]. by eexists.
  - unfold bind, shape_last, cv2_cvtColor_RGBA2RGB, cv2_resize, ret, raise.
    cbn. destruct (_ || _)%bool; [discriminate|].
    intros [= <-]. split; [done|]. by eexists.
Qed.

Lemma pass_frame_shape env w :
  truecolor env -> shape (pass_frame env w) = [720; 1280; 3].
Proof.
  intros Hcolor. unfold pass_frame.
  destruct (fst (capture_attempt env w)) as [f|e] eqn:Hf; [|done].
  by apply (capture_attempt_frame env w).
Qed.

(** The capture loop, while [running] holds: it never leaves its [while] and
    never raises, every pass ends with the same pause, and the frame of the
    track keeps the negotiated resolution. *)
Lemma capture_frames_spec env n : forall w,
  running w = true ->
  exists w' new,
    capture_frames env n w = (Ok Running, w') /\
    running w' = true /\
    trace w' = (trace w ++ new)%list /\
    sleeps_until_capture new = [] /\
    pauses new = repeat [3 # 100] n /\
    (truecolor env -> frame_ok w -> frame_ok w').
Proof.
  induction n as [|n IH]; intros w Hrun.
  - exists w, []. rewrite app_nil_r. by repeat split.
  - cbn [capture_frames]. unfold bind at 1. unfold get at 1. rewrite Hrun.
    unfold bind at 1. rewrite capture_frames_body_spec.
    set (w1 := with_trace _ _).
    destruct (IH w1) as (w' & new2 & -> & Hrun' & Htr & Hhead & Hp & Hok);
      [by destruct w|].
    destruct (pass_effects_shape env w) as (mid & Hq & Hpass).
    exists w', (pass_effects env w ++ new2)%list.
    split; [done|]. split; [done|]. split.
    { rewrite Htr. subst w1. cbn [trace with_trace]. by rewrite app_assoc. }
    rewrite Hpass. cbn [app sleeps_until_capture pauses].
    split; [done|]. split.
    { rewrite <- app_assoc. cbn [app].
      rewrite track_sleeps_until_capture_quiet, track_pauses_quiet by done.
      cbn [sleeps_until_capture pauses repeat]. by rewrite Hhead, Hp. }
    intros Hcolor _. apply Hok; [done|].
    subst w1. unfold frame_ok. cbn. by apply pass_frame_shape.
Qed.

(** [recv] stops at its first statement when [next_timestamp] is not to be
    found. *)
Lemma recv_raises env w :
  raises env (trace w) NextTimestamp = true ->
  recv env w = (Raise AttributeError, log NextTimestamp w).
Proof.
  intros Hts. unfold recv, bind, next_timestamp. by rewrite Hts.
Qed.

(** [recv] on a track that has a [next_timestamp] and whose frame has the
    negotiated resolution. *)
Lemma recv_spec env w :
  raises env (trace w) NextTimestamp = false ->
  frame_ok w ->
  exists vf,
    recv env w = (Ok vf, log NextTimestamp w) /\
    pixels vf = match frame w with
                | Some f => f
                | None => Zeros [720; 1280; 3]
                end /\
    shape (pixels vf) = [720; 1280; 3] /\
    width vf = 1280%nat /\ height vf = 720%nat /\ format vf = "rgb24".
Proof.
  unfold frame_ok, recv. intros Hts Hok.
  unfold bind at 1. unfold next_timestamp. rewrite Hts.
  unfold bind at 1. unfold get at 1.
  cbn [frame log].
  destruct (frame w) as [f|].
  - unfold bind, VideoFrame_from_ndarray. rewrite Hok. cbn.
    eexists. split; [reflexivity|]. by cbn.
  - cbn. eexists. split; [reflexivity|]. by cbn.
Qed.

(** Whether the loop runs or has been stopped, the frame of the track keeps
    the negotiated resolution. *)
Lemma capture_frames_frame_ok env n : forall w,
  truecolor env -> frame_ok w -> frame_ok (snd (capture_frames env n w)).
Proof.
  induction n as [|n IH]; intros w Hcolor Hok; [done|].
  cbn [capture_frames]. unfold bind at 1. unfold get at 1.
  destruct (running w); [|done].
  unfold bind at 1. rewrite capture_frames_body_spec.
  apply IH; [done|]. unfold frame_ok. cbn. by apply pass_frame_shape.
Qed.

(** *** The frames of [recv] *)

(** C9, on the code.  [BrowserTrack] is derived from [MediaStreamTrack],
    which has no [next_timestamp]: the first statement of [recv] raises
    [AttributeError] before the frame of the track is read.  No call of
    [recv] returns a frame, whatever the capture loop has stored: not
    before the first capture, not after any number of passes, not after a
    failed capture and not after a successful one. *)
Theorem recv_raises_before_it_reads_the_frame env :
  lacks_next_timestamp env ->
  (forall w, recv env w = (Raise AttributeError, log NextTimestamp w)) /\
  (forall n w,
     fst (recv env (snd (capture_frames env n w))) = Raise AttributeError) /\
  (forall w,
     fst (recv env (snd (capture_frames_body env w)))
       = Raise AttributeError) /\
  (forall w vf, fst (recv env w) <> Ok vf).
Proof.
  intros Hlacks.
  assert (Hrecv : forall w,
            recv env w = (Raise AttributeError, log NextTimestamp w))
    by (intros w; apply recv_raises, Hlacks).
  split; [done|]. split; [by intros n w; rewrite Hrecv|].
  split; [by intros w; rewrite Hrecv|]. intros w vf. by rewrite Hrecv.
Qed.

Lemma lacks_next_timestamp_aiortc :
  lacks_next_timestamp RequestListenSamples.aiortc.
Proof. by intros tr. Qed.

Lemma recv_raises_before_it_reads_the_frame_witness :
  fst (recv RequestListenSamples.aiortc
         (snd (capture_frames RequestListenSamples.aiortc 2
                 RequestListenSamples.idle))) = Raise AttributeError.
Proof.
  apply (proj1 (proj2 (recv_raises_before_it_reads_the_frame
                         RequestListenSamples.aiortc
                         lacks_next_timestamp_aiortc))).
Defined.

(** The frame is there all the same: after two captures the track holds a
    picture of the negotiated resolution, which [recv] does not get to. *)
Example recv_after_two_captures :
  let w := snd (capture_frames RequestListenSamples.aiortc 2
                  RequestListenSamples.idle) in
  frame w = Some (Resize (CvtColorRGBA2RGB
                            (FromImage [600; 800; 4] [Byte.x89])) 1280 720)
  /\ fst (recv RequestListenSamples.aiortc w) = Raise AttributeError
  /\ last (trace (snd (recv RequestListenSamples.aiortc w)))
       = Some NextTimestamp.
Proof. by vm_compute. Qed.

(** What the rest of [recv] does with a base class that provides
    [next_timestamp], as [VideoStreamTrack] does: when screenshots decode
    to colour pictures, with or without alpha, the frame returned has the
    negotiated resolution; it is the blank frame before the first capture,
    the placeholder after a failed capture, the capture resized after a
    successful one. *)
Lemma recv_with_a_timestamp env :
  (forall tr, raises env tr NextTimestamp = false) ->
  truecolor env ->
  (forall n w,
     frame w = None ->
     exists vf w'',
       recv env (snd (capture_frames env n w)) = (Ok vf, w'') /\
       shape (pixels vf) = [720; 1280; 3] /\
       width vf = 1280%nat /\ height vf = 720%nat) /\
  (forall w,
     frame w = None ->
     exists vf w'',
       recv env w = (Ok vf, w'') /\ pixels vf = Zeros [720; 1280; 3]) /\
  (forall w e,
     fst (capture_attempt env w) = Raise e ->
     exists vf w'',
       recv env (snd (capture_frames_body env w)) = (Ok vf, w'') /\
       pixels vf =
         PutText (Zeros [720; 1280; 3]) "Capture Error" (50, 360)%Z 2
           (0, 0, 255)%Z 3) /\
  (forall w f,
     fst (capture_attempt env w) = Ok f ->
     exists vf w'' src,
       recv env (snd (capture_frames_body env w)) = (Ok vf, w'') /\
       pixels vf = f /\ f = Resize src 1280 720 /\
       shape f = [720; 1280; 3]).
Proof.
  intros Hts Hcolor. repeat split.
  - intros n w Hnone.
    destruct (recv_spec env (snd (capture_frames env n w)) (Hts _))
      as (vf & -> & _ & Hshape & Hw & Hh & _).
    { apply capture_frames_frame_ok; [done|].
      unfold frame_ok. by rewrite Hnone. }
    eauto 10.
  - intros w Hnone.
    destruct (recv_spec env w (Hts _)) as (vf & -> & Hpix & _).
    { unfold frame_ok. by rewrite Hnone. }
    rewrite Hnone in Hpix. eauto.
  - intros w e Hfail. rewrite capture_frames_body_spec. cbn [snd].
    set (w1 := with_trace _ _).
    destruct (recv_spec env w1 (Hts _)) as (vf & -> & Hpix & _).
    { subst w1. unfold frame_ok. cbn. by apply pass_frame_shape. }
    exists vf, (log NextTimestamp w1). split; [done|].
    rewrite Hpix. subst w1. cbn. unfold pass_frame. by rewrite Hfail.
  - intros w f Hf. rewrite capture_frames_body_spec. cbn [snd].
    set (w1 := with_trace _ _).
    destruct (capture_attempt_frame env w f Hcolor Hf) as (Hshape & src & ->).
    destruct (recv_spec env w1 (Hts _)) as (vf & -> & Hpix & _).
    { subst w1. unfold frame_ok. cbn. by apply pass_frame_shape. }
    exists vf, (log NextTimestamp w1), src. split; [done|].
    split; [|done]. rewrite Hpix. subst w1. cbn. unfold pass_frame.
    by rewrite Hf.
Qed.

Lemma truecolor_calm : truecolor RequestListenSamples.calm.
Proof. intros png dims [= <-]. exists 600%nat, 800%nat, 4%nat. auto. Qed.

Example recv_with_a_timestamp_after_two_captures :
  pixels <$> (match fst (recv RequestListenSamples.calm
                           (snd (capture_frames RequestListenSamples.calm 2
                                   RequestListenSamples.idle)))
              with Ok vf => Some vf | Raise _ => None end)
  = Some (Resize (CvtColorRGBA2RGB (FromImage [600; 800; 4] [Byte.x89]))
            1280 720).
Proof. reflexivity. Qed.

Example recv_with_a_timestamp_after_failed_capture :
  pixels <$> (match fst (recv RequestListenSamples.blind
                           (snd (capture_frames RequestListenSamples.blind 1
                                   RequestListenSamples.idle)))
              with Ok vf => Some vf | Raise _ => None end)
  = Some capture_error_frame.
Proof. reflexivity. Qed.

(** *** Capture failures *)

(** C6, amended.  In the media track a capture failure never ends the loop:
    while [running] holds every pass is completed, and a pass whose capture
    fails (the screenshot call raising, or its payload failing to decode,
    to convert or to resize) prints the failure, leaves the placeholder
    frame and pauses before the next pass.  In the polling transport a
    screenshot call that raises is printed and ends the frame loop of that
    connection for good, while the connection goes on handling the messages
    it receives as before; a payload that the call returns is never
    examined there, so that an unusable one is treated like any other
    frame: it is encoded and compared with the frame recorded, sent and
    recorded when it differs, and the loop goes on. *)
Theorem capture_failure_is_logged_and_survived_by_the_track :
  (forall env n w,
     running w = true -> fst (capture_frames env n w) = Ok Running) /\
  (forall env w e,
     fst (capture_attempt env w) = Raise e ->
     capture_frames_body env w =
       (Ok tt,
        with_trace
          (trace w ++ attempt_effects env w ++
             [Print (LogCaptureError e); Sleep (3 # 100)])
          (with_frame (Some capture_error_frame) w))) /\
  (forall env sid w n,
     App.raises env (App.trace w) (App.PageScreenshot "jpeg" 80) = true ->
     App.send_screenshots env (S n) sid w =
       (Ok Exited,
        App.mkWorld (App.active_sessions w)
          (App.trace w ++
             [App.PageScreenshot "jpeg" 80;
              App.Print (App.LogScreenshotError ExternalError)]))) /\
  (forall env sid w schedule,
     App.raises env (App.trace w) (App.PageScreenshot "jpeg" 80) = true ->
     App.serve env (App.FrameTick :: schedule) sid Running w =
       App.serve env schedule sid Exited
         (App.mkWorld (App.active_sessions w)
            (App.trace w ++
               [App.PageScreenshot "jpeg" 80;
                App.Print (App.LogScreenshotError ExternalError)]))) /\
  (forall env sid w message schedule,
     App.serve env (App.ClientMessage (Some message) :: schedule) sid
       Exited w =
       bind (App.handle_message env message sid)
         (fun _ => App.serve env schedule sid Exited) w) /\
  (forall env sid w schedule,
     App.serve env (App.FrameTick :: schedule) sid Exited w =
       App.serve env schedule sid Exited w) /\
  (forall env sid w s,
     let payload := App.screenshot_bytes env (App.trace w) "jpeg" 80 in
     let message := App.screenshot_message (b64encode payload) in
     App.raises env (App.trace w) (App.PageScreenshot "jpeg" 80) = false ->
     App.active_sessions w !! sid = Some s ->
     App.differs_from (b64encode payload) (App.last_screenshot s) = true ->
     App.raises env (App.trace w ++ [App.PageScreenshot "jpeg" 80])
       (App.WsSendJson message) = false ->
     App.send_screenshots env 1 sid w =
       (Ok Running,
        App.mkWorld
          (<[sid := App.mkSession (Some (b64encode payload))
                      (App.mouse_down s)]> (App.active_sessions w))
          (App.trace w ++
             [App.PageScreenshot "jpeg" 80; App.WsSendJson message;
              App.Sleep (1 # 1000)]))) /\
  (forall env sid w s,
     let payload := App.screenshot_bytes env (App.trace w) "jpeg" 80 in
     App.raises env (App.trace w) (App.PageScreenshot "jpeg" 80) = false ->
     App.active_sessions w !! sid = Some s ->
     App.differs_from (b64encode payload) (App.last_screenshot s) = false ->
     App.send_screenshots env 1 sid w =
       (Ok Running,
        App.mkWorld (App.active_sessions w)
          (App.trace w ++
             [App.PageScreenshot "jpeg" 80; App.Sleep (1 # 1000)]))).
Proof.
  split; [|split; [|split; [|split; [|split; [|split; [|split]]]]]].
  - intros env n w Hrun.
    by destruct (capture_frames_spec env n w Hrun) as (w' & new & -> & _).
  - intros env w e Hfail. rewrite capture_frames_body_spec.
    unfold pass_effects, pass_frame. by rewrite Hfail.
  - intros env sid w n. apply AppFacts.send_screenshots_capture_failure.
  - intros env sid w schedule Hshot. cbn [App.serve]. unfold bind at 1.
    by rewrite (AppFacts.send_screenshots_capture_failure _ _ _ _ Hshot).
  - reflexivity.
  - reflexivity.
  - intros env sid w s payload message.
    apply AppFacts.send_screenshots_sends_what_it_gets.
  - intros env sid w s payload.
    apply AppFacts.send_screenshots_skips_what_it_has.
Qed.

(** An empty payload is a frame like any other for the polling loop. *)
Example an_empty_payload_is_sent :
  App.send_screenshots AppSamples.hollow 1 "s1" AppSamples.fresh =
    (Ok Running,
     App.mkWorld (<["s1" := App.mkSession (Some "") false]> ∅)
       [App.PageScreenshot "jpeg" 80;
        App.WsSendJson (App.screenshot_message "");
        App.Sleep (1 # 1000)]).
Proof. by vm_compute. Qed.

(** *** Pauses *)

Lemma paced_sleep_positive target elapsed_time d :
  (0 < d)%Q -> (d == paced_sleep target elapsed_time)%Q ->
  (d == target - elapsed_time)%Q.
Proof.
  unfold paced_sleep. intros Hpos Heq.
  destruct (Q.max_spec 0 (target - elapsed_time)) as [[_ Hmax]|[_ Hmax]];
    rewrite Hmax in Heq; [done|].
  rewrite Heq in Hpos. by apply Qlt_irrefl in Hpos.
Qed.

(** C3, as the design document states it, fails: the pause of a pass of the
    capture loop is the same whether the capture was free or took ten
    milliseconds, so that no target interval makes it
    [max(0, target - elapsed)]. *)
Lemma capture_pause_ignores_elapsed_time :
  ~ exists target : Q,
      forall cost : Effect -> Q,
        (forall e, (0 <= cost e)%Q) ->
        let pass :=
          new_effects RequestListenSamples.idle
            (snd (capture_frames RequestListenSamples.calm 1
                    RequestListenSamples.idle)) in
        forall d, pauses pass = [[d]] ->
          (d == paced_sleep target (elapsed cost pass))%Q.
Proof.
  intros [target H].
  assert (Hfree : (3 # 100 == target - 0)%Q).
  { apply paced_sleep_positive; [done|].
    refine (Qeq_trans _ _ _ (H RequestListenSamples.free _ _ eq_refl) _);
      [done|]. unfold paced_sleep. apply Q.max_compat; [done|].
    vm_compute elapsed. reflexivity. }
  assert (Hslow : (3 # 100 == target - (1 # 100))%Q).
  { apply paced_sleep_positive; [done|].
    refine (Qeq_trans _ _ _
              (H RequestListenSamples.slow_capture _ _ eq_refl) _).
    { intros []; done. }
    unfold paced_sleep. apply Q.max_compat; [done|].
    apply Qplus_comp; [done|]. apply Qopp_comp. reflexivity. }
  rewrite Hfree in Hslow.
  assert (Hcontra : (target - 0 - (target - (1 # 100)) == 0)%Q)
    by (rewrite Hslow at 1; ring).
  ring_simplify in Hcontra. discriminate Hcontra.
Qed.

(** C3, amended.  Every pass of the capture loop of the media track ends
    with a pause of 0.03 s, whatever the capture did and however long it
    took, and every pass of the polling loop that does not leave the loop
    ends with one fixed pause: between two consecutive captures of a loop
    there is exactly one pause, of the loop's fixed length. *)
Theorem captures_are_separated_by_a_fixed_pause :
  (forall env n w,
     running w = true ->
     pauses (new_effects w (snd (capture_frames env n w)))
       = repeat [3 # 100] n) /\
  (exists pause : Q,
     (0 < pause)%Q /\
     forall env sid n w,
       exists k,
         (k <= n)%nat /\
         AppSpec.pauses
           (AppSpec.new_effects w (snd (App.send_screenshots env n sid w)))
         = (repeat [pause] k ++
            match fst (App.send_screenshots env n sid w) with
            | Ok Running => []
            | _ => [[]]
            end)%list).
Proof.
  split.
  - intros env n w Hrun.
    destruct (capture_frames_spec env n w Hrun)
      as (w' & new & -> & _ & Htr & _ & Hp & _).
    cbn [snd]. by rewrite (track_new_effects_app _ _ _ Htr).
  - exists (1 # 1000). split; [done|]. intros env sid n w.
    destruct (AppFacts.send_screenshots_pauses env sid n w)
      as (st & w' & new & k & -> & Htr & _ & Hp & Hk & _).
    exists k. split; [done|]. cbn [fst snd].
    rewrite (AppFacts.new_effects_app _ _ _ Htr), Hp. by destruct st.
Qed.

Lemma captures_are_separated_by_a_fixed_pause_witness :
  pauses (new_effects RequestListenSamples.idle
            (snd (capture_frames RequestListenSamples.blind 3
                    RequestListenSamples.idle)))
    = repeat [3 # 100] 3.
Proof.
  apply (proj1 captures_are_separated_by_a_fixed_pause
           RequestListenSamples.blind 3%nat RequestListenSamples.idle).
  reflexivity.
Defined.

(** *** The offer *)

Lemma json_eq_str_true v s : json_eq_str v s = true <-> v = JStr s.
Proof.
  destruct v; simpl; try (split; [discriminate|by intros [=]]).
  rewrite String.eqb_eq. split; [by intros ->|by intros [= ->]].
Qed.

Lemma is_none_false v : is_none v = false <-> v <> JNull.
Proof. destruct v; simpl; split; done. Qed.

Lemma well_formed_offer_dec offer :
  well_formed_offer offer \/ ~ well_formed_offer offer.
Proof.
  destruct offer as [| | | | | |d];
    try (by right; intros (d & sdp & [=] & _)).
  destruct (dict_lookup "sdp" d) as [sdp|] eqn:Hsdp.
  2:{ right. intros (d' & sdp & [= <-] & Hs & _). congruence. }
  destruct (dict_lookup "type" d) as [type|] eqn:Htype.
  2:{ right. intros (d' & sdp' & [= <-] & _ & _ & Ht). congruence. }
  destruct (is_none sdp) eqn:Hnull.
  { right. intros (d' & sdp' & [= <-] & Hs & Hn & _).
    rewrite Hsdp in Hs. injection Hs as <-. by destruct sdp. }
  destruct (json_eq_str type "offer") eqn:Hoffer.
  - left. exists d, sdp. apply json_eq_str_true in Hoffer.
    apply is_none_false in Hnull. by subst type.
  - right. intros (d' & sdp' & [= <-] & _ & _ & Ht).
    rewrite Htype in Ht. injection Ht as ->. discriminate Hoffer.
Qed.

(** A well-formed offer passes the checks; only its type is printed. *)
Lemma receive_offer_accepts offer w :
  well_formed_offer offer ->
  receive_offer (Text (Some offer)) w =
    (Ok offer,
     with_trace (trace w ++ [Print (LogOfferReceived (JStr "offer"))]) w).
Proof.
  intros (d & sdp & -> & Hsdp & Hnull & Htype).
  unfold receive_offer, receive, validate_offer, bind, ret, py_get,
    py_getitem, dict_has, emit.
  rewrite Htype, Hsdp. cbn.
  apply is_none_false in Hnull. by rewrite Hnull.
Qed.

(** Any other payload raises: what is not a mapping before it is announced,
    a mapping once its type has been printed. *)
Lemma receive_offer_refuses offer w :
  ~ well_formed_offer offer ->
  exists e announced,
    (announced = [] /\ e = AttributeError \/
     exists t msg,
       announced = [Print (LogOfferReceived t)] /\ e = ValueError msg) /\
    receive_offer (Text (Some offer)) w
      = (Raise e, with_trace (trace w ++ announced) w).
Proof.
  intros Hbad.
  unfold receive_offer, receive, validate_offer, bind, ret, py_get,
    py_getitem, dict_has, emit, raise.
  destruct offer as [| | | | | |d];
    try (by exists AttributeError, []; split; [left|];
         rewrite ?app_nil_r, ?with_trace_same).
  destruct (dict_lookup "type" d) as [type|] eqn:Htype;
    destruct (dict_lookup "sdp" d) as [sdp|] eqn:Hsdp; cbn;
    try (by eexists _, [_]; split; [right; eauto|]).
  destruct (is_none sdp) eqn:Hnull; cbn;
    [by eexists _, [_]; split; [right; eauto|]|].
  destruct (json_eq_str type "offer") eqn:Hoffer; cbn;
    [|by eexists _, [_]; split; [right; eauto|]].
  exfalso. apply Hbad. exists d, sdp.
  apply json_eq_str_true in Hoffer. apply is_none_false in Hnull.
  by subst type.
Qed.

Lemma extends_bind {A B} (m : M World A) (k : A -> M World B) :
  extends m -> (forall a, extends (k a)) -> extends (bind m k).
Proof.
  intros Hm Hk w r w' H.
  apply bind_inv in H as [(a & w1 & H1 & H2)|(e & H1 & _)].
  - destruct (Hm _ _ _ H1) as [new1 E1].
    destruct (Hk _ _ _ _ H2) as [new2 E2].
    exists (new1 ++ new2)%list. by rewrite E2, E1, app_assoc.
  - eauto.
Qed.

Lemma extends_ret {A} (a : A) : extends (ret a).
Proof. intros w r w' [= _ <-]. exists []. by rewrite app_nil_r. Qed.

Lemma extends_raise {A} e : extends (@raise World A e).
Proof. intros w r w' [= _ <-]. exists []. by rewrite app_nil_r. Qed.

Lemma extends_call env e : extends (call env e).
Proof.
  intros w r w'. unfold call. case_match; intros [= _ <-]; by exists [e].
Qed.

Lemma extends_emit e : extends (emit e).
Proof. intros w r w' [= _ <-]. by exists [e]. Qed.

Lemma extends_get {A} (f : World -> A) : extends (get f).
Proof. intros w r w' [= _ <-]. exists []. by rewrite app_nil_r. Qed.

Lemma extends_update f :
  (forall w, trace (f w) = trace w) -> extends (update f).
Proof.
  intros Hf w r w' [= _ <-]. exists []. by rewrite app_nil_r, Hf.
Qed.

Lemma extends_py_getitem v k : extends (py_getitem v k).
Proof.
  intros w r w' H. rewrite (py_getitem_state _ _ _ _ _ H).
  exists []. by rewrite app_nil_r.
Qed.

Lemma extends_pc_setLocalDescription env :
  extends (pc_setLocalDescription env).
Proof.
  intros w r w'. unfold pc_setLocalDescription.
  case_match; intros [= _ <-]; by exists [PcSetLocalDescription].
Qed.

Create HintDb extends.
#[local] Hint Resolve extends_ret extends_raise extends_call extends_emit
  extends_get extends_py_getitem extends_pc_setLocalDescription : extends.

Ltac extends :=
  repeat first
    [ solve [auto with extends]
    | apply extends_bind; [|intros ?]
    | apply extends_update; intros ?; reflexivity
    | match goal with
      | |- extends (if ?b then _ else _) => destruct b
      | |- extends (match ?x with _ => _ end) => destruct x
      end ].

(** Once the session description of the offer is being built, whatever
    follows only appends to the trace. *)
Lemma negotiate_proceeds env offer w :
  well_formed_offer offer ->
  exists sdp more,
    py_getitem offer "sdp" w = (Ok sdp, w) /\
    new_effects w (snd (negotiate env (Text (Some offer)) w)) =
      Print (LogOfferReceived (JStr "offer"))
        :: NewSessionDescription sdp (JStr "offer") :: more.
Proof.
  intros Hwf. pose proof Hwf as (d & sdp & -> & Hsdp & Hnull & Htype).
  exists sdp. unfold negotiate. unfold bind at 1.
  rewrite (receive_offer_accepts _ w Hwf).
  unfold generate_answer.
  rewrite (bind_ok _ _ _ _ _ (py_getitem_dict d "sdp" sdp _ Hsdp)).
  rewrite (bind_ok _ _ _ _ _ (py_getitem_dict d "type" _ _ Htype)).
  unfold bind at 1. unfold call at 1. cbn [trace with_trace].
  destruct (raises env _ _).
  { exists []. split; [by unfold py_getitem; rewrite Hsdp|]. cbn [snd].
    apply track_new_effects_app. unfold log. cbn. by rewrite <- app_assoc. }
  match goal with
  | |- context [snd (?m ?w1)] =>
      assert (Hext : extends m) by (unfold initialize_browser,
        pc_setRemoteDescription; extends);
      destruct (m w1) as [r w'] eqn:Hrun;
      destruct (Hext _ _ _ Hrun) as [more Hmore]
  end.
  exists more. split; [by unfold py_getitem; rewrite Hsdp|]. cbn [snd].
  apply track_new_effects_app. rewrite Hmore. unfold log. cbn.
  by rewrite <- !app_assoc.
Qed.

(** *** Candidates *)

Lemma dict_has_true k d x : dict_lookup k d = Some x -> dict_has k d = true.
Proof. unfold dict_has. by intros ->. Qed.

Lemma dict_has_false k d : dict_lookup k d = None -> dict_has k d = false.
Proof. unfold dict_has. by intros ->. Qed.

(** A malformed candidate is reported and dropped: the loop goes on and the
    world is as before but for the two lines printed. *)
Lemma malformed_candidate_discarded env d c w :
  dict_lookup "candidate" d = Some c ->
  malformed_candidate c ->
  exists line,
    handle_candidate_message env (Text (Some (JDict d))) w =
      (Ok Running,
       with_trace (trace w ++ [Print (LogMessageKeys (map fst d));
                               Print line]) w).
Proof.
  intros Hc Hbad.
  unfold handle_candidate_message, try_except, receive, py_keys, bind, ret,
    emit.
  rewrite Hc.
  assert (Hdone : forall line,
            log (Print line) (log (Print (LogMessageKeys (map fst d))) w) =
            with_trace (trace w ++ [Print (LogMessageKeys (map fst d));
                                    Print line]) w).
  { intros line. unfold log, with_trace. cbn. by rewrite <- app_assoc. }
  destruct c as [| | | | | |cd];
    try (by eexists; rewrite <- Hdone).
  destruct Hbad as [[=]|[[=]|(cd' & [= <-] & Hmiss)]].
  assert (Hhas : (negb (dict_has "candidate" cd)
                  || negb (dict_has "sdpMid" cd))%bool = true).
  { destruct Hmiss as [Hm|Hm]; rewrite (dict_has_false _ _ Hm);
      [done|by rewrite orb_true_r]. }
  rewrite Hhas. by eexists; rewrite <- Hdone.
Qed.

(** What the code means to do with a candidate that has both fields: it is
    built and handed to the peer connection, which holds it when neither
    call raises; the loop goes on whether or not that succeeds. *)
Lemma well_formed_candidate_added env d cd cand mid w :
  dict_lookup "candidate" d = Some (JDict cd) ->
  dict_lookup "candidate" cd = Some cand ->
  dict_lookup "sdpMid" cd = Some mid ->
  let ice :=
    mkIceCandidate cand mid
      (match dict_lookup "sdpMLineIndex" cd with
       | Some idx => idx
       | None => JNull
       end) in
  let tr := (trace w ++ [Print (LogMessageKeys (map fst d))])%list in
  exists w',
    handle_candidate_message env (Text (Some (JDict d))) w
      = (Ok Running, w') /\
    (raises env tr (NewIceCandidate ice) = false ->
     raises env (tr ++ [NewIceCandidate ice]) (PcAddIceCandidate ice)
       = false ->
     w' = with_trace
            (tr ++ [NewIceCandidate ice; PcAddIceCandidate ice;
                    Print LogCandidateAdded])
            (set_pc (remoteDescription w) (localDescription w)
               (iceCandidates w ++ [ice]) (pc_closed w) w)).
Proof.
  intros Hc Hcand Hmid ice tr.
  unfold handle_candidate_message, receive, py_keys.
  unfold try_except at 1.
  unfold bind at 1. cbn [ret]. unfold bind at 1. cbn [ret].
  unfold bind at 1. unfold emit at 1.
  rewrite Hc, (dict_has_true _ _ _ Hcand), (dict_has_true _ _ _ Hmid).
  cbn [negb orb].
  unfold try_except.
  rewrite (bind_ok _ _ _ _ _ (py_getitem_dict cd "candidate" _ _ Hcand)).
  rewrite (bind_ok _ _ _ _ _ (py_getitem_dict cd "sdpMid" _ _ Hmid)).
  unfold bind at 1. rewrite py_get_dict. fold ice.
  unfold bind at 1. unfold call at 1. cbn [trace log]. fold tr.
  destruct (raises env tr (NewIceCandidate ice)).
  { eexists. split; [reflexivity|]. discriminate. }
  unfold pc_addIceCandidate, bind, call, update, emit, ret.
  cbn [trace log].
  destruct (raises env _ (PcAddIceCandidate ice)) eqn:Hadd.
  { eexists. split; [reflexivity|]. intros _ Hadd'.
    discriminate Hadd'. }
  eexists. split; [reflexivity|]. intros _ _.
  unfold log, set_pc, with_trace. cbn. subst tr.
  by rewrite <- !app_assoc.
Qed.

(** A candidate with both fields whose construction raises is reported and
    skipped: the peer connection is not asked to add it, and the loop goes
    on. *)
Lemma candidate_not_built env d cd cand mid w :
  dict_lookup "candidate" d = Some (JDict cd) ->
  dict_lookup "candidate" cd = Some cand ->
  dict_lookup "sdpMid" cd = Some mid ->
  let ice :=
    mkIceCandidate cand mid
      (match dict_lookup "sdpMLineIndex" cd with
       | Some idx => idx
       | None => JNull
       end) in
  raises env (trace w ++ [Print (LogMessageKeys (map fst d))])
    (NewIceCandidate ice) = true ->
  handle_candidate_message env (Text (Some (JDict d))) w =
    (Ok Running,
     with_trace
       (trace w ++ [Print (LogMessageKeys (map fst d)); NewIceCandidate ice;
                    Print (LogCandidateFailed ExternalError)]) w).
Proof.
  intros Hc Hcand Hmid ice Hnew.
  unfold handle_candidate_message, receive, py_keys.
  unfold try_except at 1.
  unfold bind at 1. cbn [ret]. unfold bind at 1. cbn [ret].
  unfold bind at 1. unfold emit at 1.
  rewrite Hc, (dict_has_true _ _ _ Hcand), (dict_has_true _ _ _ Hmid).
  cbn [negb orb].
  unfold try_except.
  rewrite (bind_ok _ _ _ _ _ (py_getitem_dict cd "candidate" _ _ Hcand)).
  rewrite (bind_ok _ _ _ _ _ (py_getitem_dict cd "sdpMid" _ _ Hmid)).
  unfold bind at 1. rewrite py_get_dict. fold ice.
  unfold bind at 1. unfold call at 1. cbn [trace log]. rewrite Hnew.
  unfold bind, emit, ret, log, with_trace. cbn.
  by rewrite <- !app_assoc.
Qed.

Example null_candidate_discarded :
  handle_candidate_message RequestListenSamples.calm
    (Text (Some (RequestListenSamples.candidate_message JNull)))
    RequestListenSamples.idle
  = (Ok Running,
     with_trace [Print (LogMessageKeys ["candidate"]); Print LogNullCandidate]
       RequestListenSamples.idle).
Proof. reflexivity. Qed.

Example candidate_without_sdpMid_discarded :
  handle_candidate_message RequestListenSamples.calm
    (Text (Some (RequestListenSamples.candidate_message
                   (JDict [("candidate", JStr "c")]))))
    RequestListenSamples.idle
  = (Ok Running,
     with_trace [Print (LogMessageKeys ["candidate"]);
                 Print LogCandidateMissingFields]
       RequestListenSamples.idle).
Proof. reflexivity. Qed.

(** *** Stopping the track *)

(** X14. [stop] clears [running] and cancels the capture task when the
    track was running, and only then: a track that has been stopped is left
    as it is by a second [stop].  The frame of the track is kept, and after
    [stop] the capture loop makes no further pass. *)
Theorem stop_cancels_the_capture_task_once env n w :
  stop w =
    (Ok tt,
     with_trace
       (trace w ++ if running w then [CancelCaptureTask] else [])
       (set_track (browser_track w) (frame w) false w)) /\
  stop (snd (stop w)) = (Ok tt, snd (stop w)) /\
  capture_frames env (S n) (snd (stop w)) = (Ok Exited, snd (stop w)).
Proof.
  unfold stop, bind, get, update, emit, ret.
  destruct w as [pl br pg reg rd ld cs closed created f [|] tr]; cbn;
    by rewrite ?app_nil_r.
Qed.

Example stop_twice :
  new_effects RequestListenSamples.idle
    (snd (stop (snd (stop RequestListenSamples.idle))))
  = [CancelCaptureTask].
Proof. reflexivity. Qed.

(** *** Launching the browser *)

(** X15. [initialize_browser] launches the browser only when one of the
    globals [browser], [page] and [playwright_instance] is not set: then
    all three are made anew, in this order, and the page is sent to the
    clock; when it returns all three are set, and calling it again does
    nothing. *)
Theorem initialize_browser_is_idempotent env w w' :
  initialize_browser env w = (Ok tt, w') ->
  (browser w' = true /\ page w' = true /\ playwright_instance w' = true) /\
  initialize_browser env w' = (Ok tt, w') /\
  new_effects w w' =
    if (browser w && page w && playwright_instance w)%bool then []
    else [Print LogInitializingBrowser; StartPlaywright; LaunchBrowser;
          NewPage; PageGoto "http://time.syiban.com/haomiao.php"].
Proof.
  intros H.
  assert (Hset : forall w0, browser w0 = true -> page w0 = true ->
                   playwright_instance w0 = true ->
                   initialize_browser env w0 = (Ok tt, w0)).
  { intros w0 Hb Hp Hl. unfold initialize_browser, bind, get.
    by rewrite Hb, Hp, Hl. }
  destruct (browser w && page w && playwright_instance w)%bool eqn:Hall.
  - apply andb_prop in Hall as [Hall Hl]. apply andb_prop in Hall as [Hb Hp].
    rewrite (Hset w Hb Hp Hl) in H. simplify_eq.
    split; [done|]. split; [by apply Hset|].
    unfold new_effects. by rewrite drop_all.
  - unfold initialize_browser, bind, get in H.
    assert (Hsome : (negb (browser w) || negb (page w)
                     || negb (playwright_instance w))%bool = true).
    { destruct (browser w), (page w), (playwright_instance w); done. }
    rewrite Hsome in H. unfold emit, call, update, ret in H.
    cbn [trace log set_globals browser page playwright_instance] in H.
    repeat match type of H with
           | context [raises env ?tr ?e] =>
               destruct (raises env tr e); [discriminate|];
               cbn [trace log set_globals browser page playwright_instance
                    negb orb] in H
           end.
    simplify_eq. split; [done|]. split; [by apply Hset|].
    apply track_new_effects_app. cbn. by rewrite <- !app_assoc.
Qed.

Lemma initialize_browser_is_idempotent_witness :
  (browser (snd (initialize_browser RequestListenSamples.calm
                   (mkWorld false false false false None None [] false
                      false None false []))) = true /\
   page (snd (initialize_browser RequestListenSamples.calm
                (mkWorld false false false false None None [] false
                   false None false []))) = true /\
   playwright_instance
     (snd (initialize_browser RequestListenSamples.calm
             (mkWorld false false false false None None [] false
                false None false []))) = true) /\
  initialize_browser RequestListenSamples.calm
    (snd (initialize_browser RequestListenSamples.calm
            (mkWorld false false false false None None [] false
               false None false [])))
  = (Ok tt,
     snd (initialize_browser RequestListenSamples.calm
            (mkWorld false false false false None None [] false
               false None false []))) /\
  new_effects
    (mkWorld false false false false None None [] false false None false [])
    (snd (initialize_browser RequestListenSamples.calm
            (mkWorld false false false false None None [] false
               false None false [])))
  = if (browser (mkWorld false false false false None None [] false false
                   None false [])
        && page (mkWorld false false false false None None [] false false
                   None false [])
        && playwright_instance
             (mkWorld false false false false None None [] false false
                None false []))%bool
    then []
    else [Print LogInitializingBrowser; StartPlaywright; LaunchBrowser;
          NewPage; PageGoto "http://time.syiban.com/haomiao.php"].
Proof.
  apply (initialize_browser_is_idempotent RequestListenSamples.calm
           (mkWorld false false false false None None [] false false None
              false [])).
  vm_compute. reflexivity.
Defined.

(** *** What the handshake keeps *)

#[local] Instance connection_kept_preorder : PreOrder connection_kept.
Proof.
  split.
  - by intros w.
  - intros w1 w2 w3 (Hc1 & Hp1 & Ht1) (Hc2 & Hp2 & Ht2).
    split; [congruence|]. split; [congruence|auto].
Qed.

#[local] Instance candidates_grow_preorder : PreOrder candidates_grow.
Proof.
  split.
  - intros w. split; [|done]. exists []. by rewrite app_nil_r.
  - intros w1 w2 w3 ([a1 Ha1] & Hr1 & Hl1) ([a2 Ha2] & Hr2 & Hl2).
    split; [|split; congruence].
    exists (a1 ++ a2)%list. by rewrite Ha2, Ha1, app_assoc.
Qed.

Lemma relates_update (R : relation World) f :
  (forall w, R w (f w)) -> relates R (update f).
Proof. intros HR w r w' [= _ <-]. apply HR. Qed.

Lemma relates_get {A} (R : relation World) `{!Reflexive R}
    (f : World -> A) :
  relates R (get f).
Proof. by intros w r w' [= _ <-]. Qed.

Lemma relates_call (R : relation World) env e :
  (forall w, R w (log e w)) -> relates R (call env e).
Proof.
  intros HR w r w' H. unfold call in H.
  destruct (raises env _ _); simplify_eq; apply HR.
Qed.

Lemma relates_emit (R : relation World) e :
  (forall w, R w (log e w)) -> relates R (emit e).
Proof. intros HR w r w' [= _ <-]. apply HR. Qed.

Lemma connection_kept_pc_setLocalDescription env :
  relates connection_kept (pc_setLocalDescription env).
Proof.
  intros w r w' H. unfold pc_setLocalDescription in H.
  by destruct (raises env _ _); simplify_eq.
Qed.

(** Solve [R w (f w)] for a field update [f]. *)
Ltac kept :=
  intros ?;
  unfold connection_kept, candidates_grow, track_coherent;
  cbn; repeat split;
  first [ done | by exists []; rewrite app_nil_r | by eexists | auto ].

Ltac steps :=
  repeat first
    [ match goal with
      | |- relates ?R (ret _) => apply (relates_ret R)
      | |- relates ?R (raise _) => apply (relates_raise R)
      | |- relates ?R (py_getitem _ _) => apply (relates_py_getitem R)
      | |- relates ?R (py_get _ _ _) => apply (relates_py_get R)
      | |- relates ?R (get _) => apply (relates_get R)
      | |- relates ?R (update _) => apply (relates_update R); kept
      | |- relates ?R (call _ _) => apply (relates_call R); kept
      | |- relates ?R (emit _) => apply (relates_emit R); kept
      | |- relates connection_kept (pc_setLocalDescription _) =>
          apply connection_kept_pc_setLocalDescription
      | |- relates ?R (bind _ _) => apply (relates_bind R); [|intros ?]
      | |- relates ?R (try_except _ _) =>
          apply (relates_try_except R); [|intros ?]
      | |- relates _ (if ?b then _ else _) => destruct b
      | |- relates _ (match ?x with _ => _ end) => destruct x
      end ].

Lemma connection_kept_negotiate env first :
  relates connection_kept (negotiate env first).
Proof.
  unfold negotiate, receive_offer, receive, validate_offer, generate_answer,
    initialize_browser, pc_setRemoteDescription.
  steps.
Qed.

Lemma handle_candidate_message_relates (R : relation World) `{!PreOrder R}
    env m :
  (forall w e, R w (log e w)) ->
  (forall w c, R w (set_pc (remoteDescription w) (localDescription w)
                      (iceCandidates w ++ [c]) (pc_closed w) w)) ->
  relates R (handle_candidate_message env m).
Proof.
  intros Hlog Hadd.
  assert (Hcall : forall e, relates R (call env e))
    by (intros e; apply relates_call; auto).
  assert (Hemit : forall e, relates R (emit e))
    by (intros e; apply relates_emit; auto).
  unfold handle_candidate_message, receive, py_keys, pc_addIceCandidate.
  repeat first
    [ apply Hcall | apply Hemit
    | match goal with
      | |- relates ?R (ret _) => apply (relates_ret R)
      | |- relates ?R (raise _) => apply (relates_raise R)
      | |- relates ?R (py_getitem _ _) => apply (relates_py_getitem R)
      | |- relates ?R (py_get _ _ _) => apply (relates_py_get R)
      | |- relates ?R (update _) =>
          apply (relates_update R); intros ?; apply Hadd
      | |- relates ?R (bind _ _) => apply (relates_bind R); [|intros ?]
      | |- relates ?R (try_except _ _) =>
          apply (relates_try_except R); [|intros ?]
      | |- relates _ (if ?b then _ else _) => destruct b
      | |- relates _ (match ?x with _ => _ end) => destruct x
      end ].
Qed.

Lemma candidate_loop_relates (R : relation World) `{!PreOrder R} env :
  (forall w e, R w (log e w)) ->
  (forall w c, R w (set_pc (remoteDescription w) (localDescription w)
                      (iceCandidates w ++ [c]) (pc_closed w) w)) ->
  forall inbound, relates R (candidate_loop env inbound).
Proof.
  intros Hlog Hadd. induction inbound as [|m rest IH]; cbn [candidate_loop].
  - by apply relates_ret.
  - apply (relates_bind R).
    + by apply handle_candidate_message_relates.
    + intros [|]; [apply IH|by apply relates_ret].
Qed.

Lemma connection_kept_candidate_loop env inbound :
  relates connection_kept (candidate_loop env inbound).
Proof. apply (candidate_loop_relates connection_kept); kept. Qed.

Lemma candidates_grow_candidate_loop env inbound :
  relates candidates_grow (candidate_loop env inbound).
Proof.
  apply (candidate_loop_relates candidates_grow).
  - intros w e. split; [|done]. exists []. by rewrite app_nil_r.
  - intros w c. split; [|done]. by exists [c].
Qed.

(** What the [finally] block leaves, when closing the peer connection does
    not fail. *)
Lemma cleanup_spec env w w' :
  track_coherent w ->
  cleanup env w = (Ok tt, w') ->
  pc_closed w' = true /\ in_pcs w' = false /\ running w' = false /\
  last (trace w') = Some (Print LogConnectionClosed).
Proof.
  intros Hco H. unfold cleanup, stop, bind, call, update, get, emit, ret in H.
  destruct (raises env _ PcClose); [discriminate|].
  cbn [browser_track set_in_pcs set_pc log] in H.
  destruct (browser_track w) eqn:Hcreated.
  - cbn [running set_in_pcs set_pc log] in H.
    destruct (running w); simplify_eq; cbn; repeat split; apply last_snoc.
  - simplify_eq. cbn. repeat split; [by apply Hco|apply last_snoc].
Qed.

(** X16. However a connection to [/offer] gets to its end, it is cleaned
    up: when the coroutine has finished, the peer connection is closed and
    out of [pcs], the track is stopped, and the last line printed says so.
    While the coroutine still waits for a message the peer connection is
    open and in [pcs]. *)
Theorem a_finished_connection_is_cleaned_up env inbound w phase w' :
  websocket_offer env inbound w = (Ok phase, w') ->
  match phase with
  | Finished =>
      pc_closed w' = true /\ in_pcs w' = false /\ running w' = false /\
      last (trace w') = Some (Print LogConnectionClosed)
  | _ => pc_closed w' = false /\ in_pcs w' = true
  end.
Proof.
  intros H. unfold websocket_offer in H.
  invert_bind H as u w0 Haccept.
  do 3 (unfold bind at 1 in H; unfold update at 1 in H).
  set (w1 := set_track false None false _) in H.
  assert (Hco1 : track_coherent w1) by done.
  destruct inbound as [|first rest]; [by injection H as <- <-|].
  cbv beta in H.
  destruct (negotiate env first w1) as [[u1|e] w2] eqn:Hneg.
  - pose proof (connection_kept_negotiate _ _ _ _ _ Hneg)
      as (Hc2 & Hp2 & Hco2).
    destruct (candidate_loop env rest w2) as [[[|]|e] w3] eqn:Hloop;
      pose proof (connection_kept_candidate_loop _ _ _ _ _ Hloop)
        as (Hc3 & Hp3 & Hco3).
    + simplify_eq. by rewrite Hc3, Hp3, Hc2, Hp2.
    + invert_bind H as u3 w4 Hclean. unfold ret in H. simplify_eq.
      destruct u3. apply (cleanup_spec env w3); auto.
    + invert_bind H as u3 w4 Hemit. invert_bind H as u4 w5 Hclean.
      unfold emit, ret in Hemit, H. simplify_eq. destruct u4.
      apply (cleanup_spec env (log (Print (LogWebSocketError e)) w3));
        [|done].
      unfold track_coherent. cbn. by apply Hco3, Hco2.
  - pose proof (connection_kept_negotiate _ _ _ _ _ Hneg)
      as (Hc2 & Hp2 & Hco2).
    invert_bind H as u3 w4 Hemit. invert_bind H as u4 w5 Hclean.
    unfold emit, ret in Hemit, H. simplify_eq. destruct u4.
    apply (cleanup_spec env (log (Print (LogWebSocketError e)) w2)); [|done].
    unfold track_coherent. cbn. by apply Hco2.
Qed.

Lemma a_finished_connection_is_cleaned_up_witness :
  pc_closed
    (snd (websocket_offer RequestListenSamples.calm
            [Text (Some (RequestListenSamples.offer (JStr "v=0")
                           (JStr "offer")));
             Disconnect]
            (mkWorld false false false false None None [] false false None
               false []))) = true /\
  in_pcs
    (snd (websocket_offer RequestListenSamples.calm
            [Text (Some (RequestListenSamples.offer (JStr "v=0")
                           (JStr "offer")));
             Disconnect]
            (mkWorld false false false false None None [] false false None
               false []))) = false /\
  running
    (snd (websocket_offer RequestListenSamples.calm
            [Text (Some (RequestListenSamples.offer (JStr "v=0")
                           (JStr "offer")));
             Disconnect]
            (mkWorld false false false false None None [] false false None
               false []))) = false /\
  last (trace
          (snd (websocket_offer RequestListenSamples.calm
                  [Text (Some (RequestListenSamples.offer (JStr "v=0")
                                 (JStr "offer")));
                   Disconnect]
                  (mkWorld false false false false None None [] false false
                     None false []))))
    = Some (Print LogConnectionClosed).
Proof.
  apply (a_finished_connection_is_cleaned_up RequestListenSamples.calm
           [Text (Some (RequestListenSamples.offer (JStr "v=0")
                          (JStr "offer")));
            Disconnect]
           (mkWorld false false false false None None [] false false None
              false [])
           Finished).
  vm_compute. reflexivity.
Defined.

(** *** The other messages of the candidate loop *)

Lemma candidate_loop_other_messages env w :
  (forall d,
     dict_lookup "candidate" d = None ->
     handle_candidate_message env (Text (Some (JDict d))) w =
       (Ok Running,
        with_trace (trace w ++ [Print (LogMessageKeys (map fst d))]) w)) /\
  (forall v,
     is_dict v = false ->
     handle_candidate_message env (Text (Some v)) w =
       (Ok Exited,
        with_trace (trace w ++ [Print (LogMessageError AttributeError)]) w))
  /\
  handle_candidate_message env (Text None) w =
    (Ok Exited,
     with_trace (trace w ++ [Print (LogMessageError JSONDecodeError)]) w) /\
  handle_candidate_message env Disconnect w =
    (Ok Exited, with_trace (trace w ++ [Print LogClientDisconnected]) w).
Proof.
  repeat split.
  - intros d Hnone.
    unfold handle_candidate_message, try_except, receive, py_keys, bind,
      ret, emit.
    by rewrite Hnone.
  - intros v Hv. by destruct v.
Qed.

(** X17. In the candidate loop a JSON object without a ['candidate'] key is
    passed over, only its keys being printed; a message that is not a JSON
    object, a text that is not JSON, and the end of the connection each
    leave the loop, after one line printed, with the world otherwise as it
    was. *)
Theorem what_else_the_candidate_loop_receives env w :
  (forall d,
     dict_lookup "candidate" d = None ->
     handle_candidate_message env (Text (Some (JDict d))) w =
       (Ok Running,
        with_trace (trace w ++ [Print (LogMessageKeys (map fst d))]) w)) /\
  (forall v,
     is_dict v = false ->
     handle_candidate_message env (Text (Some v)) w =
       (Ok Exited,
        with_trace (trace w ++ [Print (LogMessageError AttributeError)]) w))
  /\
  handle_candidate_message env (Text None) w =
    (Ok Exited,
     with_trace (trace w ++ [Print (LogMessageError JSONDecodeError)]) w) /\
  handle_candidate_message env Disconnect w =
    (Ok Exited, with_trace (trace w ++ [Print LogClientDisconnected]) w).
Proof. apply candidate_loop_other_messages. Qed.

(** *** Candidates that cannot be added *)

(** X18. When a candidate with both of its fields cannot be built, or the
    peer connection refuses it, the failure is printed and the loop goes on:
    no candidate is added and the peer connection is as it was. *)
Theorem a_candidate_that_cannot_be_added_is_skipped env d cd cand mid w :
  dict_lookup "candidate" d = Some (JDict cd) ->
  dict_lookup "candidate" cd = Some cand ->
  dict_lookup "sdpMid" cd = Some mid ->
  let ice :=
    mkIceCandidate cand mid
      (match dict_lookup "sdpMLineIndex" cd with
       | Some idx => idx
       | None => JNull
       end) in
  let tr := (trace w ++ [Print (LogMessageKeys (map fst d))])%list in
  raises env tr (NewIceCandidate ice) = true \/
  raises env (tr ++ [NewIceCandidate ice]) (PcAddIceCandidate ice) = true ->
  exists attempted,
    handle_candidate_message env (Text (Some (JDict d))) w =
      (Ok Running,
       with_trace
         (tr ++ attempted ++ [Print (LogCandidateFailed ExternalError)]) w)
    /\
    (attempted = [NewIceCandidate ice] \/
     attempted = [NewIceCandidate ice; PcAddIceCandidate ice]).
Proof.
  intros Hc Hcand Hmid ice tr Hfail.
  unfold handle_candidate_message, receive, py_keys.
  unfold try_except at 1.
  unfold bind at 1. cbn [ret]. unfold bind at 1. cbn [ret].
  unfold bind at 1. unfold emit at 1.
  rewrite Hc, (dict_has_true _ _ _ Hcand), (dict_has_true _ _ _ Hmid).
  cbn [negb orb].
  unfold try_except.
  rewrite (bind_ok _ _ _ _ _ (py_getitem_dict cd "candidate" _ _ Hcand)).
  rewrite (bind_ok _ _ _ _ _ (py_getitem_dict cd "sdpMid" _ _ Hmid)).
  unfold bind at 1. rewrite py_get_dict. fold ice.
  unfold bind at 1. unfold call at 1. cbn [trace log]. fold tr.
  destruct (raises env tr (NewIceCandidate ice)) eqn:Hnew.
  { exists [NewIceCandidate ice]. split; [|by left].
    unfold bind, emit, ret, log, with_trace. cbn. subst tr.
    by rewrite <- !app_assoc. }
  destruct Hfail as [Hfail|Hfail]; [discriminate|].
  unfold pc_addIceCandidate, bind, call, update, emit, ret.
  cbn [trace log]. fold tr. rewrite Hfail.
  exists [NewIceCandidate ice; PcAddIceCandidate ice]. split; [|by right].
  unfold log, with_trace. cbn. subst tr. by rewrite <- !app_assoc.
Qed.

Lemma a_candidate_that_cannot_be_added_is_skipped_witness :
  exists attempted,
    handle_candidate_message
      (mkEnv (fun _ e => match e with
                         | NewIceCandidate _ => true
                         | _ => false
                         end)
         (fun _ _ => []) (fun _ => None) (fun _ => None)
         (fun _ => (0%Z, 1 # 90000)))
      (Text (Some (RequestListenSamples.candidate_message
                     (JDict [("candidate", JStr "c");
                             ("sdpMid", JStr "0")]))))
      RequestListenSamples.idle =
      (Ok Running,
       with_trace
         ((trace RequestListenSamples.idle
             ++ [Print (LogMessageKeys
                          (map fst [("candidate",
                                     JDict [("candidate", JStr "c");
                                            ("sdpMid", JStr "0")])]))])
            ++ attempted ++ [Print (LogCandidateFailed ExternalError)])
         RequestListenSamples.idle)
    /\
    (attempted = [NewIceCandidate
                    (mkIceCandidate (JStr "c") (JStr "0") JNull)] \/
     attempted = [NewIceCandidate
                    (mkIceCandidate (JStr "c") (JStr "0") JNull);
                  PcAddIceCandidate
                    (mkIceCandidate (JStr "c") (JStr "0") JNull)]).
Proof.
  apply (a_candidate_that_cannot_be_added_is_skipped
           (mkEnv (fun _ e => match e with
                              | NewIceCandidate _ => true
                              | _ => false
                              end)
              (fun _ _ => []) (fun _ => None) (fun _ => None)
              (fun _ => (0%Z, 1 # 90000)))
           [("candidate", JDict [("candidate", JStr "c");
                                 ("sdpMid", JStr "0")])]
           [("candidate", JStr "c"); ("sdpMid", JStr "0")]
           (JStr "c") (JStr "0") RequestListenSamples.idle);
    try reflexivity.
  left. reflexivity.
Defined.

(** *** The candidates of a connection *)

Lemma adds_no_candidate_app tr1 tr2 :
  adds_no_candidate (tr1 ++ tr2) =
    (adds_no_candidate tr1 && adds_no_candidate tr2)%bool.
Proof. apply forallb_app. Qed.

(** One message of the candidate loop when [RTCIceCandidate] refuses its
    arguments: whatever the message, only the trace changes, and the peer
    connection is not asked to add anything. *)
Lemma handle_candidate_message_adds_nothing env m w :
  refuses_candidate_keyword env ->
  exists status new,
    handle_candidate_message env m w =
      (Ok status, with_trace (trace w ++ new) w) /\
    adds_no_candidate new = true.
Proof.
  intros Hrefuses.
  destruct (candidate_loop_other_messages env w)
    as (Hnokey & Hother & Hnojson & Hbye).
  destruct m as [[v|]|]; [|by eexists _, [_]|by eexists _, [_]].
  destruct (is_dict v) eqn:Hv.
  2:{ rewrite (Hother v Hv). by eexists _, [_]. }
  destruct v as [| | | | | |d]; try discriminate Hv.
  destruct (dict_lookup "candidate" d) as [c|] eqn:Hc.
  2:{ rewrite (Hnokey d Hc). by eexists _, [_]. }
  assert (Hbad : malformed_candidate c ->
            exists status new,
              handle_candidate_message env (Text (Some (JDict d))) w =
                (Ok status, with_trace (trace w ++ new) w) /\
              adds_no_candidate new = true).
  { intros Hm.
    destruct (malformed_candidate_discarded env d c w Hc Hm) as [line ->].
    by eexists _, [_; _]. }
  destruct c as [| | | | | |cd]; try (apply Hbad; by right; left).
  destruct (dict_lookup "candidate" cd) as [cand|] eqn:Hcand.
  2:{ apply Hbad. right; right. exists cd. auto. }
  destruct (dict_lookup "sdpMid" cd) as [mid|] eqn:Hmid.
  2:{ apply Hbad. right; right. exists cd. auto. }
  rewrite (candidate_not_built env d cd cand mid w Hc Hcand Hmid
             (Hrefuses _ _)).
  by eexists _, [_; _; _].
Qed.

Lemma candidate_loop_adds_nothing env inbound : forall w,
  refuses_candidate_keyword env ->
  exists status new,
    candidate_loop env inbound w =
      (Ok status, with_trace (trace w ++ new) w) /\
    adds_no_candidate new = true.
Proof.
  induction inbound as [|m rest IH]; intros w Hrefuses.
  - exists Running, []. by rewrite app_nil_r, with_trace_same.
  - cbn [candidate_loop]. unfold bind.
    destruct (handle_candidate_message_adds_nothing env m w Hrefuses)
      as (st & new1 & -> & Hnew1).
    destruct st; [|by eauto].
    destruct (IH (with_trace (trace w ++ new1) w) Hrefuses)
      as (status & new2 & -> & Hnew2).
    exists status, (new1 ++ new2)%list. cbn [trace with_trace].
    rewrite app_assoc. split; [done|].
    by rewrite adds_no_candidate_app, Hnew1, Hnew2.
Qed.

(** C5, on the code.  The first half of the claim holds: a message whose
    ['candidate'] is null, is not a mapping, or lacks ['candidate'] or
    ['sdpMid'] is reported and dropped, nothing but the trace changes and
    the loop goes on.  The second half does not: [RTCIceCandidate] is
    called with a [candidate] keyword that its constructor does not have,
    so for every candidate with both fields the call raises; the failure is
    printed, [pc.addIceCandidate] is not reached and the loop goes on.
    Whatever messages come, the candidate loop leaves the peer connection
    with the candidates it had and never asks it to add one. *)
Theorem no_candidate_is_ever_added env :
  refuses_candidate_keyword env ->
  (forall d c w,
     dict_lookup "candidate" d = Some c ->
     malformed_candidate c ->
     exists line,
       handle_candidate_message env (Text (Some (JDict d))) w =
         (Ok Running,
          with_trace (trace w ++ [Print (LogMessageKeys (map fst d));
                                  Print line]) w)) /\
  (forall d cd cand mid w,
     dict_lookup "candidate" d = Some (JDict cd) ->
     dict_lookup "candidate" cd = Some cand ->
     dict_lookup "sdpMid" cd = Some mid ->
     let ice :=
       mkIceCandidate cand mid
         (match dict_lookup "sdpMLineIndex" cd with
          | Some idx => idx
          | None => JNull
          end) in
     handle_candidate_message env (Text (Some (JDict d))) w =
       (Ok Running,
        with_trace
          (trace w ++ [Print (LogMessageKeys (map fst d));
                       NewIceCandidate ice;
                       Print (LogCandidateFailed ExternalError)]) w)) /\
  (forall inbound w,
     exists status new,
       candidate_loop env inbound w =
         (Ok status, with_trace (trace w ++ new) w) /\
       adds_no_candidate new = true).
Proof.
  intros Hrefuses. split; [|split].
  - intros d c w. apply malformed_candidate_discarded.
  - intros d cd cand mid w Hc Hcand Hmid ice.
    by apply candidate_not_built.
  - intros inbound w. by apply candidate_loop_adds_nothing.
Qed.

Lemma refuses_candidate_keyword_aiortc :
  refuses_candidate_keyword RequestListenSamples.aiortc.
Proof. by intros tr c. Qed.

Lemma no_candidate_is_ever_added_witness :
  handle_candidate_message RequestListenSamples.aiortc
    (Text (Some (RequestListenSamples.candidate_message
                   (JDict [("candidate", JStr "c"); ("sdpMid", JStr "0");
                           ("sdpMLineIndex", JInt 0)]))))
    RequestListenSamples.idle =
    (Ok Running,
     with_trace
       [Print (LogMessageKeys ["candidate"]);
        NewIceCandidate (mkIceCandidate (JStr "c") (JStr "0") (JInt 0));
        Print (LogCandidateFailed ExternalError)]
       RequestListenSamples.idle).
Proof.
  apply (proj1 (proj2 (no_candidate_is_ever_added
                         RequestListenSamples.aiortc
                         refuses_candidate_keyword_aiortc))
           [("candidate", JDict [("candidate", JStr "c");
                                 ("sdpMid", JStr "0");
                                 ("sdpMLineIndex", JInt 0)])]
           [("candidate", JStr "c"); ("sdpMid", JStr "0");
            ("sdpMLineIndex", JInt 0)]
           (JStr "c") (JStr "0") RequestListenSamples.idle);
    reflexivity.
Defined.

Example two_candidates_and_none_kept :
  let w' :=
    snd (candidate_loop RequestListenSamples.aiortc
           [Text (Some (RequestListenSamples.candidate_message
                          (JDict [("candidate", JStr "a");
                                  ("sdpMid", JStr "0")])));
            Text (Some (RequestListenSamples.candidate_message JNull));
            Text (Some (RequestListenSamples.candidate_message
                          (JDict [("candidate", JStr "b");
                                  ("sdpMid", JStr "0");
                                  ("sdpMLineIndex", JInt 0)])));
            Disconnect]
           RequestListenSamples.idle) in
  iceCandidates w' = [] /\
  trace w' =
    [Print (LogMessageKeys ["candidate"]);
     NewIceCandidate (mkIceCandidate (JStr "a") (JStr "0") JNull);
     Print (LogCandidateFailed ExternalError);
     Print (LogMessageKeys ["candidate"]); Print LogNullCandidate;
     Print (LogMessageKeys ["candidate"]);
     NewIceCandidate (mkIceCandidate (JStr "b") (JStr "0") (JInt 0));
     Print (LogCandidateFailed ExternalError);
     Print LogClientDisconnected].
Proof. by vm_compute. Qed.

(** X20. Whatever arrives in the candidate loop and whatever fails there,
    the loop only ever adds candidates: those the peer connection had are
    kept in their order, its two descriptions are not touched, and it is
    neither closed nor taken out of [pcs]. *)
Theorem the_candidate_loop_only_adds_candidates env inbound w r w' :
  candidate_loop env inbound w = (r, w') ->
  candidates_grow w w' /\ connection_kept w w'.
Proof.
  intros H. split.
  - exact (candidates_grow_candidate_loop _ _ _ _ _ H).
  - exact (connection_kept_candidate_loop _ _ _ _ _ H).
Qed.

Lemma the_candidate_loop_only_adds_candidates_witness :
  candidates_grow RequestListenSamples.idle
    (snd (candidate_loop RequestListenSamples.blind
            [Text (Some (RequestListenSamples.candidate_message
                           (JDict [("candidate", JStr "a");
                                   ("sdpMid", JStr "0")])));
             Text None]
            RequestListenSamples.idle)) /\
  connection_kept RequestListenSamples.idle
    (snd (candidate_loop RequestListenSamples.blind
            [Text (Some (RequestListenSamples.candidate_message
                           (JDict [("candidate", JStr "a");
                                   ("sdpMid", JStr "0")])));
             Text None]
            RequestListenSamples.idle)).
Proof.
  apply (the_candidate_loop_only_adds_candidates RequestListenSamples.blind
           [Text (Some (RequestListenSamples.candidate_message
                          (JDict [("candidate", JStr "a");
                                  ("sdpMid", JStr "0")])));
            Text None]
           RequestListenSamples.idle
           (fst (candidate_loop RequestListenSamples.blind
                   [Text (Some (RequestListenSamples.candidate_message
                                  (JDict [("candidate", JStr "a");
                                          ("sdpMid", JStr "0")])));
                    Text None]
                   RequestListenSamples.idle))).
  apply surjective_pairing.
Defined.

(** *** The offer, on the connection *)

#[local] Instance grows_by_preorder ok : PreOrder (grows_by ok).
Proof.
  split.
  - intros w. exists []. by rewrite app_nil_r.
  - intros w1 w2 w3 (new1 & E1 & H1) (new2 & E2 & H2).
    exists (new1 ++ new2)%list. rewrite E2, E1, app_assoc.
    split; [done|]. by rewrite forallb_app, H1, H2.
Qed.

Lemma grows_by_same ok w w' : trace w' = trace w -> grows_by ok w w'.
Proof. intros E. exists []. by rewrite app_nil_r. Qed.

Lemma grows_by_log ok e w : ok e = true -> grows_by ok w (log e w).
Proof. intros He. exists [e]. cbn. by rewrite He. Qed.

Lemma grows_by_pc_setLocalDescription ok env :
  ok PcSetLocalDescription = true ->
  relates (grows_by ok) (pc_setLocalDescription env).
Proof.
  intros He w r w' H. unfold pc_setLocalDescription in H.
  destruct (raises env _ _); simplify_eq;
    exists [PcSetLocalDescription]; cbn; by rewrite He.
Qed.

Ltac grows :=
  repeat first
    [ match goal with
      | |- relates ?R (ret _) => apply (relates_ret R)
      | |- relates ?R (raise _) => apply (relates_raise R)
      | |- relates ?R (py_getitem _ _) => apply (relates_py_getitem R)
      | |- relates ?R (py_get _ _ _) => apply (relates_py_get R)
      | |- relates ?R (get _) => apply (relates_get R)
      | |- relates ?R (update _) =>
          apply (relates_update R); intros ?; by apply grows_by_same
      | |- relates ?R (call _ _) =>
          apply (relates_call R); intros ?; by apply grows_by_log
      | |- relates ?R (emit _) =>
          apply (relates_emit R); intros ?; by apply grows_by_log
      | |- relates (grows_by _) (pc_setLocalDescription _) =>
          by apply grows_by_pc_setLocalDescription
      | |- relates ?R (bind _ _) => apply (relates_bind R); [|intros ?]
      | |- relates ?R (try_except _ _) =>
          apply (relates_try_except R); [|intros ?]
      | |- relates _ (if ?b then _ else _) => destruct b
      | |- relates _ (match ?x with _ => _ end) => destruct x
      end ].

(** The effects that a connection can have are any. *)
Lemma grows_negotiate env first :
  relates (grows_by (fun _ => true)) (negotiate env first).
Proof.
  unfold negotiate, receive_offer, receive, validate_offer, generate_answer,
    initialize_browser, pc_setRemoteDescription.
  grows.
Qed.

Lemma grows_candidate_loop env inbound :
  relates (grows_by (fun _ => true)) (candidate_loop env inbound).
Proof.
  apply (candidate_loop_relates (grows_by (fun _ => true))).
  - intros w e. by apply grows_by_log.
  - intros w c. by apply grows_by_same.
Qed.

Lemma grows_cleanup ok env :
  ok PcClose = true -> ok CancelCaptureTask = true ->
  ok (Print LogConnectionClosed) = true ->
  relates (grows_by ok) (cleanup env).
Proof. intros H1 H2 H3. unfold cleanup, stop. grows. Qed.

(** A well-formed offer takes the connection to the making of the answer:
    once the websocket is accepted, the offer is announced and its session
    description is built. *)
Lemma websocket_offer_proceeds env offer rest w :
  well_formed_offer offer ->
  raises env (trace w) WsAccept = false ->
  exists sdp more,
    py_getitem offer "sdp" w = (Ok sdp, w) /\
    new_effects w (snd (websocket_offer env (Text (Some offer) :: rest) w)) =
      WsAccept :: Print (LogOfferReceived (JStr "offer"))
        :: NewSessionDescription sdp (JStr "offer") :: more.
Proof.
  intros Hwf Haccept. unfold websocket_offer.
  unfold bind at 1. unfold call at 1. rewrite Haccept.
  do 3 (unfold bind at 1; unfold update at 1).
  set (w0 := set_track _ _ _ _).
  destruct (negotiate_proceeds env offer w0 Hwf)
    as (sdp & more & Hsdp & Hnew).
  exists sdp.
  assert (Hsdp' : py_getitem offer "sdp" w = (Ok sdp, w)).
  { destruct Hwf as (d & sdp' & -> & Hs & _). unfold py_getitem in *.
    rewrite Hs in *. unfold ret in *. by simplify_eq. }
  destruct (negotiate env (Text (Some offer)) w0) as [r1 w1] eqn:Hneg.
  destruct (grows_negotiate _ _ _ _ _ Hneg) as (new1 & Htr1 & _).
  cbn [snd] in Hnew. rewrite (track_new_effects_app _ _ _ Htr1) in Hnew.
  subst new1.
  assert (Hstart : forall r w' new2,
            trace w' = (trace w1 ++ new2)%list ->
            exists more',
              py_getitem offer "sdp" w = (Ok sdp, w) /\
              new_effects w (snd (r : result Phase, w')) =
                WsAccept :: Print (LogOfferReceived (JStr "offer"))
                  :: NewSessionDescription sdp (JStr "offer") :: more').
  { intros r w' new2 Htr2. exists (more ++ new2)%list. split; [done|].
    cbn [snd]. apply track_new_effects_app. rewrite Htr2, Htr1.
    subst w0. cbn. by rewrite <- !app_assoc. }
  destruct r1 as [u|e].
  - destruct (candidate_loop env rest w1) as [[[|]|e] w2] eqn:Hloop;
      destruct (grows_candidate_loop _ _ _ _ _ Hloop) as (new2 & Htr2 & _).
    + by apply (Hstart _ _ new2).
    + destruct ((cleanup env ;; ret Finished) w2) as [r w3] eqn:Hend.
      assert (Hgrows : relates (grows_by (fun _ => true))
                         (cleanup env ;; ret Finished))
        by (unfold cleanup, stop; grows).
      destruct (Hgrows _ _ _ Hend) as (new3 & Htr3 & _).
      apply (Hstart _ _ (new2 ++ new3)%list).
      by rewrite Htr3, Htr2, app_assoc.
    + destruct ((emit (Print (LogWebSocketError e)) ;; cleanup env ;;
                 ret Finished) w2) as [r w3] eqn:Hend.
      assert (Hgrows : relates (grows_by (fun _ => true))
                         (emit (Print (LogWebSocketError e)) ;;
                          cleanup env ;; ret Finished))
        by (unfold cleanup, stop; grows).
      destruct (Hgrows _ _ _ Hend) as (new3 & Htr3 & _).
      apply (Hstart _ _ (new2 ++ new3)%list).
      by rewrite Htr3, Htr2, app_assoc.
  - destruct ((emit (Print (LogWebSocketError e)) ;; cleanup env ;;
               ret Finished) w1) as [r w3] eqn:Hend.
    assert (Hgrows : relates (grows_by (fun _ => true))
                       (emit (Print (LogWebSocketError e)) ;;
                        cleanup env ;; ret Finished))
      by (unfold cleanup, stop; grows).
    destruct (Hgrows _ _ _ Hend) as (new3 & Htr3 & _).
    by apply (Hstart _ _ new3).
Qed.

(** Any other payload ends the connection there and then: the failure is
    printed and the peer connection closed, nothing of the handshake having
    been done and no further message read. *)
Lemma websocket_offer_refuses env offer rest w :
  ~ well_formed_offer offer ->
  raises env (trace w) WsAccept = false ->
  exists e announced,
    (announced = [] /\ e = AttributeError \/
     exists t msg,
       announced = [Print (LogOfferReceived t)] /\ e = ValueError msg) /\
    websocket_offer env (Text (Some offer) :: rest) w =
      let reported :=
        (trace w ++ WsAccept :: announced
           ++ [Print (LogWebSocketError e)])%list in
      if raises env reported PcClose
      then (Raise ExternalError,
            unanswered true false (reported ++ [PcClose]) w)
      else (Ok Finished,
            unanswered false true
              (reported ++ [PcClose; Print LogConnectionClosed]) w).
Proof.
  intros Hbad Haccept. unfold websocket_offer.
  unfold bind at 1. unfold call at 1. rewrite Haccept.
  do 3 (unfold bind at 1; unfold update at 1).
  set (w0 := set_track _ _ _ _).
  unfold negotiate. unfold bind at 1.
  destruct (receive_offer_refuses offer w0 Hbad) as (e & announced & He & ->).
  exists e, announced. split; [exact He|].
  unfold cleanup, bind, emit, call, update, get, stop, ret.
  subst w0. cbn [trace log with_trace set_track set_in_pcs set_pc].
  cbv zeta. rewrite <- !app_assoc. cbn [app].
  destruct (raises env _ PcClose); cbn; unfold unanswered, log, with_trace;
    cbn; rewrite <- ?app_assoc; cbn [app]; by rewrite <- ?app_assoc.
Qed.

(** C4. The signaling handler accepts an offer exactly when it is a mapping
    with a non-null ['sdp'] and a ['type'] equal to ["offer"].  An accepted
    offer takes the connection on to the making of the answer: after the
    websocket has been accepted the offer is announced and its session
    description built.  Any other payload is fatal to the connection: what
    is not a mapping raises [AttributeError] before it is announced, a
    mapping raises [ValueError] once its type has been printed; the failure
    is printed, the peer connection is closed and taken out of [pcs], and
    the coroutine finishes (or raises, when closing fails) with no
    description set, no track, nothing sent and no further message read. *)
Theorem offer_is_accepted_iff_well_formed env offer w :
  (well_formed_offer offer <->
     fst (receive_offer (Text (Some offer)) w) = Ok offer) /\
  (well_formed_offer offer ->
     exists sdp more,
       py_getitem offer "sdp" w = (Ok sdp, w) /\
       new_effects w (snd (negotiate env (Text (Some offer)) w)) =
         Print (LogOfferReceived (JStr "offer"))
           :: NewSessionDescription sdp (JStr "offer") :: more) /\
  (well_formed_offer offer ->
     raises env (trace w) WsAccept = false ->
     forall rest,
       exists sdp more,
         py_getitem offer "sdp" w = (Ok sdp, w) /\
         new_effects w
           (snd (websocket_offer env (Text (Some offer) :: rest) w)) =
           WsAccept :: Print (LogOfferReceived (JStr "offer"))
             :: NewSessionDescription sdp (JStr "offer") :: more) /\
  (~ well_formed_offer offer ->
     raises env (trace w) WsAccept = false ->
     forall rest,
       exists e announced,
         (announced = [] /\ e = AttributeError \/
          exists t msg,
            announced = [Print (LogOfferReceived t)] /\
            e = ValueError msg) /\
         websocket_offer env (Text (Some offer) :: rest) w =
           let reported :=
             (trace w ++ WsAccept :: announced
                ++ [Print (LogWebSocketError e)])%list in
           if raises env reported PcClose
           then (Raise ExternalError,
                 unanswered true false (reported ++ [PcClose]) w)
           else (Ok Finished,
                 unanswered false true
                   (reported ++ [PcClose; Print LogConnectionClosed]) w)).
Proof.
  split; [|split; [|split]].
  - split.
    + intros Hwf. by rewrite receive_offer_accepts.
    + intros Hok.
      destruct (well_formed_offer_dec offer) as [Hwf|Hbad]; [done|].
      destruct (receive_offer_refuses offer w Hbad) as (e & mid & _ & Hr).
      rewrite Hr in Hok. discriminate Hok.
  - apply negotiate_proceeds.
  - intros Hwf Haccept rest. by apply websocket_offer_proceeds.
  - intros Hbad Haccept rest. by apply websocket_offer_refuses.
Qed.

Example offer_accepted :
  new_effects RequestListenSamples.cold
    (snd (websocket_offer RequestListenSamples.aiortc
            [Text (Some (RequestListenSamples.offer (JStr "x")
                           (JStr "offer")))]
            RequestListenSamples.cold))
  = [WsAccept; Print (LogOfferReceived (JStr "offer"));
     NewSessionDescription (JStr "x") (JStr "offer");
     Print LogInitializingBrowser; StartPlaywright; LaunchBrowser; NewPage;
     PageGoto "http://time.syiban.com/haomiao.php"; PcAddTrack;
     Print (LogWebSocketError ExternalError); PcClose; CancelCaptureTask;
     Print LogConnectionClosed].
Proof. by vm_compute. Qed.

Example offer_without_sdp_rejected :
  websocket_offer RequestListenSamples.aiortc
    [Text (Some (JDict [("type", JStr "offer")])); Text None]
    RequestListenSamples.cold
  = (Ok Finished,
     unanswered false true
       [WsAccept; Print (LogOfferReceived (JStr "offer"));
        Print (LogWebSocketError
                 (ValueError "无效的offer格式：必须包含sdp和type字段"));
        PcClose; Print LogConnectionClosed]
       RequestListenSamples.cold).
Proof. by vm_compute. Qed.

Example offer_of_type_answer_rejected :
  fst (websocket_offer RequestListenSamples.aiortc
         [Text (Some (RequestListenSamples.offer (JStr "x") (JStr "answer")))]
         RequestListenSamples.cold) = Ok Finished /\
  last (removelast
          (removelast
             (trace (snd (websocket_offer RequestListenSamples.aiortc
                            [Text (Some (RequestListenSamples.offer
                                           (JStr "x") (JStr "answer")))]
                            RequestListenSamples.cold)))))
  = Some (Print (LogWebSocketError
                   (ValueError
                      "无效的offer数据：sdp不能为空且类型必须为'offer'"))).
Proof. by vm_compute. Qed.

Example offer_that_is_no_mapping_rejected :
  websocket_offer RequestListenSamples.aiortc
    [Text (Some (JStr "offer"))] RequestListenSamples.cold
  = (Ok Finished,
     unanswered false true
       [WsAccept; Print (LogWebSocketError AttributeError); PcClose;
        Print LogConnectionClosed]
       RequestListenSamples.cold).
Proof. by vm_compute. Qed.

(** *** Where the handshake stops *)

Section Stops.

Context {S : Type} (R : relation S) `{!PreOrder R}.

Lemma stops_bind_now {A B} (m : M S A) (k : A -> M S B) :
  stops R m -> stops R (bind m k).
Proof.
  intros Hm s r s' H.
  apply bind_inv in H as [(a & s1 & H1 & H2)|(e & H1 & ->)].
  - by destruct (Hm _ _ _ H1) as (_ & e & [=]).
  - split; [|by eauto]. by destruct (Hm _ _ _ H1).
Qed.

Lemma stops_bind_later {A B} (m : M S A) (k : A -> M S B) :
  relates R m -> (forall a, stops R (k a)) -> stops R (bind m k).
Proof.
  intros Hm Hk s r s' H.
  apply bind_inv in H as [(a & s1 & H1 & H2)|(e & H1 & ->)].
  - destruct (Hk _ _ _ _ H2) as (HR & He). split; [|done].
    etrans; [exact (Hm _ _ _ H1)|exact HR].
  - split; [exact (Hm _ _ _ H1)|by eauto].
Qed.

End Stops.

(** With a peer connection that cannot take a track, the handshake raises
    before the offer is set as the remote description. *)
Lemma negotiate_stops env first :
  refuses_dict_configuration env ->
  stops (grows_by before_the_answer) (negotiate env first).
Proof.
  intros Hrefuses. unfold negotiate.
  apply (stops_bind_later (grows_by before_the_answer)).
  { unfold receive_offer, receive, validate_offer. grows. }
  intros offer. unfold generate_answer.
  do 2 (apply (stops_bind_later (grows_by before_the_answer));
        [grows|intros ?]).
  apply (stops_bind_later (grows_by before_the_answer)); [grows|intros ?].
  apply (stops_bind_later (grows_by before_the_answer));
    [unfold initialize_browser; grows|intros ?].
  apply (stops_bind_later (grows_by before_the_answer)); [grows|intros ?].
  apply (stops_bind_now (grows_by before_the_answer)).
  intros w r w' H. unfold call in H. rewrite Hrefuses in H.
  simplify_eq. split; [by apply grows_by_log|by eauto].
Qed.

Lemma websocket_offer_stops env inbound w r w' :
  refuses_dict_configuration env ->
  websocket_offer env inbound w = (r, w') ->
  r <> Ok AwaitingCandidates /\
  grows_by before_the_answer w w' /\
  websocket_offer env (firstn 1 inbound) w = (r, w').
Proof.
  intros Hrefuses H. unfold websocket_offer in *.
  apply bind_inv in H as [(u & wa & Haccept & H)|(e & Haccept & ->)].
  2:{ rewrite (bind_raise _ _ _ _ _ Haccept). split; [done|].
      split; [|done].
      assert (Hcall : relates (grows_by before_the_answer)
                        (call env WsAccept)) by grows.
      exact (Hcall _ _ _ Haccept). }
  rewrite (bind_ok _ _ _ _ _ Haccept).
  assert (Hwa : grows_by before_the_answer w wa).
  { assert (Hcall : relates (grows_by before_the_answer)
                      (call env WsAccept)) by grows.
    exact (Hcall _ _ _ Haccept). }
  do 3 (unfold bind at 1 in H; unfold update at 1 in H).
  do 3 (unfold bind at 1; unfold update at 1).
  set (w0 := set_track _ _ _ _) in *.
  assert (Hw0 : grows_by before_the_answer w w0).
  { etrans; [exact Hwa|]. by apply grows_by_same. }
  destruct inbound as [|first rest].
  { cbn [firstn]. unfold ret in *. by simplify_eq. }
  cbn [firstn]. cbv beta in *.
  destruct (negotiate env first w0) as [r1 w1] eqn:Hneg.
  destruct (negotiate_stops env first Hrefuses _ _ _ Hneg) as (Hw1 & e & ->).
  assert (Hgrows : relates (grows_by before_the_answer)
                     (emit (Print (LogWebSocketError e)) ;;
                      cleanup env ;; ret Finished))
    by (unfold cleanup, stop; grows).
  pose proof (Hgrows _ _ _ H) as Hw2.
  split; [|split; [|done]].
  - intros ->.
    repeat (apply bind_ok_inv in H as (? & ? & _ & H)).
    discriminate H.
  - etrans; [exact Hw0|]. etrans; [exact Hw1|exact Hw2].
Qed.

(** X21. [pc.addTrack] raises on a peer connection that was given a [dict]
    for its configuration, so that no connection gets past the handshake:
    the coroutine never comes to wait for candidates; no description is
    set, no answer is made or sent and no candidate message is handled;
    and what arrives after the first message is never read. *)
Theorem the_handshake_stops_at_addTrack env inbound w :
  refuses_dict_configuration env ->
  fst (websocket_offer env inbound w) <> Ok AwaitingCandidates /\
  grows_by before_the_answer w (snd (websocket_offer env inbound w)) /\
  websocket_offer env inbound w = websocket_offer env (firstn 1 inbound) w.
Proof.
  intros Hrefuses.
  destruct (websocket_offer env inbound w) as [r w'] eqn:H.
  destruct (websocket_offer_stops env inbound w r w' Hrefuses H)
    as (Hr & Hw' & Hfirst).
  by rewrite Hfirst.
Qed.

Lemma refuses_dict_configuration_aiortc :
  refuses_dict_configuration RequestListenSamples.aiortc.
Proof. by intros tr. Qed.

Lemma the_handshake_stops_at_addTrack_witness :
  fst (websocket_offer RequestListenSamples.aiortc
         [Text (Some (RequestListenSamples.offer (JStr "v=0")
                        (JStr "offer")));
          Text (Some (RequestListenSamples.candidate_message
                        (JDict [("candidate", JStr "c");
                                ("sdpMid", JStr "0")])))]
         RequestListenSamples.cold) <> Ok AwaitingCandidates /\
  grows_by before_the_answer RequestListenSamples.cold
    (snd (websocket_offer RequestListenSamples.aiortc
            [Text (Some (RequestListenSamples.offer (JStr "v=0")
                           (JStr "offer")));
             Text (Some (RequestListenSamples.candidate_message
                           (JDict [("candidate", JStr "c");
                                   ("sdpMid", JStr "0")])))]
            RequestListenSamples.cold)) /\
  websocket_offer RequestListenSamples.aiortc
    [Text (Some (RequestListenSamples.offer (JStr "v=0") (JStr "offer")));
     Text (Some (RequestListenSamples.candidate_message
                   (JDict [("candidate", JStr "c");
                           ("sdpMid", JStr "0")])))]
    RequestListenSamples.cold
  = websocket_offer RequestListenSamples.aiortc
      (firstn 1
         [Text (Some (RequestListenSamples.offer (JStr "v=0")
                        (JStr "offer")));
          Text (Some (RequestListenSamples.candidate_message
                        (JDict [("candidate", JStr "c");
                                ("sdpMid", JStr "0")])))])
      RequestListenSamples.cold.
Proof.
  apply (the_handshake_stops_at_addTrack RequestListenSamples.aiortc
           [Text (Some (RequestListenSamples.offer (JStr "v=0")
                          (JStr "offer")));
            Text (Some (RequestListenSamples.candidate_message
                          (JDict [("candidate", JStr "c");
                                  ("sdpMid", JStr "0")])))]
           RequestListenSamples.cold
           refuses_dict_configuration_aiortc).
Defined.

End RequestListenFacts.
